(** * Business KPI Analyzer: a shallow embedding of [ai_logic.py] and
    [features.py], and the properties of its specification.

    Conventions of the embedding.
    - A Python [str] is a Rocq [string]: the sequence of the bytes of its
      UTF-8 encoding.  [s.encode("utf-8")] is therefore the identity, and
      [str.lower] is modelled on the ASCII letters only.
    - A Python exception is a value [exn]; code that may raise lives in the
      monad [M], which also records every call made to the remote
      generative-AI service in a log of [Event]s.  [exn] stands for the
      instances of [Exception], which is what the handlers of the source
      catch; [KeyboardInterrupt] and [SystemExit] are outside the model.
    - [print] writes to a standard output that may refuse the text (an
      encoding that cannot represent it, a closed stream): it is a function
      of the environment that may raise, and it is not a call to the
      service.
    - The collaborators the code reaches through libraries (the remote
      service, the pandas parsers, tabulate, the markdown renderer) are the
      fields of the records [GenAI] and [Library]; every theorem quantifies
      over them. *)

From Stdlib Require Import String Ascii List Bool Arith NArith ZArith Lia.
From Stdlib Require Import QArith Qround Reals Qreals Lra.
Import ListNotations.

Local Close Scope R_scope.
Local Close Scope Q_scope.
Local Open Scope list_scope.
Local Open Scope string_scope.

(** ** Python string operations used by the source *)

Module Py.

(** [s.startswith(p)] *)
Definition startswith (s p : string) : bool := String.prefix p s.

(** [sub in s] for strings *)
Fixpoint contains (sub s : string) : bool :=
  String.prefix sub s
  || match s with
     | EmptyString => false
     | String _ t => contains sub t
     end.

(** [x in l] for a list of strings *)
Definition mem (x : string) (l : list string) : bool :=
  existsb (String.eqb x) l.

(** [s.split(sep)] for a one-character separator: never the empty list. *)
Fixpoint split (sep : ascii) (s : string) : list string :=
  match s with
  | EmptyString => [EmptyString]
  | String c t =>
      if Ascii.eqb c sep then EmptyString :: split sep t
      else match split sep t with
           | [] => [String c EmptyString]
           | h :: r => String c h :: r
           end
  end.

(** [l[0]] and [l[-1]] on the result of a split *)
Definition first (l : list string) : string := hd EmptyString l.
Definition last (l : list string) : string := List.last l EmptyString.

Definition lower_ascii (c : ascii) : ascii :=
  let n := nat_of_ascii c in
  if ((65 <=? n) && (n <=? 90))%nat then ascii_of_nat (n + 32) else c.

(** [s.lower()] *)
Fixpoint lower (s : string) : string :=
  match s with
  | EmptyString => EmptyString
  | String c t => String (lower_ascii c) (lower t)
  end.

(** [s.replace(old, new)] for a non-empty [old]: every occurrence, left to
    right, without overlap.  [skip] counts the characters of a match that
    are still to be dropped. *)
Fixpoint replace_from (old new : string) (skip : nat) (s : string) : string :=
  match s with
  | EmptyString => EmptyString
  | String c t =>
      match skip with
      | S k => replace_from old new k t
      | O =>
          if String.prefix old s
          then new ++ replace_from old new (String.length old - 1) t
          else String c (replace_from old new 0 t)
      end
  end.

Definition replace (old new s : string) : string :=
  match old with
  | EmptyString => s
  | _ => replace_from old new 0 s
  end.

(** truth value of a string and of a list *)
Definition truthy (s : string) : bool :=
  match s with EmptyString => false | _ => true end.

Definition nonempty {A} (l : list A) : bool :=
  match l with [] => false | _ => true end.

End Py.

(** ** Exceptions, the log of remote calls, and the monad of the code *)

Record exn := Exn { exn_type : string; exn_msg : string }.

(** [f"{e}"] *)
Definition str_of (e : exn) : string := exn_msg e.

Definition ValueError (m : string) : exn := Exn "ValueError" m.
Definition ConnectionError (m : string) : exn := Exn "ConnectionError" m.

Inductive result (A : Type) : Type :=
| Ok (a : A)
| Raised (e : exn).
Arguments Ok {A} a.
Arguments Raised {A} e.

(** sequencing of library calls that may raise *)
Definition and_then {A B} (r : result A) (k : A -> result B) : result B :=
  match r with
  | Ok a => k a
  | Raised e => Raised e
  end.

Notation "x <~ r ;; k" := (and_then r (fun x => k))
  (at level 61, r at next level, right associativity).

(** A turn as the provider takes it: [{"role": r, "parts": [text]}]. *)
Record Turn := mkTurn { role : string; parts : list string }.

(** A Python dict with text keys and text values, as the items of the chat
    history are: the value of the first entry with the key. *)
Definition Dict : Type := list (string * string).

Definition KeyError (key : string) : exn :=
  Exn "KeyError" ("'" ++ key ++ "'").

(** [d[key]] *)
Fixpoint getitem (d : Dict) (key : string) : result string :=
  match d with
  | [] => Raised (KeyError key)
  | (k, v) :: rest => if String.eqb k key then Ok v else getitem rest key
  end.

(** An item of the chat history: a dict, of which the code reads the keys
    "role" and "content". *)
Definition Message : Type := Dict.

(** A turn as the caller keeps it: [{"role": r, "content": text}]. *)
Definition mkMessage (role content : string) : Message :=
  [("role", role); ("content", content)].

(** One entry per call made to the [google.generativeai] client. *)
Inductive Event : Type :=
| EvConfigure (api_key : string)
| EvListModels
| EvGenerativeModel (model_name : string)
| EvGenerateContent (model_name prompt : string) (temperature : Q)
| EvStartChat (model_name : string) (history : list Turn)
| EvSendMessage (message : string).

Definition M (A : Type) : Type := list Event -> result A * list Event.

Definition ret {A} (a : A) : M A := fun log => (Ok a, log).

Definition raise {A} (e : exn) : M A := fun log => (Raised e, log).

Definition bind {A B} (m : M A) (k : A -> M B) : M B :=
  fun log =>
    match m log with
    | (Ok a, log') => k a log'
    | (Raised e, log') => (Raised e, log')
    end.

(** [try: m  except Exception as e: h e] *)
Definition try_except {A} (m : M A) (h : exn -> M A) : M A :=
  fun log =>
    match m log with
    | (Ok a, log') => (Ok a, log')
    | (Raised e, log') => h e log'
    end.

(** a library value that was computed without reaching the service *)
Definition lift {A} (r : result A) : M A := fun log => (r, log).

(** a call to the service: logged, then answered by [r] *)
Definition call {A} (ev : Event) (r : result A) : M A :=
  fun log => (r, (log ++ [ev])%list).

Notation "x <- m ;; k" := (bind m (fun x => k))
  (at level 61, m at next level, right associativity).
Notation "m ;;; k" := (bind m (fun _ => k))
  (at level 61, right associativity).

Definition outcome {A} (m : M A) : result A := fst (m []).
Definition sent {A} (m : M A) : list Event := snd (m []).

(** ** The remote generative-AI capability, as [ai_logic.py] uses it *)

(** An entry of [genai.list_models()]; [None] when the object has no
    attribute [supported_generation_methods]. *)
Record ModelInfo := mkModelInfo {
  name : string;
  supported_generation_methods : option (list string)
}.

(** [response.candidates[i]]: reading [.text] may raise. *)
Record Candidate := mkCandidate { cand_text : result string }.

(** A response object: each accessor may raise. *)
Record Response := mkResponse {
  resp_parts : result (list string);
  resp_text : result string;
  resp_candidates : result (list Candidate)
}.

(** Everything the module obtains from its environment and from the
    [google.generativeai] client.  A generation call answers [Ok None] for a
    response object that is false in a boolean context.  [print] is the
    built-in writing a line to the standard output: it raises when the
    stream rejects the text (an encoding that lacks a character, a closed
    stream). *)
Record GenAI := mkGenAI {
  GOOGLE_API_KEY : option string;
  configure : string -> result unit;
  list_models : result (list ModelInfo);
  GenerativeModel : string -> result unit;
  generate_content : string -> string -> Q -> result (option Response);
  start_chat : string -> list Turn -> result unit;
  send_message : string -> list Turn -> string -> result (option Response);
  print : string -> result unit
}.

Section AiLogic.

Variable ai : GenAI.

Definition supports_generateContent (m : ModelInfo) : bool :=
  match supported_generation_methods m with
  | Some methods => Py.mem "generateContent" methods
  | None => false
  end.

Definition not_embedding_or_aqa (model_name : string) : bool :=
  negb (Py.contains "embedding" model_name)
  && negb (Py.contains "aqa" model_name).

(** ai_logic.py, lines 6-37 *)
Definition _get_suitable_model : M string :=
  try_except
    (available_models <- call EvListModels (list_models ai) ;;
     let supported_models_names :=
       map name (filter supports_generateContent available_models) in
     if Py.mem "models/gemini-1.5-flash-latest" supported_models_names
     then ret "gemini-1.5-flash-latest"
     else if Py.mem "models/gemini-1.0-pro" supported_models_names
     then ret "gemini-1.0-pro"
     else if Py.mem "models/gemini-pro" supported_models_names
     then ret "gemini-pro"
     else if Py.nonempty supported_models_names
     then match find not_embedding_or_aqa supported_models_names with
          | Some model_name => ret (Py.replace "models/" "" model_name)
          | None =>
              raise (ValueError "No suitable text generation model found that supports generateContent after filtering.")
          end
     else raise (ValueError "No models found that support generateContent."))
    (fun e =>
       raise (ConnectionError
                ("Failed to list or select a suitable Generative AI model: "
                 ++ str_of e))).

(** ai_logic.py, lines 39-47 *)
Definition _configure_genai : M unit :=
  match GOOGLE_API_KEY ai with
  | Some key =>
      if Py.truthy key then call (EvConfigure key) (configure ai key)
      else raise (ValueError "GOOGLE_API_KEY is not set in your .env file.")
  | None => raise (ValueError "GOOGLE_API_KEY is not set in your .env file.")
  end.

(** lines 62-65 and 119-122: the body of the first [try] of both entry
    points, which differ in the name [entry] they print ("KPI Summary",
    "Chatbot"); the value is the name of the model in use. *)
Definition initialize_model (entry : string) : M string :=
  _configure_genai ;;;
  model_name <- _get_suitable_model ;;
  call (EvGenerativeModel model_name) (GenerativeModel ai model_name) ;;;
  lift (print ai ("DEBUG: " ++ entry ++ " - Using model: " ++ model_name)) ;;;
  ret model_name.

Definition kpi_prompt (kpi_data_markdown : string) : string :=
  "
    You are a Business Intelligence Analyst. Your task is to analyze the following business KPI data
    and provide a concise, natural-language summary. Highlight key trends, spikes, and anomalies.
    Keep the summary professional and actionable for decision-makers.

    ---
    KPI Data:
    " ++ kpi_data_markdown ++ "
    ---

    Provide your summary focusing on:
    - Overall performance across key metrics (e.g., Revenue, Churn, Conversion).
    - Significant increases or decreases (spikes/dips).
    - Emerging trends.
    - Any outliers or unusual data points.
    - Potential implications or areas for further investigation.

    Format your output clearly with bullet points or a coherent paragraph structure.
    ".

Definition kpi_fallback : string :=
  "AI response structure not as expected for KPI summary. Could not extract text.".

Definition chat_fallback : string :=
  "AI chatbot response structure not as expected. Could not extract text.".

(** lines 94-99 and 152-157: the text of a response, or [fallback]. *)
Definition extract_text (fallback : string) (response : option Response)
  : M string :=
  match response with
  | None => ret fallback
  | Some r =>
      ps <- lift (resp_parts r) ;;
      if Py.nonempty ps then lift (resp_text r)
      else
        cs <- lift (resp_candidates r) ;;
        match cs with
        | [] => ret fallback
        | c :: _ =>
            t <- lift (cand_text c) ;;
            if Py.truthy t then lift (cand_text c) else ret fallback
        end
  end.

Definition temperature : Q := (2 # 10)%Q.

(** line 67 *)
Definition init_error (e : exn) : string :=
  "ERROR: Could not initialize Generative Model for KPI summary: "
  ++ str_of e.

(** line 102 *)
Definition call_error (e : exn) : string :=
  "ERROR: An error occurred while calling the Google Generative AI API for KPI summary: "
  ++ str_of e.

(** lines 100-102, the handler of the second [try]: the print is not
    protected, what it raises leaves the function *)
Definition kpi_call_handler (e : exn) : M string :=
  lift (print ai ("DEBUG: Error during LLM API call for KPI summary: "
                  ++ str_of e)) ;;;
  ret (call_error e).

(** ai_logic.py, lines 50-102 *)
Definition generate_kpi_summary (kpi_data_markdown : string) : M string :=
  init <- try_except
            (model_name <- initialize_model "KPI Summary" ;;
             ret (inl model_name))
            (fun e => ret (inr (init_error e))) ;;
  match init with
  | inr error_text => ret error_text
  | inl model_name =>
      let prompt := kpi_prompt kpi_data_markdown in
      try_except
        (response <- call (EvGenerateContent model_name prompt temperature)
                          (generate_content ai model_name prompt temperature) ;;
         extract_text kpi_fallback response)
        kpi_call_handler
  end.

Definition nl : string := String (ascii_of_nat 10) EmptyString.

(** lines 128-136 *)
Definition initial_message (context_data_markdown : string) : Turn :=
  mkTurn "user"
    [ "You are a helpful Business Intelligence chatbot. You are provided with business KPI data below. "
      ++ "Answer questions about this data naturally and concisely. If the question is outside the scope "
      ++ "of the provided data or general business knowledge, state that you cannot answer." ++ nl ++ nl
      ++ "--- KPI Data Context ---" ++ nl ++ context_data_markdown ++ nl
      ++ "--- End KPI Data Context ---" ].

(** the provider role of a caller role, line 144 *)
Definition provider_role (caller_role : string) : string :=
  if String.eqb caller_role "user" then "user" else "model".

(** lines 144-145, one iteration of the loop: [msg["role"]] is read first,
    then [msg["content"]]; a missing key raises [KeyError] *)
Definition format_message (msg : Message) : result Turn :=
  caller_role <~ getitem msg "role" ;;
  content <~ getitem msg "content" ;;
  Ok (mkTurn (provider_role caller_role) [content]).

(** the loop of lines 143-145: it stops at the first item that raises *)
Fixpoint format_messages (chat_history : list Message) : result (list Turn) :=
  match chat_history with
  | [] => Ok []
  | msg :: rest =>
      turn <~ format_message msg ;;
      turns <~ format_messages rest ;;
      Ok (turn :: turns)
  end.

(** lines 139-145 *)
Definition formatted_history (chat_history : list Message)
  : result (list Turn) :=
  if Py.nonempty chat_history then format_messages chat_history else Ok [].

(** line 160 *)
Definition chat_call_error (e : exn) : string :=
  "ERROR: An error occurred while calling the Google Generative AI API for chatbot: "
  ++ str_of e.

(** lines 158-160, the handler of the second [try]: the print is not
    protected, what it raises leaves the function *)
Definition chat_call_handler (e : exn) : M string :=
  lift (print ai ("DEBUG: Error during LLM API call for chatbot: "
                  ++ str_of e)) ;;;
  ret (chat_call_error e).

(** ai_logic.py, lines 105-160.  The loop over the history (lines 139-145)
    and [start_chat] (line 148) are outside both [try] blocks: what they
    raise leaves the function. *)
Definition chat_with_llm (context_data_markdown user_query : string)
                         (chat_history : list Message) : M string :=
  init <- try_except
            (model_name <- initialize_model "Chatbot" ;; ret (inl model_name))
            (fun e =>
               ret (inr ("ERROR: Could not initialize Generative Model for chatbot: "
                         ++ str_of e))) ;;
  match init with
  | inr error_text => ret error_text
  | inl model_name =>
      formatted_history <- lift (formatted_history chat_history) ;;
      let history :=
        ([initial_message context_data_markdown] ++ formatted_history)%list in
      call (EvStartChat model_name history) (start_chat ai model_name history) ;;;
      try_except
        (response <- call (EvSendMessage user_query)
                          (send_message ai model_name history user_query) ;;
         extract_text chat_fallback response)
        chat_call_handler
  end.

End AiLogic.

(** The sequence of turns the provider receives for a chat session opened
    with [history] in which [message] is sent: the history, then the message
    as a turn of role user.  [None] when the log holds no such exchange. *)
Fixpoint provider_turns (log : list Event) : option (list Turn) :=
  match log with
  | EvStartChat _ history :: EvSendMessage message :: _ =>
      Some (history ++ [mkTurn "user" [message]])%list
  | _ :: rest => provider_turns rest
  | [] => None
  end.

(** ** Base64 and data URIs *)

Module Base64.

Local Open Scope N_scope.

Definition alphabet : string :=
  "ABCDEFGHIJKLMNOPQRSTUVWXYZabcdefghijklmnopqrstuvwxyz0123456789+/".

Definition pad : ascii := "="%char.

(** the character of a 6-bit value *)
Definition char_of (i : N) : ascii :=
  match String.get (N.to_nat i) alphabet with
  | Some c => c
  | None => pad
  end.

(** the 6-bit value of a character of the alphabet *)
Definition index_of (c : ascii) : option N :=
  let n := N_of_ascii c in
  if (65 <=? n) && (n <=? 90) then Some (n - 65)
  else if (97 <=? n) && (n <=? 122) then Some (n - 71)
  else if (48 <=? n) && (n <=? 57) then Some (n + 4)
  else if n =? 43 then Some 62
  else if n =? 47 then Some 63
  else None.

(** Modelled from the spec: [base64.b64encode] of the Python standard
    library, which is not part of the repository: RFC 4648 with the
    standard alphabet, three bytes to four characters, padded with '='. *)
Fixpoint b64encode (s : string) : string :=
  match s with
  | EmptyString => EmptyString
  | String a EmptyString =>
      let x := N_of_ascii a in
      String (char_of (x / 4))
        (String (char_of ((x mod 4) * 16))
           (String pad (String pad EmptyString)))
  | String a (String b EmptyString) =>
      let x := N_of_ascii a in
      let y := N_of_ascii b in
      String (char_of (x / 4))
        (String (char_of ((x mod 4) * 16 + y / 16))
           (String (char_of ((y mod 16) * 4))
              (String pad EmptyString)))
  | String a (String b (String c t)) =>
      let x := N_of_ascii a in
      let y := N_of_ascii b in
      let z := N_of_ascii c in
      String (char_of (x / 4))
        (String (char_of ((x mod 4) * 16 + y / 16))
           (String (char_of ((y mod 16) * 4 + z / 64))
              (String (char_of (z mod 64)) (b64encode t))))
  end.

Definition is_empty (s : string) : bool :=
  match s with EmptyString => true | _ => false end.

(** The strict decoder of RFC 4648: groups of four characters, padding
    only in the last group; [None] on anything else. *)
Fixpoint b64decode (s : string) : option string :=
  match s with
  | EmptyString => Some EmptyString
  | String c0 (String c1 (String c2 (String c3 t))) =>
      match index_of c0, index_of c1 with
      | Some i0, Some i1 =>
          let b0 := ascii_of_N (i0 * 4 + i1 / 16) in
          if Ascii.eqb c2 pad then
            if Ascii.eqb c3 pad && is_empty t
            then Some (String b0 EmptyString) else None
          else
            match index_of c2 with
            | Some i2 =>
                let b1 := ascii_of_N ((i1 mod 16) * 16 + i2 / 4) in
                if Ascii.eqb c3 pad then
                  if is_empty t
                  then Some (String b0 (String b1 EmptyString)) else None
                else
                  match index_of c3 with
                  | Some i3 =>
                      let b2 := ascii_of_N ((i2 mod 4) * 64 + i3) in
                      option_map
                        (fun r => String b0 (String b1 (String b2 r)))
                        (b64decode t)
                  | None => None
                  end
            | None => None
            end
      | _, _ => None
      end
  | _ => None
  end.

End Base64.

Module DataUri.

(** [s] without the prefix [p], when it starts with it *)
Fixpoint strip_prefix (p s : string) : option string :=
  match p, s with
  | EmptyString, _ => Some s
  | String a p', String b s' =>
      if Ascii.eqb a b then strip_prefix p' s' else None
  | String _ _, EmptyString => None
  end.

(** [s] cut at the first [sep]: what is before, what is after *)
Fixpoint break_at (sep : ascii) (s : string) : option (string * string) :=
  match s with
  | EmptyString => None
  | String c t =>
      if Ascii.eqb c sep then Some (EmptyString, t)
      else match break_at sep t with
           | Some (before, after) => Some (String c before, after)
           | None => None
           end
  end.

(** [data:<mime>;base64,<payload>] read back as [(mime, payload)] *)
Definition parse (link : string) : option (string * string) :=
  match strip_prefix "data:" link with
  | Some rest =>
      match break_at ";"%char rest with
      | Some (mime, rest') =>
          match strip_prefix "base64," rest' with
          | Some payload => Some (mime, payload)
          | None => None
          end
      | None => None
      end
  | None => None
  end.

Definition mime_type (link : string) : option string :=
  option_map fst (parse link).

(** the bytes a data URI carries *)
Definition decoded (link : string) : option string :=
  match parse link with
  | Some (_, payload) => Base64.b64decode payload
  | None => None
  end.

End DataUri.

(** ** Tables and their statistical digest *)

(** Modelled from the spec: a column of a Table, a sequence of typed cells
    (numeric, textual or temporal); [None] is a missing cell.  Only [NumCol]
    has a numeric dtype. *)
Inductive Column : Type :=
| NumCol (cells : list (option Q))
| TextCol (cells : list (option string))
| TimeCol (cells : list (option Z)).

(** Modelled from the spec: the Table, a pandas [DataFrame] (pandas is not
    part of the repository): the length of its index and its named columns,
    in order. *)
Record DataFrame := mkDataFrame {
  nrows : nat;
  columns : list (string * Column)
}.

(** Modelled from the spec: [df.empty] of pandas, true when some axis has
    length 0 (no row, or no column). *)
Definition df_empty (df : DataFrame) : bool :=
  (nrows df =? 0)%nat || negb (Py.nonempty (columns df)).

Definition is_numeric (c : string * Column) : bool :=
  match snd c with NumCol _ => true | _ => false end.

(** Modelled from the spec: [df.select_dtypes(include=['number'])] of
    pandas, the columns of numeric dtype, in their order, on the same
    index. *)
Definition select_dtypes_number (df : DataFrame) : DataFrame :=
  mkDataFrame (nrows df) (filter is_numeric (columns df)).

(** A statistic: a rational, the square root of a rational, or NaN (the
    statistic of too few values). *)
Inductive Stat : Type :=
| Exact (q : Q)
| Sqrt (q : Q)
| NaN.

(** A table of statistics: row labels, column labels, rows of cells. *)
Record Frame := mkFrame {
  index : list string;
  header : list string;
  body : list (list Stat)
}.

Module Stats.

Local Open Scope Q_scope.

(** the non-missing values of a column *)
Definition values (c : Column) : list Q :=
  match c with
  | NumCol cells =>
      flat_map (fun x => match x with Some q => [q] | None => [] end) cells
  | _ => []
  end.

Definition sum (xs : list Q) : Q := fold_right Qplus 0 xs.

Definition of_nat (n : nat) : Q := inject_Z (Z.of_nat n).

Fixpoint insert (x : Q) (xs : list Q) : list Q :=
  match xs with
  | [] => [x]
  | y :: ys => if Qle_bool x y then x :: xs else y :: insert x ys
  end.

Definition sort (xs : list Q) : list Q := fold_right insert [] xs.

Definition count (xs : list Q) : Stat := Exact (of_nat (length xs)).

Definition mean_q (xs : list Q) : Q := sum xs / of_nat (length xs).

Definition mean (xs : list Q) : Stat :=
  match xs with
  | [] => NaN
  | _ => Exact (Qred (mean_q xs))
  end.

(** the sample variance, with divisor n - 1 *)
Definition variance_q (xs : list Q) : Q :=
  let m := mean_q xs in
  sum (map (fun x => (x - m) * (x - m)) xs) / of_nat (length xs - 1).

Definition std (xs : list Q) : Stat :=
  match xs with
  | [] | [_] => NaN
  | _ => Sqrt (Qred (variance_q xs))
  end.

(** the quantile of order [p], by linear interpolation between the two
    closest ranks of the sorted values *)
Definition quantile (p : Q) (xs : list Q) : Stat :=
  match sort xs with
  | [] => NaN
  | (x0 :: _) as sorted =>
      let pos := of_nat (length sorted - 1) * p in
      let lo := Z.to_nat (Qfloor pos) in
      let frac := pos - inject_Z (Qfloor pos) in
      let below := nth lo sorted x0 in
      let above := nth (S lo) sorted below in
      Exact (Qred (below + frac * (above - below)))
  end.

Definition min (xs : list Q) : Stat :=
  match sort xs with
  | [] => NaN
  | x0 :: _ => Exact (Qred x0)
  end.

Definition max (xs : list Q) : Stat :=
  match sort xs with
  | [] => NaN
  | (x0 :: _) as sorted => Exact (Qred (List.last sorted x0))
  end.

(** the statistics of [describe], in its order *)
Definition names : list string :=
  ["count"; "mean"; "std"; "min"; "25%"; "50%"; "75%"; "max"]%string.

Definition functions : list (list Q -> Stat) :=
  [count; mean; std; min; quantile (1 # 4); quantile (1 # 2);
   quantile (3 # 4); max].

End Stats.

(** Modelled from the spec: [DataFrame.describe] of pandas, which is not
    part of the repository, on a table of numeric columns: one row per
    statistic (count, mean, std, min, 25%, 50%, 75%, max), one column per
    column of the table, each statistic over the non-missing values, the
    standard deviation with divisor n - 1. *)
Definition describe (numeric_df : DataFrame) : Frame :=
  mkFrame Stats.names
          (map fst (columns numeric_df))
          (map (fun f => map (fun c => f (Stats.values (snd c)))
                             (columns numeric_df))
               Stats.functions).

(** Modelled from the spec: [DataFrame.transpose] of pandas, rows and
    columns exchanged. *)
Definition transpose (f : Frame) : Frame :=
  mkFrame (header f)
          (index f)
          (map (fun j => map (fun row => nth j row NaN) (body f))
               (seq 0 (length (header f)))).

(** the statistics of one column, in the order of [describe] *)
Definition digest_row (c : string * Column) : list Stat :=
  map (fun f => f (Stats.values (snd c))) Stats.functions.

(** the value of a statistic as a real number *)
Definition stat_value (s : Stat) : option R :=
  match s with
  | Exact q => Some (Q2R q)
  | Sqrt q => Some (sqrt (Q2R q))
  | NaN => None
  end.

(** the cell of a frame at a row label and a column label *)
Fixpoint position (x : string) (l : list string) : option nat :=
  match l with
  | [] => None
  | y :: r => if String.eqb x y then Some 0%nat
              else option_map S (position x r)
  end.

Definition cell (f : Frame) (row col : string) : option Stat :=
  match position row (index f), position col (header f) with
  | Some i, Some j => nth_error (nth i (body f) []) j
  | _, _ => None
  end.

(** ** features.py *)

(** The library functions [features.py] calls: each may raise. *)
Record Library := mkLibrary {
  decode_utf8 : string -> result string;
  read_csv : string -> result DataFrame;
  read_excel : string -> result DataFrame;
  read_json : string -> result DataFrame;
  to_markdown : Frame -> result string;
  markdown_markdown : string -> result string
}.

(** An uploaded file: its name and its bytes ([getvalue()]). *)
Record UploadedFile := mkUploadedFile {
  file_name : string;
  getvalue : string
}.

Section Features.

Variable lib : Library.
Variable ai : GenAI.

Definition dot : ascii := "."%char.
Definition dq : string := String (ascii_of_nat 34) EmptyString.

(** line 28 *)
Definition file_extension (file_name : string) : string :=
  Py.lower (Py.last (Py.split dot file_name)).

Definition unsupported_file_type : string :=
  "Unsupported file type. Please upload a CSV, Excel (.xls, .xlsx), or JSON file.".

Definition no_numerical_data : string :=
  "No numerical data found for statistical summary.".

Definition empty_file : string :=
  "Uploaded file is empty or contains no data.".

(** lines 31-40: the table of a file, or [None] for a suffix that has no
    parser *)
Definition load (uploaded_file : UploadedFile)
  : result (option DataFrame) :=
  let file_extension := file_extension (file_name uploaded_file) in
  let file_content := getvalue uploaded_file in
  if String.eqb file_extension "csv" then
    text <~ decode_utf8 lib file_content ;;
    df <~ read_csv lib text ;;
    Ok (Some df)
  else if Py.mem file_extension ["xls"; "xlsx"] then
    df <~ read_excel lib file_content ;;
    Ok (Some df)
  else if String.eqb file_extension "json" then
    text <~ decode_utf8 lib file_content ;;
    df <~ read_json lib text ;;
    Ok (Some df)
  else Ok None.

(** lines 42-53 and 59, for a table a parser returned *)
Definition summarize (df : DataFrame)
  : result (option DataFrame * option string * option string) :=
  if negb (df_empty df) then
    let numeric_df := select_dtypes_number df in
    if negb (df_empty numeric_df) then
      let kpi_description := transpose (describe numeric_df) in
      kpi_description_markdown <~ to_markdown lib kpi_description ;;
      Ok (Some df, Some kpi_description_markdown, None)
    else Ok (Some df, Some no_numerical_data, None)
  else Ok (None, None, Some empty_file).

(** features.py, lines 8-59 *)
Definition ingest_and_summarize_kpis (uploaded_file : UploadedFile)
  : option DataFrame * option string * option string :=
  match (parsed <~ load uploaded_file ;;
         match parsed with
         | None => Ok (None, None, Some unsupported_file_type)
         | Some df => summarize df
         end) with
  | Ok r => r
  | Raised e =>
      (None, None,
       Some ("Error ingesting or processing file: " ++ str_of e))
  end.

Definition no_numerical_kpis : string :=
  "No numerical KPIs found in the report to generate a detailed summary. Try uploading a report with numeric columns.".

(** line 103 *)
Definition download_filename_prefix (file_name : string) : string :=
  Py.first (Py.split dot file_name).

(** line 121, the text of the title element *)
Definition html_title (download_filename_prefix : string) : string :=
  "KPI Summary - " ++ download_filename_prefix.

Definition html_head : string :=
  "
            <!DOCTYPE html>
            <html lang="
  ++ dq ++ "en"
  ++ dq ++ ">
            <head>
                <meta charset="
  ++ dq ++ "UTF-8"
  ++ dq ++ ">
                <meta name="
  ++ dq ++ "viewport"
  ++ dq ++ " content="
  ++ dq ++ "width=device-width, initial-scale=1.0"
  ++ dq ++ ">
                <title>".

Definition html_middle : string :=
  "</title>
                <style>
                    body { font-family: 'Inter', sans-serif; line-height: 1.6; margin: 20px; color: #333; }
                    h1, h2, h3, h4, h5, h6 { font-family: 'Inter', sans-serif; color: #2E86C1; }
                    h2 { border-bottom: 1px solid #eee; padding-bottom: 5px; margin-top: 30px; }
                    pre { background-color: #f4f4f4; padding: 10px; border-radius: 5px; overflow-x: auto; }
                    code { background-color: #f9f9f9; padding: 2px 4px; border-radius: 3px; font-family: monospace; }
                    ul { list-style-type: disc; padding-left: 20px; }
                    ol { padding-left: 20px; }
                    ul li, ol li { margin-bottom: 5px; }
                </style>
            </head>
            <body>
                ".

Definition html_tail : string :=
  "
            </body>
            </html>
            ".

(** lines 115-137 *)
Definition html_content (download_filename_prefix html_summary : string)
  : string :=
  html_head ++ html_title download_filename_prefix ++ html_middle
  ++ html_summary ++ html_tail.

Definition Report : Type :=
  (string * option string * bool * option string * option DataFrame)%type.

(** lines 103-145: the download link for a summary *)
Definition package (uploaded_file : UploadedFile) (output_format : string)
                   (summary_text : string) (df_kpis : option DataFrame)
  : M Report :=
  let download_filename_prefix :=
    download_filename_prefix (file_name uploaded_file) in
  let output_content := summary_text in
  if String.eqb output_format "markdown" then
    let encoded_content := Base64.b64encode output_content in
    let mime_type := "text/markdown" in
    let download_link := "data:" ++ mime_type ++ ";base64," ++ encoded_content in
    ret (summary_text, Some download_link, true, None, df_kpis)
  else if String.eqb output_format "html" then
    html_summary <- lift (markdown_markdown lib output_content) ;;
    let html_content := html_content download_filename_prefix html_summary in
    let encoded_content := Base64.b64encode html_content in
    let mime_type := "text/html" in
    let download_link := "data:" ++ mime_type ++ ";base64," ++ encoded_content in
    ret (summary_text, Some download_link, true, None, df_kpis)
  else
    ret (summary_text, None, false,
         Some "Unsupported output format for download.", df_kpis).

Definition is_empty_or_none (df : option DataFrame) : bool :=
  match df with
  | None => true
  | Some d => df_empty d
  end.

Definition lacks_numerical_data (kpi_description_markdown : option string)
  : bool :=
  match kpi_description_markdown with
  | None => true
  | Some text => Py.contains "No numerical data" text
  end.

(** lines 91-145: what follows a successful ingestion *)
Definition summarize_and_package
    (file : UploadedFile) (output_format : string)
    (df_kpis : option DataFrame) (kpi_description_markdown : option string)
  : M Report :=
  if is_empty_or_none df_kpis then
    ret ("No data was successfully ingested or the file is empty.",
         None, true, None, None)
  else
    summary_text <-
      (if lacks_numerical_data kpi_description_markdown
       then ret no_numerical_kpis
       else match kpi_description_markdown with
            | Some text => generate_kpi_summary ai text
            | None => ret no_numerical_kpis
            end) ;;
    if negb (Py.truthy summary_text)
       || Py.startswith summary_text "ERROR:"
    then ret (EmptyString, None, false, Some summary_text, df_kpis)
    else package file output_format summary_text df_kpis.

(** line 148 *)
Definition unexpected_error (e : exn) : string :=
  "An unexpected error occurred during report processing: " ++ str_of e.

(** features.py, lines 62-148 *)
Definition generate_report_and_insights
    (uploaded_file : option UploadedFile) (output_format : string)
  : M Report :=
  match uploaded_file with
  | None =>
      ret (EmptyString, None, false,
           Some "Please upload a report file to get started.", None)
  | Some file =>
      let '(df_kpis, kpi_description_markdown, ingest_error) :=
        ingest_and_summarize_kpis file in
      try_except
        (match ingest_error with
         | Some err =>
             if Py.truthy err
             then ret (EmptyString, None, false,
                       Some ("Data Ingestion Error: " ++ err), None)
             else summarize_and_package file output_format df_kpis
                                        kpi_description_markdown
         | None => summarize_and_package file output_format df_kpis
                                         kpi_description_markdown
         end)
        (fun e =>
           ret (EmptyString, None, false, Some (unexpected_error e),
                df_kpis))
  end.

End Features.

(** ** Reading a report back *)

(** [s] cut at the first occurrence of [sub] *)
Fixpoint split_once (sub s : string) : option (string * string) :=
  match DataUri.strip_prefix sub s with
  | Some rest => Some (EmptyString, rest)
  | None =>
      match s with
      | EmptyString => None
      | String c t =>
          match split_once sub t with
          | Some (before, after) => Some (String c before, after)
          | None => None
          end
      end
  end.

(** the text of the title element of a hypertext document *)
Definition title_of (document : string) : option string :=
  match split_once "<title>" document with
  | Some (_, rest) =>
      match split_once "</title>" rest with
      | Some (title, _) => Some title
      | None => None
      end
  | None => None
  end.

(** The stem of a file name, in the words of the specification: the name
    with its final extension removed. *)
Definition stem (file_name : string) : string :=
  match rev (Py.split dot file_name) with
  | [] | [_] => file_name
  | _ :: before => String.concat "." (rev before)
  end.

(** a statistic that is the real number [x] up to the tolerance 1e-4 *)
Definition within_tolerance (s : Stat) (x : R) : Prop :=
  exists v, stat_value s = Some v /\ (Rabs (v - x) <= 1 / 10000)%R.

(** ** The failures of the summarizer, as predicates on its environment *)

(** Authentication: no usable key, or the client refuses it. *)
Inductive authentication_fails (ai : GenAI) : Prop :=
| KeyMissing : GOOGLE_API_KEY ai = None -> authentication_fails ai
| KeyEmpty : GOOGLE_API_KEY ai = Some EmptyString -> authentication_fails ai
| ConfigureRaises key e :
    GOOGLE_API_KEY ai = Some key -> configure ai key = Raised e ->
    authentication_fails ai.

(** Model selection: listing or choosing raises, or the chosen model cannot
    be instantiated. *)
Inductive selection_fails (ai : GenAI) : Prop :=
| SelectRaises log e :
    fst (_get_suitable_model ai log) = Raised e -> selection_fails ai
| ModelRaises log model_name e :
    fst (_get_suitable_model ai log) = Ok model_name ->
    GenerativeModel ai model_name = Raised e -> selection_fails ai.

(** The generation call raises, or reading its response does. *)
Inductive generation_fails (ai : GenAI) (kpi_data_markdown : string) : Prop :=
| CallRaises log model_name e :
    fst (_get_suitable_model ai log) = Ok model_name ->
    generate_content ai model_name (kpi_prompt kpi_data_markdown) temperature
    = Raised e ->
    generation_fails ai kpi_data_markdown
| ReadRaises log model_name response e :
    fst (_get_suitable_model ai log) = Ok model_name ->
    generate_content ai model_name (kpi_prompt kpi_data_markdown) temperature
    = Ok response ->
    fst (extract_text kpi_fallback response []) = Raised e ->
    generation_fails ai kpi_data_markdown.

(** The response carries no text: it is false, or it has no parts and no
    first candidate with text, and reading it does not raise. *)
Definition no_extractable_text (response : option Response) : Prop :=
  match response with
  | None => True
  | Some r =>
      resp_parts r = Ok []
      /\ (resp_candidates r = Ok []
          \/ exists c rest, resp_candidates r = Ok (c :: rest)
                            /\ cand_text c = Ok EmptyString)
  end.

(** ** Sample environments *)

Module Sample.

Definition models : list ModelInfo :=
  [ mkModelInfo "models/embedding-001" (Some ["embedContent"]);
    mkModelInfo "models/gemini-1.5-flash-latest"
                (Some ["generateContent"; "countTokens"]) ].

Definition text_response (reply : string) : Response :=
  mkResponse (Ok [reply]) (Ok reply) (Ok [mkCandidate (Ok reply)]).

Definition empty_response : Response :=
  mkResponse (Ok []) (Raised (ValueError "no parts")) (Ok []).

(** a service that answers every generation call with [response] *)
Definition service (response : result (option Response)) : GenAI :=
  mkGenAI (Some "secret")
          (fun _ => Ok tt)
          (Ok models)
          (fun _ => Ok tt)
          (fun _ _ _ => response)
          (fun _ _ => Ok tt)
          (fun _ _ _ => response)
          (fun _ => Ok tt).

Definition answering (reply : string) : GenAI :=
  service (Ok (Some (text_response reply))).

Definition failing : GenAI :=
  service (Raised (Exn "ServiceUnavailable" "503 service unavailable")).

Definition silent : GenAI := service (Ok (Some empty_response)).

Definition without_key : GenAI :=
  mkGenAI None (fun _ => Ok tt) (Ok models) (fun _ => Ok tt)
          (fun _ _ _ => Ok None) (fun _ _ => Ok tt) (fun _ _ _ => Ok None)
          (fun _ => Ok tt).

Definition embeddings_only : GenAI :=
  mkGenAI (Some "secret") (fun _ => Ok tt)
          (Ok [mkModelInfo "models/embedding-001" (Some ["generateContent"])])
          (fun _ => Ok tt)
          (fun _ _ _ => Ok None) (fun _ _ => Ok tt) (fun _ _ _ => Ok None)
          (fun _ => Ok tt).

Definition one_to_five : Column :=
  NumCol [Some 1%Q; Some 2%Q; Some 3%Q; Some 4%Q; Some 5%Q].

Definition months : Column :=
  TextCol [Some "jan"; Some "feb"; Some "mar"; Some "apr"; Some "may"].

Definition table : DataFrame :=
  mkDataFrame 5 [("month", months); ("revenue", one_to_five)].

Definition text_table : DataFrame :=
  mkDataFrame 5 [("month", months)].

(** a library whose parsers all return [df] *)
Definition library (df : DataFrame) : Library :=
  mkLibrary (fun bytes => Ok bytes)
            (fun _ => Ok df)
            (fun _ => Ok df)
            (fun _ => Ok df)
            (fun f => Ok ("|    | " ++ String.concat " | " (header f) ++ " |"))
            (fun text => Ok ("<p>" ++ text ++ "</p>")).

Definition report_csv : UploadedFile := mkUploadedFile "report.csv" "bytes".

End Sample.

(** line 37, the text before the cause *)
Definition selection_prefix : string :=
  "Failed to list or select a suitable Generative AI model: ".

(** a listed model that [_get_suitable_model] may return: it supports
    generateContent and its name holds neither "embedding" nor "aqa" *)
Definition eligible (m : ModelInfo) : bool :=
  supports_generateContent m && not_embedding_or_aqa (name m).

(** ** Counting the calls of a log *)

Definition is_generation_call (ev : Event) : bool :=
  match ev with
  | EvGenerateContent _ _ _ => true
  | _ => false
  end.

(** how many times [generate_content] was called *)
Definition generation_calls (log : list Event) : nat :=
  length (filter is_generation_call log).

(** ** The characters of a data link *)

Fixpoint all_chars (p : ascii -> bool) (s : string) : bool :=
  match s with
  | EmptyString => true
  | String c t => p c && all_chars p t
  end.

(** a character of the base64 alphabet, or the padding character *)
Definition is_b64_char (c : ascii) : bool :=
  match Base64.index_of c with
  | Some _ => true
  | None => Ascii.eqb c Base64.pad
  end.

(** ** main.py: the chat block *)

(** The entries of [st.session_state] the chat block reads and writes. *)
Record Session := mkSession {
  messages : list Message;
  df_kpis : option DataFrame;
  kpi_summary_text : string
}.

Section Main.

(** [df.to_markdown(index=False)] on the ingested table; it may raise. *)
Variable table_to_markdown : DataFrame -> result string.
Variable ai : GenAI.

(** main.py, lines 152-155 *)
Definition context_for_chat (s : Session) : result string :=
  match df_kpis s with
  | Some df =>
      if negb (df_empty df) then table_to_markdown df
      else Ok (kpi_summary_text s)
  | None => Ok (kpi_summary_text s)
  end.

Definition with_message (s : Session) (m : Message) : Session :=
  mkSession (messages s ++ [m])%list (df_kpis s) (kpi_summary_text s).

(** main.py, lines 146-161, without the drawing of the messages: the session
    afterwards, whether the block raised, and the calls made.  The prompt is
    appended to the session before [chat_with_llm] is called, and stays
    there when the block raises. *)
Definition chat_block (s : Session) (prompt : option string)
                      (log : list Event)
  : Session * result unit * list Event :=
  match prompt with
  | Some p =>
      if Py.truthy p then
        let s1 := with_message s (mkMessage "user" p) in
        match context_for_chat s1 with
        | Raised e => (s1, Raised e, log)
        | Ok context =>
            match chat_with_llm ai context p (messages s1) log with
            | (Ok chatbot_response, log') =>
                (with_message s1 (mkMessage "assistant" chatbot_response),
                 Ok tt, log')
            | (Raised e, log') => (s1, Raised e, log')
            end
        end
      else (s, Ok tt, log)
  | None => (s, Ok tt, log)
  end.

End Main.

(** ** More sample environments *)

Module MoreSamples.

(** a service whose chat session cannot be opened *)
Definition no_session : GenAI :=
  mkGenAI (Some "secret") (fun _ => Ok tt) (Ok Sample.models)
          (fun _ => Ok tt) (fun _ _ _ => Ok None)
          (fun _ _ => Raised (Exn "TypeError" "bad history"))
          (fun _ _ _ => Ok None)
          (fun _ => Ok tt).

(** a standard output with the ASCII encoding: printing a text with any
    other byte raises *)
Definition ascii_only (c : ascii) : bool := (nat_of_ascii c <? 128)%nat.

Definition ascii_stdout (text : string) : result unit :=
  if all_chars ascii_only text then Ok tt
  else Raised (Exn "UnicodeEncodeError"
                   "'ascii' codec can't encode character").

(** the three bytes of an em dash *)
Definition em_dash : string :=
  String (ascii_of_nat 226)
    (String (ascii_of_nat 128) (String (ascii_of_nat 148) EmptyString)).

Definition unavailable : exn :=
  Exn "ServiceUnavailable" ("503 " ++ em_dash ++ " unavailable").

(** a service whose generation calls raise with a message that is not
    ASCII, under a standard output that is *)
Definition refused : GenAI :=
  mkGenAI (Some "secret") (fun _ => Ok tt) (Ok Sample.models)
          (fun _ => Ok tt) (fun _ _ _ => Raised unavailable)
          (fun _ _ => Ok tt) (fun _ _ _ => Raised unavailable)
          ascii_stdout.

(** a service that lists [ms] and answers with [reply] *)
Definition listing (ms : list ModelInfo) (reply : string) : GenAI :=
  mkGenAI (Some "secret") (fun _ => Ok tt) (Ok ms) (fun _ => Ok tt)
          (fun _ _ _ => Ok (Some (Sample.text_response reply)))
          (fun _ _ => Ok tt)
          (fun _ _ _ => Ok (Some (Sample.text_response reply)))
          (fun _ => Ok tt).

(** a service whose listing call raises *)
Definition unreachable : GenAI :=
  mkGenAI (Some "secret") (fun _ => Ok tt)
          (Raised (Exn "TimeoutError" "deadline exceeded"))
          (fun _ => Ok tt) (fun _ _ _ => Ok None) (fun _ _ => Ok tt)
          (fun _ _ _ => Ok None)
          (fun _ => Ok tt).

Definition tuned_models : list ModelInfo :=
  [ mkModelInfo "models/text-embedding-004" (Some ["generateContent"]);
    mkModelInfo "models/legacy" None;
    mkModelInfo "models/gemini-2.0-flash" (Some ["generateContent"]) ].

(** a library whose decoder rejects the bytes *)
Definition undecodable : Library :=
  mkLibrary (fun _ => Raised (Exn "UnicodeDecodeError" "invalid start byte"))
            (fun _ => Ok Sample.table) (fun _ => Ok Sample.table)
            (fun _ => Ok Sample.table)
            (fun _ => Ok "digest") (fun text => Ok text).

(** a library whose renderer raises *)
Definition no_renderer : Library :=
  mkLibrary (fun bytes => Ok bytes)
            (fun _ => Ok Sample.table) (fun _ => Ok Sample.table)
            (fun _ => Ok Sample.table)
            (fun _ => Ok "digest")
            (fun _ => Raised (Exn "ImportError" "no extension tables")).

Definition empty_table : DataFrame := mkDataFrame 0 [("month", TextCol [])].

(** a history item that has a role and no content *)
Definition role_only : Message := [("role", "user")].

Definition session : Session :=
  mkSession [mkMessage "user" "Q1"; mkMessage "assistant" "A1"]
            (Some Sample.table) "summary".

End MoreSamples.

(** ** Tactics for the monad *)

Ltac unfold_monad :=
  unfold outcome, sent, bind, try_except, call, lift, ret, raise in *.

(** case analysis on an innermost scrutinee of the goal *)
Ltac break_match :=
  match goal with
  | |- context [match ?x with _ => _ end] =>
      lazymatch x with
      | context [match _ with _ => _ end] => fail
      | _ => destruct x eqn:?
      end
  end.

(** * Properties *)

(** ** The model on small inputs *)

Example split_examples :
  Py.split dot "q1.2024.csv" = ["q1"; "2024"; "csv"]
  /\ Py.split dot "csv" = ["csv"]
  /\ Py.split dot "report." = ["report"; ""]
  /\ Py.split dot "" = [""].
Proof. repeat split; reflexivity. Qed.

Example file_extension_examples :
  file_extension "Sales.Q1.CSV" = "csv"
  /\ file_extension "book.XLSX" = "xlsx"
  /\ file_extension "notes.txt" = "txt"
  /\ file_extension "archive." = "".
Proof. repeat split; reflexivity. Qed.

Example replace_examples :
  Py.replace "models/" "" "models/gemini-pro" = "gemini-pro"
  /\ Py.replace "ab" "x" "abcabab" = "xcxx"
  /\ Py.replace "aa" "b" "aaa" = "ba".
Proof. repeat split; reflexivity. Qed.

Example b64_rfc4648_vectors :
  map Base64.b64encode ["" ; "f"; "fo"; "foo"; "foob"; "fooba"; "foobar"]
  = ["" ; "Zg=="; "Zm8="; "Zm9v"; "Zm9vYg=="; "Zm9vYmE="; "Zm9vYmFy"]
  /\ Base64.b64decode "Zm9vYmE=" = Some "fooba"
  /\ Base64.b64decode "Zm9vYmE" = None
  /\ DataUri.parse "data:text/markdown;base64,Zm9v"
     = Some ("text/markdown", "Zm9v").
Proof. repeat split; reflexivity. Qed.

Example quartiles_of_four_values :
  map (fun f => f [4 # 1; 1 # 1; 3 # 1; 2 # 1]%Q) Stats.functions
  = [Exact 4; Exact (5 # 2); Sqrt (5 # 3); Exact 1; Exact (7 # 4);
     Exact (5 # 2); Exact (13 # 4); Exact 4].
Proof. vm_compute. reflexivity. Qed.

Example statistics_of_one_value :
  map (fun f => f [7 # 2]%Q) Stats.functions
  = [Exact 1; Exact (7 # 2); NaN; Exact (7 # 2); Exact (7 # 2);
     Exact (7 # 2); Exact (7 # 2); Exact (7 # 2)].
Proof. vm_compute. reflexivity. Qed.

Example model_selection_examples :
  outcome (_get_suitable_model (Sample.answering "ok"))
  = Ok "gemini-1.5-flash-latest"
  /\ outcome (_get_suitable_model Sample.embeddings_only)
     = Raised (ConnectionError
                 "Failed to list or select a suitable Generative AI model: No suitable text generation model found that supports generateContent after filtering.")
  /\ outcome (generate_kpi_summary Sample.without_key "digest")
     = Ok "ERROR: Could not initialize Generative Model for KPI summary: GOOGLE_API_KEY is not set in your .env file.".
Proof. repeat split; reflexivity. Qed.

(** ** ai_logic.py: initialisation *)

Section AiLogicFacts.

Variable ai : GenAI.

(** Model selection logs one listing call; its result does not depend on
    the calls made before. *)
Lemma get_suitable_model_log (log : list Event) :
  snd (_get_suitable_model ai log) = (log ++ [EvListModels])%list.
Proof.
  unfold _get_suitable_model. unfold_monad.
  destruct (list_models ai); simpl; [| reflexivity].
  repeat (break_match; simpl; try reflexivity).
Qed.

Lemma get_suitable_model_result (log log' : list Event) :
  fst (_get_suitable_model ai log) = fst (_get_suitable_model ai log').
Proof.
  unfold _get_suitable_model. unfold_monad.
  destruct (list_models ai); simpl; [| reflexivity].
  repeat (break_match; simpl; try reflexivity).
Qed.

(** Whatever model selection raises is a [ConnectionError]. *)
Lemma get_suitable_model_raises (log : list Event) (e : exn) :
  fst (_get_suitable_model ai log) = Raised e ->
  exn_type e = "ConnectionError".
Proof.
  unfold _get_suitable_model. unfold_monad.
  destruct (list_models ai); simpl.
  - repeat (break_match; simpl; try discriminate);
      intros H; inversion H; reflexivity.
  - intros H; inversion H; reflexivity.
Qed.

(** A successful initialisation made exactly three calls. *)
Lemma initialize_model_ok (entry : string) (log log' : list Event)
      (model_name : string) :
  initialize_model ai entry log = (Ok model_name, log') ->
  exists key,
    GOOGLE_API_KEY ai = Some key
    /\ Py.truthy key = true
    /\ configure ai key = Ok tt
    /\ fst (_get_suitable_model ai []) = Ok model_name
    /\ GenerativeModel ai model_name = Ok tt
    /\ log' = (log ++ [EvConfigure key; EvListModels;
                       EvGenerativeModel model_name])%list.
Proof.
  unfold initialize_model, _configure_genai.
  destruct (GOOGLE_API_KEY ai) as [key|]; [| unfold_monad; discriminate].
  destruct (Py.truthy key) eqn:Hkey; [| unfold_monad; discriminate].
  unfold bind at 1. unfold call at 1.
  destruct (configure ai key) as [[]|e] eqn:Hconf; [| discriminate].
  unfold bind at 1.
  pose proof (get_suitable_model_log (log ++ [EvConfigure key])%list) as Hlog.
  pose proof (get_suitable_model_result (log ++ [EvConfigure key])%list [])
    as Hres.
  destruct (_get_suitable_model ai (log ++ [EvConfigure key])%list)
    as [[m|e] l1]; simpl in Hlog, Hres; [| discriminate].
  subst l1. unfold_monad.
  destruct (GenerativeModel ai m) as [[]|e] eqn:Hgm; [| discriminate].
  destruct (print ai _) as [[]|e]; [| discriminate].
  intros H; inversion H; subst.
  exists key. repeat split; auto.
  rewrite <- !app_assoc. reflexivity.
Qed.

(** ... and its print was accepted. *)
Lemma initialize_model_printed (entry : string) (log log' : list Event)
      (model_name : string) :
  initialize_model ai entry log = (Ok model_name, log') ->
  print ai ("DEBUG: " ++ entry ++ " - Using model: " ++ model_name) = Ok tt.
Proof.
  unfold initialize_model, _configure_genai.
  destruct (GOOGLE_API_KEY ai) as [key|]; [| unfold_monad; discriminate].
  destruct (Py.truthy key) eqn:Hkey; [| unfold_monad; discriminate].
  unfold bind at 1. unfold call at 1.
  destruct (configure ai key) as [[]|e] eqn:Hconf; [| discriminate].
  unfold bind at 1.
  destruct (_get_suitable_model ai (log ++ [EvConfigure key])%list)
    as [[m|e] l1]; [| discriminate].
  unfold_monad.
  destruct (GenerativeModel ai m) as [[]|e] eqn:Hgm; [| discriminate].
  destruct (print ai ("DEBUG: " ++ entry ++ " - Using model: " ++ m))
    as [[]|e] eqn:Hp; [| discriminate].
  intros H; inversion H; subst. exact Hp.
Qed.

(** Conversely, these conditions make the initialisation succeed. *)
Lemma initialize_model_succeeds (entry : string) (log : list Event)
      (key model_name : string) :
  GOOGLE_API_KEY ai = Some key ->
  Py.truthy key = true ->
  configure ai key = Ok tt ->
  fst (_get_suitable_model ai []) = Ok model_name ->
  GenerativeModel ai model_name = Ok tt ->
  print ai ("DEBUG: " ++ entry ++ " - Using model: " ++ model_name) = Ok tt ->
  initialize_model ai entry log
  = (Ok model_name,
     (log ++ [EvConfigure key; EvListModels;
              EvGenerativeModel model_name])%list).
Proof.
  intros Hk Ht Hc Hm Hg Hp.
  unfold initialize_model, _configure_genai. rewrite Hk, Ht.
  unfold bind at 1. unfold call at 1. rewrite Hc.
  unfold bind at 1.
  pose proof (get_suitable_model_log (log ++ [EvConfigure key])%list) as Hlog.
  pose proof (get_suitable_model_result (log ++ [EvConfigure key])%list [])
    as Hres.
  destruct (_get_suitable_model ai (log ++ [EvConfigure key])%list)
    as [r l1]; simpl in Hlog, Hres. subst l1.
  rewrite Hm in Hres. subst r.
  unfold_monad. rewrite Hg, Hp. rewrite <- !app_assoc. reflexivity.
Qed.

(** Each failure of authentication or of model selection makes the
    initialisation raise. *)
Lemma initialize_model_raises (entry : string) (log : list Event) :
  authentication_fails ai \/ selection_fails ai ->
  exists e, fst (initialize_model ai entry log) = Raised e.
Proof.
  intros Hfail.
  destruct (initialize_model ai entry log) as [[m|e] l] eqn:Hinit;
    [| exists e; reflexivity].
  exfalso.
  apply initialize_model_ok in Hinit
    as (key & Hk & Ht & Hc & Hm & Hg & _).
  destruct Hfail as [Ha | Hs].
  - destruct Ha as [H | H | key' e' H H'];
      rewrite Hk in H; try discriminate.
    + inversion H; subst. discriminate.
    + inversion H; subst. rewrite Hc in H'. discriminate.
  - destruct Hs as [l0 e H | l0 m' e H H'];
      rewrite (get_suitable_model_result l0 []) in H;
      rewrite Hm in H; try discriminate.
    inversion H; subst. rewrite Hg in H'. discriminate.
Qed.

End AiLogicFacts.

(** ** ai_logic.py: the summarizer *)

Section SummarizerFacts.

Variable ai : GenAI.

(** Reading a response reaches no service, and does not depend on the
    log. *)
Lemma extract_text_pure (fallback : string) (response : option Response)
      (log : list Event) :
  extract_text fallback response log
  = (fst (extract_text fallback response []), log).
Proof.
  unfold extract_text. destruct response as [r|]; [| reflexivity].
  unfold_monad.
  destruct (resp_parts r) as [ps|]; [| reflexivity].
  destruct (Py.nonempty ps).
  - destruct (resp_text r); reflexivity.
  - destruct (resp_candidates r) as [[|c cs]|]; try reflexivity.
    destruct (cand_text c) as [t|]; [| reflexivity].
    destruct (Py.truthy t); reflexivity.
Qed.

Lemma extract_text_fallback (fallback : string) (response : option Response) :
  no_extractable_text response ->
  fst (extract_text fallback response []) = Ok fallback.
Proof.
  destruct response as [r|]; [| reflexivity].
  intros [Hp Hc]. unfold extract_text. unfold_monad. rewrite Hp. simpl.
  destruct Hc as [Hc | (c & rest & Hc & Ht)]; rewrite Hc; [reflexivity |].
  rewrite Ht. reflexivity.
Qed.

(** When the initialisation raises, the summary is the first error text
    and no generation call is made. *)
Lemma summary_when_init_raises (d : string) (log log' : list Event) (e : exn) :
  initialize_model ai "KPI Summary" log = (Raised e, log') ->
  generate_kpi_summary ai d log = (Ok (init_error e), log').
Proof.
  intros H. unfold generate_kpi_summary, bind at 1.
  unfold try_except, bind at 1. rewrite H. reflexivity.
Qed.

(** The handler of the second [try] reaches no service; it returns the
    second error text when its print is accepted, and raises what the print
    raises otherwise. *)
Lemma kpi_call_handler_pure (e : exn) (log : list Event) :
  kpi_call_handler ai e log = (fst (kpi_call_handler ai e []), log).
Proof.
  unfold kpi_call_handler. unfold_monad.
  destruct (print ai _) as [[]|e']; reflexivity.
Qed.

Lemma kpi_call_handler_result (e : exn) :
  fst (kpi_call_handler ai e [])
  = match print ai ("DEBUG: Error during LLM API call for KPI summary: "
                    ++ str_of e) with
    | Ok _ => Ok (call_error e)
    | Raised e' => Raised e'
    end.
Proof.
  unfold kpi_call_handler. unfold_monad.
  destruct (print ai _) as [[]|e']; reflexivity.
Qed.

(** When it succeeds, exactly one generation call follows, and the summary
    is the text read from the response, or what the handler makes of the
    exception. *)
Lemma summary_when_init_ok (d : string) (log log' : list Event) (m : string) :
  initialize_model ai "KPI Summary" log = (Ok m, log') ->
  generate_kpi_summary ai d log
  = (match generate_content ai m (kpi_prompt d) temperature with
     | Ok response =>
         match fst (extract_text kpi_fallback response []) with
         | Ok s => Ok s
         | Raised e => fst (kpi_call_handler ai e [])
         end
     | Raised e => fst (kpi_call_handler ai e [])
     end,
     (log' ++ [EvGenerateContent m (kpi_prompt d) temperature])%list).
Proof.
  intros H. unfold generate_kpi_summary, bind at 1.
  unfold try_except at 1, bind at 1. rewrite H.
  cbv beta iota delta [ret]. cbv beta iota.
  unfold try_except, bind, call.
  destruct (generate_content ai m (kpi_prompt d) temperature)
    as [response|e]; [| apply kpi_call_handler_pure].
  rewrite extract_text_pure.
  destruct (fst (extract_text kpi_fallback response []));
    [reflexivity | apply kpi_call_handler_pure].
Qed.

(** The failure, if any, that the second [try] of a run catches. *)
Lemma caught_failure (d m : string) (e0 : exn) :
  fst (_get_suitable_model ai []) = Ok m ->
  (generate_content ai m (kpi_prompt d) temperature = Raised e0
   \/ exists response,
        generate_content ai m (kpi_prompt d) temperature = Ok response
        /\ fst (extract_text kpi_fallback response []) = Raised e0) ->
  generation_fails ai d.
Proof.
  intros Hm [H | (response & H & Hr)].
  - exact (CallRaises ai d [] m e0 Hm H).
  - exact (ReadRaises ai d [] m response e0 Hm H Hr).
Qed.

End SummarizerFacts.

(** C2: the summarizer does raise past its boundary.  It raises exactly
    when its first [try] block succeeded, the generation call or the reading
    of the response raised, and the print inside the handler of lines
    100-102 raises in turn: the exception that leaves is the one of the
    print.  When that print is accepted the summarizer returns, and the
    text it returns after a failure of authentication, of model selection or
    of the generation call starts with "ERROR:". *)
Theorem summarizer_raises_iff
    (ai : GenAI) (kpi_data_markdown : string) (e : exn) :
  (outcome (generate_kpi_summary ai kpi_data_markdown) = Raised e
   <-> exists model_name e0,
         outcome (initialize_model ai "KPI Summary") = Ok model_name
         /\ (generate_content ai model_name (kpi_prompt kpi_data_markdown)
                              temperature = Raised e0
             \/ exists response,
                  generate_content ai model_name
                    (kpi_prompt kpi_data_markdown) temperature = Ok response
                  /\ fst (extract_text kpi_fallback response [])
                     = Raised e0)
         /\ print ai ("DEBUG: Error during LLM API call for KPI summary: "
                      ++ str_of e0) = Raised e)
  /\ ((forall text, print ai text = Ok tt) ->
      exists s,
        outcome (generate_kpi_summary ai kpi_data_markdown) = Ok s
        /\ (authentication_fails ai \/ selection_fails ai
            \/ generation_fails ai kpi_data_markdown ->
            Py.startswith s "ERROR:" = true)).
Proof.
  unfold outcome.
  destruct (initialize_model ai "KPI Summary" []) as [[m|e1] l] eqn:Hinit.
  - rewrite (summary_when_init_ok ai kpi_data_markdown _ _ _ Hinit).
    cbn [fst]. split.
    + split.
      * intros H. exists m.
        destruct (generate_content ai m (kpi_prompt kpi_data_markdown)
                    temperature) as [response|e0] eqn:Hg.
        -- destruct (fst (extract_text kpi_fallback response []))
             as [s|e0] eqn:Hr; [discriminate |].
           exists e0. split; [reflexivity |].
           split; [right; exists response; auto |].
           rewrite kpi_call_handler_result in H.
           destruct (print ai _) as [[]|e']; [discriminate |].
           inversion H. reflexivity.
        -- exists e0. split; [reflexivity |]. split; [left; reflexivity |].
           rewrite kpi_call_handler_result in H.
           destruct (print ai _) as [[]|e']; [discriminate |].
           inversion H. reflexivity.
      * intros (m' & e0 & Hm & Hfail & Hp). inversion Hm; subst m'.
        destruct Hfail as [Hg | (response & Hg & Hr)]; rewrite Hg;
          [| rewrite Hr]; rewrite kpi_call_handler_result, Hp; reflexivity.
    + intros Hprint.
      assert (Hh : forall e0, fst (kpi_call_handler ai e0 [])
                             = Ok (call_error e0))
        by (intros e0; rewrite kpi_call_handler_result, Hprint; reflexivity).
      assert (Hgen : authentication_fails ai \/ selection_fails ai
                     \/ generation_fails ai kpi_data_markdown ->
                     generation_fails ai kpi_data_markdown).
      { intros [H | [H | H]]; auto;
          destruct (initialize_model_raises ai "KPI Summary" [])
            as [e' He]; auto; rewrite Hinit in He; discriminate. }
      apply initialize_model_ok in Hinit as (_ & _ & _ & _ & Hm & _ & _).
      destruct (generate_content ai m (kpi_prompt kpi_data_markdown)
                  temperature) as [response|e0] eqn:Hg.
      * destruct (fst (extract_text kpi_fallback response []))
          as [s|e0] eqn:Hr.
        -- exists s. split; [reflexivity |]. intros Hfail.
           destruct (Hgen Hfail)
             as [l0 m' e' Hsel Hcall | l0 m' r e' Hsel Hcall Hread];
             rewrite (get_suitable_model_result ai l0 []) in Hsel;
             rewrite Hm in Hsel; inversion Hsel; subst m';
             rewrite Hg in Hcall; [discriminate |].
           inversion Hcall; subst r. rewrite Hr in Hread. discriminate.
        -- exists (call_error e0). rewrite Hh.
           split; [reflexivity | intros _; reflexivity].
      * exists (call_error e0). rewrite Hh.
        split; [reflexivity | intros _; reflexivity].
  - rewrite (summary_when_init_raises ai kpi_data_markdown _ _ _ Hinit).
    cbn [fst]. split.
    + split; [discriminate | intros (m' & e0 & Hm & _); discriminate].
    + intros _. eexists. split; [reflexivity | intros _; reflexivity].
Qed.

(** The generation call of this service raises; the message of its
    exception cannot be printed on the ASCII standard output, and the
    summarizer raises the error of the print instead of returning the
    "ERROR:" text. *)
Lemma summarizer_raises_iff_witness :
  generation_fails MoreSamples.refused "digest"
  /\ outcome (generate_kpi_summary MoreSamples.refused "digest")
     = Raised (Exn "UnicodeEncodeError"
                   "'ascii' codec can't encode character").
Proof.
  split.
  - eapply CallRaises with (log := []); reflexivity.
  - apply (proj2 (proj1 (summarizer_raises_iff MoreSamples.refused "digest"
                           (Exn "UnicodeEncodeError"
                                "'ascii' codec can't encode character")))).
    exists "gemini-1.5-flash-latest", MoreSamples.unavailable.
    split; [reflexivity |]. split; [left; reflexivity | reflexivity].
Defined.

(** ** ai_logic.py: the conversational context manager *)

Section HistoryFacts.

(** the turn of a caller message made of a role and a content *)
Lemma format_message_mk (caller_role content : string) :
  format_message (mkMessage caller_role content)
  = Ok (mkTurn (provider_role caller_role) [content]).
Proof. reflexivity. Qed.

Lemma formatted_history_loop (H : list Message) :
  formatted_history H = format_messages H.
Proof. destruct H; reflexivity. Qed.

(** a history whose items all have a role and a content is formatted item
    by item *)
Lemma formatted_history_pairs (pairs : list (string * string)) :
  formatted_history (map (fun p => mkMessage (fst p) (snd p)) pairs)
  = Ok (map (fun p => mkTurn (provider_role (fst p)) [snd p]) pairs).
Proof.
  rewrite formatted_history_loop.
  induction pairs as [|[r c] pairs IH]; [reflexivity |].
  cbn [map format_messages fst snd]. rewrite format_message_mk.
  cbn [and_then]. rewrite IH. reflexivity.
Qed.

(** a formatted history has one turn per item, each made by
    [format_message] *)
Lemma formatted_history_items (H : list Message) (turns : list Turn) :
  formatted_history H = Ok turns ->
  Forall2 (fun m t => format_message m = Ok t) H turns.
Proof.
  rewrite formatted_history_loop. revert turns.
  induction H as [|m H IH]; intros turns E.
  - inversion E. constructor.
  - cbn [format_messages] in E.
    destruct (format_message m) as [t|e] eqn:Hm; [| discriminate].
    cbn [and_then] in E.
    destruct (format_messages H) as [ts|e]; [| discriminate].
    inversion E; subst. constructor; [exact Hm | apply IH; reflexivity].
Qed.

Lemma formatted_history_length (H : list Message) (turns : list Turn) :
  formatted_history H = Ok turns -> length turns = length H.
Proof.
  intros E. apply formatted_history_items in E.
  induction E; simpl; congruence.
Qed.

(** formatting a history that has one more item at its end *)
Lemma formatted_history_app (H : list Message) (turns : list Turn)
      (m : Message) (t : Turn) :
  formatted_history H = Ok turns ->
  format_message m = Ok t ->
  formatted_history (H ++ [m]) = Ok (turns ++ [t])%list.
Proof.
  rewrite !formatted_history_loop. revert turns.
  induction H as [|x H IH]; intros turns E Hm.
  - inversion E. cbn. rewrite Hm. reflexivity.
  - cbn [format_messages app] in *.
    destruct (format_message x) as [tx|e]; [| discriminate].
    cbn [and_then] in *.
    destruct (format_messages H) as [ts|e]; [| discriminate].
    inversion E; subst. rewrite (IH ts eq_refl Hm). reflexivity.
Qed.

(** a lookup raises only the [KeyError] of its key *)
Lemma getitem_raises (d : Dict) (key : string) (e : exn) :
  getitem d key = Raised e -> e = KeyError key.
Proof.
  induction d as [|[k v] d IH]; cbn [getitem].
  - intros E. inversion E. reflexivity.
  - destruct (String.eqb k key); [discriminate | exact IH].
Qed.

(** the role and the content behind a turn *)
Lemma format_message_ok (m : Message) (t : Turn) :
  format_message m = Ok t ->
  exists caller_role content,
    getitem m "role" = Ok caller_role
    /\ getitem m "content" = Ok content
    /\ t = mkTurn (provider_role caller_role) [content].
Proof.
  unfold format_message.
  destruct (getitem m "role") as [r|e]; [| discriminate].
  destruct (getitem m "content") as [c|e]; [| discriminate].
  cbn [and_then]. intros E. inversion E. eauto.
Qed.

(** formatting raises at an item that lacks one of the two keys *)
Lemma format_message_raises (m : Message) (e : exn) :
  format_message m = Raised e ->
  exists key,
    (key = "role" \/ key = "content")
    /\ getitem m key = Raised e /\ e = KeyError key.
Proof.
  unfold format_message.
  destruct (getitem m "role") as [r|e1] eqn:Hr.
  - destruct (getitem m "content") as [c|e2] eqn:Hc; [discriminate |].
    cbn [and_then]. intros E. inversion E; subst e2.
    exists "content". split; [auto |]. split; [exact Hc |].
    apply (getitem_raises m), Hc.
  - cbn [and_then]. intros E. inversion E; subst e1.
    exists "role". split; [auto |]. split; [exact Hr |].
    apply (getitem_raises m), Hr.
Qed.

Lemma formatted_history_raises (H : list Message) (e : exn) :
  formatted_history H = Raised e ->
  exists m key,
    In m H /\ (key = "role" \/ key = "content")
    /\ getitem m key = Raised e /\ e = KeyError key.
Proof.
  rewrite formatted_history_loop.
  induction H as [|m H IH]; cbn [format_messages]; [discriminate |].
  destruct (format_message m) as [t|e1] eqn:Hm.
  - cbn [and_then].
    destruct (format_messages H) as [ts|e2]; [discriminate |].
    cbn [and_then]. intros E. inversion E; subst e2.
    destruct (IH eq_refl) as (m' & key & Hin & Hk).
    exists m', key. split; [right; exact Hin | exact Hk].
  - cbn [and_then]. intros E. inversion E; subst e1.
    destruct (format_message_raises m e Hm) as (key & Hk).
    exists m, key. split; [left; reflexivity | exact Hk].
Qed.

End HistoryFacts.

Section ChatFacts.

Variable ai : GenAI.

(** The handler of the second [try] of the chat reaches no service. *)
Lemma chat_call_handler_pure (e : exn) (log : list Event) :
  chat_call_handler ai e log = (fst (chat_call_handler ai e []), log).
Proof.
  unfold chat_call_handler. unfold_monad.
  destruct (print ai _) as [[]|e']; reflexivity.
Qed.

Lemma chat_call_handler_result (e : exn) :
  fst (chat_call_handler ai e [])
  = match print ai ("DEBUG: Error during LLM API call for chatbot: "
                    ++ str_of e) with
    | Ok _ => Ok (chat_call_error e)
    | Raised e' => Raised e'
    end.
Proof.
  unfold chat_call_handler. unfold_monad.
  destruct (print ai _) as [[]|e']; reflexivity.
Qed.

(** The outcomes of a chat turn. *)
Lemma chat_when_init_raises (X Q : string) (H : list Message)
      (log log' : list Event) (e : exn) :
  initialize_model ai "Chatbot" log = (Raised e, log') ->
  chat_with_llm ai X Q H log
  = (Ok ("ERROR: Could not initialize Generative Model for chatbot: "
         ++ str_of e), log').
Proof.
  intros Hi. unfold chat_with_llm, bind at 1.
  unfold try_except, bind at 1. rewrite Hi. reflexivity.
Qed.

Lemma chat_when_history_raises (X Q : string) (H : list Message)
      (log log' : list Event) (m : string) (e : exn) :
  initialize_model ai "Chatbot" log = (Ok m, log') ->
  formatted_history H = Raised e ->
  chat_with_llm ai X Q H log = (Raised e, log').
Proof.
  intros Hi Hf. unfold chat_with_llm, bind at 1.
  unfold try_except at 1, bind at 1. rewrite Hi.
  cbv beta iota delta [ret]. cbv beta iota.
  unfold bind at 1, lift at 1. rewrite Hf. reflexivity.
Qed.

Lemma chat_when_init_ok (X Q : string) (H : list Message)
      (log log' : list Event) (m : string) (turns : list Turn) :
  initialize_model ai "Chatbot" log = (Ok m, log') ->
  formatted_history H = Ok turns ->
  chat_with_llm ai X Q H log
  = match start_chat ai m (initial_message X :: turns) with
    | Raised e =>
        (Raised e,
         (log' ++ [EvStartChat m (initial_message X :: turns)])%list)
    | Ok _ =>
        (match send_message ai m (initial_message X :: turns) Q with
         | Ok response =>
             match fst (extract_text chat_fallback response []) with
             | Ok s => Ok s
             | Raised e => fst (chat_call_handler ai e [])
             end
         | Raised e => fst (chat_call_handler ai e [])
         end,
         (log' ++ [EvStartChat m (initial_message X :: turns);
                   EvSendMessage Q])%list)
    end.
Proof.
  intros Hi Hf. unfold chat_with_llm, bind at 1.
  unfold try_except at 1, bind at 1. rewrite Hi.
  cbv beta iota delta [ret]. cbv beta iota.
  unfold bind at 1, lift at 1. rewrite Hf.
  unfold bind at 1, call at 1. simpl app at 1.
  destruct (start_chat ai m (initial_message X :: turns))
    as [[]|e]; [| reflexivity].
  unfold try_except, bind, call.
  rewrite <- app_assoc. simpl app.
  destruct (send_message ai m (initial_message X :: turns) Q)
    as [response|e]; [| apply chat_call_handler_pure].
  rewrite extract_text_pure.
  destruct (fst (extract_text chat_fallback response []));
    [reflexivity | apply chat_call_handler_pure].
Qed.

(** The calls of a chat turn whose session opens: the three calls of the
    initialisation, the session with its history, the message. *)
Lemma chat_sent (X Q : string) (H : list Message) (model_name : string)
      (turns : list Turn) :
  outcome (initialize_model ai "Chatbot") = Ok model_name ->
  formatted_history H = Ok turns ->
  start_chat ai model_name (initial_message X :: turns) = Ok tt ->
  exists key,
    GOOGLE_API_KEY ai = Some key
    /\ sent (chat_with_llm ai X Q H)
       = [EvConfigure key; EvListModels; EvGenerativeModel model_name;
          EvStartChat model_name (initial_message X :: turns);
          EvSendMessage Q].
Proof.
  unfold outcome, sent. intros Hinit Hf Hstart.
  destruct (initialize_model ai "Chatbot" []) as [r l] eqn:Hrun.
  simpl in Hinit. subst r.
  destruct (initialize_model_ok ai _ _ _ _ Hrun)
    as (key & Hk & _ & _ & _ & _ & Hl).
  exists key. split; [exact Hk |].
  rewrite (chat_when_init_ok X Q H _ _ _ turns Hrun Hf), Hstart.
  cbn [snd]. subst l. reflexivity.
Qed.

End ChatFacts.

(** C1: when the model is initialised and the chat session opens, the
    turns the provider receives are one synthesized turn of role user whose
    content embeds the context verbatim, then the prior turns with the role
    "user" kept, the role "assistant" mapped to "model" and the content
    unchanged, then the new query: two turns for an empty history, four for a
    history of a user turn and a model turn. *)
Theorem chat_turn_sequence
    (ai : GenAI) (X Q u a r model_name : string) :
  outcome (initialize_model ai "Chatbot") = Ok model_name ->
  (forall history, start_chat ai model_name history = Ok tt) ->
  r = "assistant" \/ r = "model" ->
  role (initial_message X) = "user"
  /\ (exists opening closing,
        forall context, parts (initial_message context)
                        = [opening ++ context ++ closing])
  /\ provider_turns (sent (chat_with_llm ai X Q []))
     = Some [initial_message X; mkTurn "user" [Q]]
  /\ provider_turns
       (sent (chat_with_llm ai X Q [mkMessage "user" u; mkMessage r a]))
     = Some [initial_message X; mkTurn "user" [u]; mkTurn "model" [a];
             mkTurn "user" [Q]]
  /\ (forall pairs : list (string * string),
        let H := map (fun p => mkMessage (fst p) (snd p)) pairs in
        exists turns,
          provider_turns (sent (chat_with_llm ai X Q H)) = Some turns
          /\ turns
             = (initial_message X
                :: map (fun p => mkTurn (provider_role (fst p)) [snd p]) pairs
                ++ [mkTurn "user" [Q]])%list
          /\ length turns = (1 + length H + 1)%nat)
  /\ (forall H formatted,
        formatted_history H = Ok formatted ->
        provider_turns (sent (chat_with_llm ai X Q H))
        = Some (initial_message X :: formatted ++ [mkTurn "user" [Q]])%list
        /\ length formatted = length H)
  /\ (forall m content,
        getitem m "role" = Ok "assistant" ->
        getitem m "content" = Ok content ->
        format_message m = Ok (mkTurn "model" [content]))
  /\ (forall m content,
        getitem m "role" = Ok "user" ->
        getitem m "content" = Ok content ->
        format_message m = Ok (mkTurn "user" [content])).
Proof.
  intros Hinit Hstart Hr.
  assert (Hseq : forall H formatted,
             formatted_history H = Ok formatted ->
             provider_turns (sent (chat_with_llm ai X Q H))
             = Some (initial_message X :: formatted
                     ++ [mkTurn "user" [Q]])%list).
  { intros H formatted Hf.
    destruct (chat_sent ai X Q H model_name formatted Hinit Hf (Hstart _))
      as (key & _ & Hsent).
    rewrite Hsent. reflexivity. }
  split; [reflexivity |].
  split.
  { exists ("You are a helpful Business Intelligence chatbot. You are provided with business KPI data below. "
            ++ "Answer questions about this data naturally and concisely. If the question is outside the scope "
            ++ "of the provided data or general business knowledge, state that you cannot answer."
            ++ nl ++ nl ++ "--- KPI Data Context ---" ++ nl).
    exists (nl ++ "--- End KPI Data Context ---").
    intros context. reflexivity. }
  split; [apply (Hseq [] []); reflexivity |].
  split.
  { rewrite (Hseq [mkMessage "user" u; mkMessage r a]
                  [mkTurn "user" [u]; mkTurn "model" [a]]);
      [reflexivity |].
    destruct Hr; subst r; reflexivity. }
  split.
  { intros pairs H. eexists.
    split; [apply Hseq; apply formatted_history_pairs |].
    split; [reflexivity |].
    subst H. simpl. rewrite length_app, !length_map. simpl. lia. }
  split.
  { intros H formatted Hf.
    split; [apply Hseq, Hf | apply formatted_history_length, Hf]. }
  split; intros m content Hm Hc; unfold format_message;
    rewrite Hm, Hc; reflexivity.
Qed.

Lemma chat_turn_sequence_witness :
  provider_turns
    (sent (chat_with_llm (Sample.answering "Revenue grows.") "X" "Q2"
             [mkMessage "user" "Q1"; mkMessage "assistant" "A1"]))
  = Some [initial_message "X"; mkTurn "user" ["Q1"]; mkTurn "model" ["A1"];
          mkTurn "user" ["Q2"]].
Proof.
  refine (proj1 (proj2 (proj2 (proj2
    (chat_turn_sequence (Sample.answering "Revenue grows.")
       "X" "Q2" "Q1" "A1" "assistant" "gemini-1.5-flash-latest"
       _ _ _))))).
  - reflexivity.
  - intros history. reflexivity.
  - left. reflexivity.
Defined.

(** ** Base64: decoding inverts encoding *)

Module Base64Facts.

Import Base64.
Local Open Scope N_scope.

Lemma char_of_nat (n : nat) :
  (n < 64)%nat ->
  index_of (char_of (N.of_nat n)) = Some (N.of_nat n)
  /\ Ascii.eqb (char_of (N.of_nat n)) pad = false.
Proof.
  intros H.
  do 64 (destruct n as [|n]; [vm_compute; split; reflexivity |]).
  lia.
Qed.

Lemma index_of_char_of (i : N) : i < 64 -> index_of (char_of i) = Some i.
Proof.
  intros H. rewrite <- (N2Nat.id i). apply char_of_nat. lia.
Qed.

Lemma char_of_not_pad (i : N) : i < 64 -> Ascii.eqb (char_of i) pad = false.
Proof.
  intros H. rewrite <- (N2Nat.id i). apply char_of_nat. lia.
Qed.

(** the arithmetic of three bytes regrouped as four 6-bit values *)
Lemma sextets (x y z : N) :
  x < 256 -> y < 256 -> z < 256 ->
  x / 4 < 64
  /\ (x mod 4) * 16 + y / 16 < 64
  /\ (y mod 16) * 4 + z / 64 < 64
  /\ z mod 64 < 64
  /\ (x / 4) * 4 + ((x mod 4) * 16 + y / 16) / 16 = x
  /\ (((x mod 4) * 16 + y / 16) mod 16) * 16
     + ((y mod 16) * 4 + z / 64) / 4 = y
  /\ (((y mod 16) * 4 + z / 64) mod 4) * 64 + z mod 64 = z.
Proof.
  intros Hx Hy Hz.
  repeat split; zify; Z.to_euclidean_division_equations; lia.
Qed.

(** decoding one full group of four characters *)
Lemma decode_group (i0 i1 i2 i3 : N) (t : string) :
  i0 < 64 -> i1 < 64 -> i2 < 64 -> i3 < 64 ->
  b64decode (String (char_of i0) (String (char_of i1)
               (String (char_of i2) (String (char_of i3) t))))
  = option_map
      (fun r => String (ascii_of_N (i0 * 4 + i1 / 16))
                  (String (ascii_of_N ((i1 mod 16) * 16 + i2 / 4))
                     (String (ascii_of_N ((i2 mod 4) * 64 + i3)) r)))
      (b64decode t).
Proof.
  intros H0 H1 H2 H3. cbn [b64decode].
  rewrite !index_of_char_of, !char_of_not_pad by assumption.
  reflexivity.
Qed.

(** decoding a last group with one padding character *)
Lemma decode_group_pad1 (i0 i1 i2 : N) :
  i0 < 64 -> i1 < 64 -> i2 < 64 ->
  b64decode (String (char_of i0) (String (char_of i1)
               (String (char_of i2) (String pad EmptyString))))
  = Some (String (ascii_of_N (i0 * 4 + i1 / 16))
            (String (ascii_of_N ((i1 mod 16) * 16 + i2 / 4)) EmptyString)).
Proof.
  intros H0 H1 H2. cbn [b64decode].
  rewrite !index_of_char_of, !char_of_not_pad by assumption.
  reflexivity.
Qed.

(** decoding a last group with two padding characters *)
Lemma decode_group_pad2 (i0 i1 : N) :
  i0 < 64 -> i1 < 64 ->
  b64decode (String (char_of i0) (String (char_of i1)
               (String pad (String pad EmptyString))))
  = Some (String (ascii_of_N (i0 * 4 + i1 / 16)) EmptyString).
Proof.
  intros H0 H1. cbn [b64decode].
  rewrite !index_of_char_of by assumption.
  reflexivity.
Qed.

(** induction on strings three characters at a time *)
Lemma string_ind3 (P : string -> Prop) :
  P EmptyString ->
  (forall a, P (String a EmptyString)) ->
  (forall a b, P (String a (String b EmptyString))) ->
  (forall a b c t, P t -> P (String a (String b (String c t)))) ->
  forall s, P s.
Proof.
  intros H0 H1 H2 H3 s.
  assert (H : P s /\ (forall a, P (String a s))
              /\ (forall a b, P (String a (String b s)))).
  { induction s as [|c s (IHs & IH1 & IH2)].
    - auto.
    - split; [apply IH1 |]. split; [intros a; apply IH2 |].
      intros a b. apply H3. exact IHs. }
  apply H.
Qed.

Theorem b64decode_b64encode (s : string) :
  b64decode (b64encode s) = Some s.
Proof.
  induction s as [| a | a b | a b c t IH] using string_ind3.
  - reflexivity.
  - pose proof (N_ascii_bounded a) as Ha.
    destruct (sextets (N_of_ascii a) 0 0 Ha) as (S0 & S1 & _ & _ & E0 & _);
      try reflexivity.
    cbn [b64encode].
    replace ((N_of_ascii a mod 4) * 16)
      with ((N_of_ascii a mod 4) * 16 + 0 / 16)
      by (change (0 / 16) with 0; apply N.add_0_r).
    rewrite decode_group_pad2, E0, ascii_N_embedding by assumption.
    reflexivity.
  - pose proof (N_ascii_bounded a) as Ha.
    pose proof (N_ascii_bounded b) as Hb.
    destruct (sextets (N_of_ascii a) (N_of_ascii b) 0 Ha Hb)
      as (S0 & S1 & S2 & _ & E0 & E1 & _); try reflexivity.
    cbn [b64encode].
    replace ((N_of_ascii b mod 16) * 4)
      with ((N_of_ascii b mod 16) * 4 + 0 / 64)
      by (change (0 / 64) with 0; apply N.add_0_r).
    rewrite decode_group_pad1, E0, E1, !ascii_N_embedding by assumption.
    reflexivity.
  - pose proof (N_ascii_bounded a) as Ha.
    pose proof (N_ascii_bounded b) as Hb.
    pose proof (N_ascii_bounded c) as Hc.
    destruct (sextets (N_of_ascii a) (N_of_ascii b) (N_of_ascii c) Ha Hb Hc)
      as (S0 & S1 & S2 & S3 & E0 & E1 & E2).
    cbn [b64encode].
    rewrite decode_group, E0, E1, E2, !ascii_N_embedding, IH by assumption.
    reflexivity.
Qed.

End Base64Facts.

(** ** Strings: splitting at dots, containment *)

Module PyFacts.

Lemma prefix_append (p s : string) : String.prefix p (p ++ s) = true.
Proof.
  induction p as [|c p IH]; simpl.
  - destruct s; reflexivity.
  - destruct (ascii_dec c c); [exact IH | congruence].
Qed.

Lemma contains_prefix (p s : string) :
  String.prefix p s = true -> Py.contains p s = true.
Proof.
  intros H. destruct s; cbn [Py.contains]; rewrite H; reflexivity.
Qed.

Lemma contains_append (p a b : string) :
  Py.contains p (a ++ p ++ b) = true.
Proof.
  induction a as [|c a IH].
  - change (EmptyString ++ p ++ b) with (p ++ b).
    apply contains_prefix, prefix_append.
  - simpl append. cbn [Py.contains]. rewrite IH. apply orb_true_r.
Qed.

Lemma prefix_dot (c : ascii) (t : string) :
  String.prefix "." (String c t) = Ascii.eqb "."%char c.
Proof.
  transitivity (if ascii_dec "." c then String.prefix EmptyString t
                else false); [reflexivity |].
  destruct (ascii_dec "." c) as [E|E].
  - subst c. destruct t; reflexivity.
  - symmetry. apply Ascii.eqb_neq. exact E.
Qed.

(** a string without dot is a single field *)
Lemma split_no_dot (s : string) :
  Py.contains "." s = false -> Py.split dot s = [s].
Proof.
  unfold dot. induction s as [|c s IH]; [reflexivity |].
  cbn [Py.contains Py.split]. rewrite prefix_dot.
  intros H. apply orb_false_iff in H as [Hc Hs].
  rewrite Ascii.eqb_sym in Hc. rewrite Hc.
  rewrite (IH Hs). reflexivity.
Qed.

(** the first field ends at the first dot *)
Lemma split_at_first_dot (a b : string) :
  Py.contains "." a = false ->
  Py.split dot (a ++ "." ++ b) = a :: Py.split dot b.
Proof.
  unfold dot. induction a as [|c a IH]; [reflexivity |].
  cbn [Py.contains]. rewrite prefix_dot.
  intros H. apply orb_false_iff in H as [Hc Ha].
  change (String c a ++ "." ++ b) with (String c (a ++ "." ++ b)).
  cbn [Py.split].
  rewrite Ascii.eqb_sym in Hc. rewrite Hc.
  rewrite (IH Ha). reflexivity.
Qed.

Lemma split_not_nil (s : string) : Py.split dot s <> [].
Proof.
  destruct s as [|c s]; simpl; [discriminate |].
  destruct (Ascii.eqb c dot); [discriminate |].
  destruct (Py.split dot s); discriminate.
Qed.

Lemma split_append_dot (a b : string) :
  exists h r,
    Py.split dot (a ++ "." ++ b) = (h :: r ++ Py.split dot b)%list.
Proof.
  induction a as [|c a (h & r & IH)].
  - exists EmptyString, []. reflexivity.
  - change (String c a ++ "." ++ b) with (String c (a ++ "." ++ b)).
    cbn [Py.split]. rewrite IH.
    destruct (Ascii.eqb c dot).
    + exists EmptyString, (h :: r). reflexivity.
    + exists (String c h), r. reflexivity.
Qed.

Lemma last_after (A : Type) (l l' : list A) (d : A) :
  l' <> [] -> List.last (l ++ l') d = List.last l' d.
Proof.
  intros H. induction l as [|x l IH]; [reflexivity |].
  simpl app. cbn [List.last]. rewrite IH.
  destruct (l ++ l')%list eqn:E; [| reflexivity].
  apply app_eq_nil in E as [_ E]. contradiction.
Qed.

(** the last field starts after the last dot *)
Lemma last_split_after_dot (a b : string) :
  Py.last (Py.split dot (a ++ "." ++ b)) = Py.last (Py.split dot b).
Proof.
  unfold Py.last.
  destruct (split_append_dot a b) as (h & r & E). rewrite E.
  apply (last_after _ (h :: r)), split_not_nil.
Qed.

(** The suffix the loader looks at is what follows the last dot, in lower
    case. *)
Lemma file_extension_suffix (a suffix : string) :
  Py.contains "." suffix = false ->
  file_extension (a ++ "." ++ suffix) = Py.lower suffix.
Proof.
  intros H. unfold file_extension.
  rewrite last_split_after_dot, (split_no_dot _ H). reflexivity.
Qed.

(** Without any dot, it is the whole name. *)
Lemma file_extension_no_dot (name : string) :
  Py.contains "." name = false ->
  file_extension name = Py.lower name.
Proof.
  intros H. unfold file_extension. rewrite (split_no_dot _ H). reflexivity.
Qed.

(** The prefix of the download name is what precedes the first dot; it is
    the stem when the name has at most one dot. *)
Lemma prefix_before_first_dot (a b : string) :
  Py.contains "." a = false ->
  download_filename_prefix (a ++ "." ++ b) = a.
Proof.
  intros H. unfold download_filename_prefix.
  rewrite (split_at_first_dot _ _ H). reflexivity.
Qed.

Lemma prefix_no_dot (name : string) :
  Py.contains "." name = false ->
  download_filename_prefix name = name /\ stem name = name.
Proof.
  intros H. unfold download_filename_prefix, stem.
  rewrite (split_no_dot _ H). split; reflexivity.
Qed.

Lemma stem_one_dot (a b : string) :
  Py.contains "." a = false -> Py.contains "." b = false ->
  stem (a ++ "." ++ b) = a.
Proof.
  intros Ha Hb. unfold stem.
  rewrite (split_at_first_dot _ _ Ha), (split_no_dot _ Hb). simpl.
  reflexivity.
Qed.

End PyFacts.

(** ** features.py: loading and summarizing *)

Section IngestFacts.

Variable lib : Library.

(** The four suffixes are told apart by the cascade of line 31-38. *)
Lemma load_csv (f : UploadedFile) :
  file_extension (file_name f) = "csv" ->
  load lib f = (text <~ decode_utf8 lib (getvalue f) ;;
                df <~ read_csv lib text ;; Ok (Some df)).
Proof. intros H. unfold load. rewrite H. reflexivity. Qed.

Lemma load_excel (f : UploadedFile) :
  file_extension (file_name f) = "xls"
  \/ file_extension (file_name f) = "xlsx" ->
  load lib f = (df <~ read_excel lib (getvalue f) ;; Ok (Some df)).
Proof. intros [H | H]; unfold load; rewrite H; reflexivity. Qed.

Lemma load_json (f : UploadedFile) :
  file_extension (file_name f) = "json" ->
  load lib f = (text <~ decode_utf8 lib (getvalue f) ;;
                df <~ read_json lib text ;; Ok (Some df)).
Proof. intros H. unfold load. rewrite H. reflexivity. Qed.

Lemma load_unsupported (f : UploadedFile) :
  ~ In (file_extension (file_name f)) ["csv"; "xls"; "xlsx"; "json"] ->
  load lib f = Ok None.
Proof.
  intros H. unfold load, Py.mem, existsb.
  destruct (String.eqb_spec (file_extension (file_name f)) "csv") as [E|_];
    [exfalso; apply H; rewrite E; simpl; auto |].
  destruct (String.eqb_spec (file_extension (file_name f)) "xls") as [E|_];
    [exfalso; apply H; rewrite E; simpl; auto |].
  destruct (String.eqb_spec (file_extension (file_name f)) "xlsx") as [E|_];
    [exfalso; apply H; rewrite E; simpl; auto |].
  destruct (String.eqb_spec (file_extension (file_name f)) "json") as [E|_];
    [exfalso; apply H; rewrite E; simpl; auto |].
  reflexivity.
Qed.

(** The ingestion in terms of what the loader returned. *)
Lemma ingest_loaded (f : UploadedFile) (df : DataFrame) :
  load lib f = Ok (Some df) ->
  ingest_and_summarize_kpis lib f
  = match summarize lib df with
    | Ok r => r
    | Raised e =>
        (None, None,
         Some ("Error ingesting or processing file: " ++ str_of e))
    end.
Proof.
  intros H. unfold ingest_and_summarize_kpis. rewrite H. reflexivity.
Qed.

Lemma ingest_unsupported (f : UploadedFile) :
  load lib f = Ok None ->
  ingest_and_summarize_kpis lib f
  = (None, None, Some unsupported_file_type).
Proof.
  intros H. unfold ingest_and_summarize_kpis. rewrite H. reflexivity.
Qed.

(** A table without numeric column has an empty numeric part. *)
Lemma no_numeric_column_empty (df : DataFrame) :
  (forall c, In c (columns df) -> is_numeric c = false) ->
  df_empty (select_dtypes_number df) = true.
Proof.
  intros H. unfold df_empty, select_dtypes_number. simpl.
  replace (filter is_numeric (columns df)) with (@nil (string * Column)).
  - apply orb_true_r.
  - symmetry. induction (columns df) as [|c l IH]; [reflexivity |].
    simpl. rewrite (H c (or_introl eq_refl)).
    apply IH. intros c' Hc'. apply H. right. exact Hc'.
Qed.

(** What a successful ingestion says of its table and of its digest. *)
Lemma ingest_success (f : UploadedFile) (df : DataFrame) (md : string) :
  ingest_and_summarize_kpis lib f = (Some df, Some md, None) ->
  df_empty df = false
  /\ (md = no_numerical_data
      \/ to_markdown lib (transpose (describe (select_dtypes_number df)))
         = Ok md).
Proof.
  unfold ingest_and_summarize_kpis.
  destruct (load lib f) as [[df'|]|e]; simpl; try discriminate.
  unfold summarize.
  destruct (df_empty df') eqn:E; simpl; [discriminate |].
  destruct (df_empty (select_dtypes_number df')); simpl.
  - intros H; inversion H; subst. auto.
  - destruct (to_markdown lib _) eqn:T; simpl; [| discriminate].
    intros H; inversion H; subst. auto.
Qed.

End IngestFacts.

(** C5: the loader looks at the lower-cased text after the last dot of the
    file name (at the whole name when it has no dot).  When it is none of
    csv, xls, xlsx and json, ingestion fails with the unsupported-file-type
    error and no table; csv goes to the delimited-text parser, xls and xlsx
    to the spreadsheet parser, json to the JSON-table parser. *)
Theorem format_dispatch (lib : Library) (f : UploadedFile) :
  (forall a suffix,
      file_name f = a ++ "." ++ suffix -> Py.contains "." suffix = false ->
      file_extension (file_name f) = Py.lower suffix)
  /\ (Py.contains "." (file_name f) = false ->
      file_extension (file_name f) = Py.lower (file_name f))
  /\ (~ In (file_extension (file_name f)) ["csv"; "xls"; "xlsx"; "json"] ->
      load lib f = Ok None
      /\ ingest_and_summarize_kpis lib f
         = (None, None, Some unsupported_file_type))
  /\ (file_extension (file_name f) = "csv" ->
      load lib f = (text <~ decode_utf8 lib (getvalue f) ;;
                    df <~ read_csv lib text ;; Ok (Some df)))
  /\ (file_extension (file_name f) = "xls"
      \/ file_extension (file_name f) = "xlsx" ->
      load lib f = (df <~ read_excel lib (getvalue f) ;; Ok (Some df)))
  /\ (file_extension (file_name f) = "json" ->
      load lib f = (text <~ decode_utf8 lib (getvalue f) ;;
                    df <~ read_json lib text ;; Ok (Some df))).
Proof.
  split.
  { intros a suffix E H. rewrite E. apply PyFacts.file_extension_suffix, H. }
  split; [apply PyFacts.file_extension_no_dot |].
  split.
  { intros H. pose proof (load_unsupported lib f H) as L.
    split; [exact L | apply ingest_unsupported, L]. }
  split; [apply load_csv |].
  split; [apply load_excel | apply load_json].
Qed.

Lemma format_dispatch_witness :
  ingest_and_summarize_kpis (Sample.library Sample.table)
    (mkUploadedFile "report.final.PDF" "bytes")
  = (None, None, Some unsupported_file_type)
  /\ load (Sample.library Sample.table) (mkUploadedFile "Q1.report.CSV" "bytes")
     = Ok (Some Sample.table).
Proof.
  split.
  - refine (proj2 (proj1 (proj2 (proj2
      (format_dispatch (Sample.library Sample.table)
         (mkUploadedFile "report.final.PDF" "bytes")))) _)).
    simpl. intros [H | [H | [H | [H | []]]]]; discriminate H.
  - rewrite (proj1 (proj2 (proj2 (proj2
      (format_dispatch (Sample.library Sample.table)
         (mkUploadedFile "Q1.report.CSV" "bytes"))))) eq_refl).
    reflexivity.
Defined.

(** C4: for a non-empty table without any numeric column, the digest
    builder returns the table with the "no numeric data" sentinel as its
    digest and no error; it does not build a statistics table. *)
Theorem no_numeric_data_sentinel
    (lib : Library) (f : UploadedFile) (df : DataFrame) :
  load lib f = Ok (Some df) ->
  df_empty df = false ->
  (forall c, In c (columns df) -> is_numeric c = false) ->
  summarize lib df = Ok (Some df, Some no_numerical_data, None)
  /\ ingest_and_summarize_kpis lib f
     = (Some df, Some no_numerical_data, None).
Proof.
  intros Hload Hne Hnum.
  assert (S : summarize lib df = Ok (Some df, Some no_numerical_data, None)).
  { unfold summarize.
    rewrite Hne, (no_numeric_column_empty df Hnum). reflexivity. }
  split; [exact S |].
  rewrite (ingest_loaded lib f df Hload), S. reflexivity.
Qed.

Lemma no_numeric_data_sentinel_witness :
  ingest_and_summarize_kpis (Sample.library Sample.text_table)
    Sample.report_csv
  = (Some Sample.text_table, Some no_numerical_data, None).
Proof.
  refine (proj2 (no_numeric_data_sentinel (Sample.library Sample.text_table)
                   Sample.report_csv Sample.text_table _ _ _)).
  - reflexivity.
  - reflexivity.
  - intros c [H | []]. subst c. reflexivity.
Defined.

(** ** The digest: shape and order *)

Module DigestFacts.

Lemma map_seq_nth_error (A B : Type) (F : nat -> B) (G : A -> B)
      (l : list A) :
  (forall j x, nth_error l j = Some x -> F j = G x) ->
  map F (seq 0 (length l)) = map G l.
Proof.
  revert F. induction l as [|x l IH]; intros F H; [reflexivity |].
  simpl length. rewrite <- cons_seq, <- seq_shift, map_cons, map_map.
  simpl map. f_equal.
  - apply (H 0%nat). reflexivity.
  - apply IH. intros j y Hj. apply (H (S j)). exact Hj.
Qed.

Lemma nth_map_nth_error (A B : Type) (g : A -> B) (l : list A)
      (j : nat) (x : A) (d : B) :
  nth_error l j = Some x -> nth j (map g l) d = g x.
Proof.
  revert j. induction l as [|y l IH]; intros [|j] H;
    try discriminate; simpl in *.
  - inversion H. reflexivity.
  - apply IH, H.
Qed.

(** [describe] then [transpose]: one row per column of the table, in the
    order of the table; one column per statistic, in the fixed order. *)
Lemma digest_shape (numeric_df : DataFrame) :
  transpose (describe numeric_df)
  = mkFrame (map fst (columns numeric_df))
            Stats.names
            (map digest_row (columns numeric_df)).
Proof.
  unfold transpose, describe. cbn [index header body].
  f_equal. rewrite length_map.
  apply map_seq_nth_error. intros j c Hj.
  unfold digest_row, Stats.functions. cbn [map].
  rewrite !(nth_map_nth_error _ _ _ _ j c NaN Hj). reflexivity.
Qed.

Lemma position_nth_error (cols : list (string * Column))
      (i : nat) (name : string) (c : Column) :
  NoDup (map fst cols) ->
  nth_error cols i = Some (name, c) ->
  position name (map fst cols) = Some i.
Proof.
  revert i. induction cols as [|[n0 c0] cols IH]; intros [|i] Hnd H;
    try discriminate; simpl in *.
  - inversion H; subst. rewrite String.eqb_refl. reflexivity.
  - inversion Hnd as [|? ? Hnotin Hnd']; subst.
    destruct (String.eqb_spec name n0) as [E|_].
    + exfalso. apply Hnotin. subst n0.
      apply (in_map fst cols (name, c)).
      eapply nth_error_In. exact H.
    + rewrite (IH i Hnd' H). reflexivity.
Qed.

Lemma NoDup_numeric (cols : list (string * Column)) :
  NoDup (map fst cols) -> NoDup (map fst (filter is_numeric cols)).
Proof.
  induction cols as [|c cols IH]; intros H; [constructor |].
  inversion H as [|? ? Hnotin Hnd]; subst. simpl.
  destruct (is_numeric c); [| apply IH, Hnd].
  simpl. constructor; [| apply IH, Hnd].
  intros Hin. apply Hnotin.
  apply in_map_iff in Hin as (c' & E & Hc').
  apply filter_In in Hc' as [Hc' _].
  rewrite <- E. apply in_map. exact Hc'.
Qed.

(** The cell of the digest for a numeric column and the [j]-th
    statistic. *)
Lemma digest_cell (df : DataFrame) (name stat : string) (xs : list (option Q))
      (j : nat) :
  NoDup (map fst (columns df)) ->
  In (name, NumCol xs) (columns df) ->
  position stat Stats.names = Some j ->
  cell (transpose (describe (select_dtypes_number df))) name stat
  = nth_error (digest_row (name, NumCol xs)) j.
Proof.
  intros Hnd Hin Hj. rewrite digest_shape.
  unfold cell. cbn [index header body select_dtypes_number columns].
  assert (Hin' : In (name, NumCol xs) (filter is_numeric (columns df)))
    by (apply filter_In; split; [exact Hin | reflexivity]).
  apply In_nth_error in Hin' as [i Hi].
  rewrite (position_nth_error _ i name (NumCol xs) (NoDup_numeric _ Hnd) Hi).
  rewrite Hj.
  rewrite (nth_map_nth_error _ _ digest_row _ i (name, NumCol xs) [] Hi).
  reflexivity.
Qed.

Lemma exact_within (q : Q) (x : R) :
  Q2R q = x -> within_tolerance (Exact q) x.
Proof.
  intros H. exists x. split; [simpl; f_equal; exact H |].
  unfold Rminus. rewrite Rplus_opp_r, Rabs_R0. lra.
Qed.

(** 1.5810 <= sqrt 2.5 <= 1.5812 *)
Lemma sqrt_five_halves :
  within_tolerance (Sqrt (5 # 2)) (15811 / 10000)%R.
Proof.
  exists (sqrt (Q2R (5 # 2))). split; [reflexivity |].
  assert (E : Q2R (5 # 2) = (5 / 2)%R) by (unfold Q2R; simpl; lra).
  rewrite E.
  assert (Lo : (1581 / 1000 <= sqrt (5 / 2))%R).
  { rewrite <- (sqrt_square (1581 / 1000)) by lra.
    apply sqrt_le_1_alt. lra. }
  assert (Hi : (sqrt (5 / 2) <= 15812 / 10000)%R).
  { rewrite <- (sqrt_square (15812 / 10000)) by lra.
    apply sqrt_le_1_alt. lra. }
  apply Rabs_le. lra.
Qed.

(** A table with a row and a numeric column takes the digest branch of
    lines 42-47. *)
Lemma summarize_numeric (lib : Library) (df : DataFrame) (name : string)
      (xs : list (option Q)) :
  In (name, NumCol xs) (columns df) ->
  nrows df <> 0%nat ->
  summarize lib df
  = (kpi_description_markdown
       <~ to_markdown lib (transpose (describe (select_dtypes_number df))) ;;
     Ok (Some df, Some kpi_description_markdown, None)).
Proof.
  intros Hin Hrows. unfold summarize.
  assert (Hn : (nrows df =? 0)%nat = false) by (apply Nat.eqb_neq, Hrows).
  assert (Hnum : In (name, NumCol xs) (filter is_numeric (columns df))).
  { apply filter_In. split; [exact Hin | reflexivity]. }
  assert (E1 : df_empty df = false).
  { unfold df_empty. rewrite Hn.
    destruct (columns df); [destruct Hin | reflexivity]. }
  assert (E2 : df_empty (select_dtypes_number df) = false).
  { unfold df_empty, select_dtypes_number. cbn [nrows columns]. rewrite Hn.
    destruct (filter is_numeric (columns df)); [destruct Hnum | reflexivity]. }
  rewrite E1. cbn [negb]. rewrite E2. reflexivity.
Qed.

End DigestFacts.

(** C3: a file whose parser returns a table of five rows with uniquely named
    columns, one of them numeric and holding 1, 2, 3, 4, 5, is ingested
    through the digest branch: the text returned is the serialization of the
    digest built at lines 46-47, and the row of that column in this digest
    reports count 5, mean 3, minimum 1, maximum 5, median 3 and a sample
    standard deviation within 1e-4 of 1.5811, each up to the tolerance
    1e-4. *)
Theorem digest_of_one_to_five
    (lib : Library) (f : UploadedFile) (df : DataFrame) (name : string) :
  load lib f = Ok (Some df) ->
  nrows df = 5%nat ->
  NoDup (map fst (columns df)) ->
  In (name, NumCol [Some 1%Q; Some 2%Q; Some 3%Q; Some 4%Q; Some 5%Q])
     (columns df) ->
  let digest := transpose (describe (select_dtypes_number df)) in
  summarize lib df
  = (kpi_description_markdown <~ to_markdown lib digest ;;
     Ok (Some df, Some kpi_description_markdown, None))
  /\ ingest_and_summarize_kpis lib f
     = match to_markdown lib digest with
       | Ok kpi_description_markdown =>
           (Some df, Some kpi_description_markdown, None)
       | Raised e =>
           (None, None,
            Some ("Error ingesting or processing file: " ++ str_of e))
       end
  /\ exists count mean std min median max,
       cell digest name "count" = Some count /\ within_tolerance count 5
       /\ cell digest name "mean" = Some mean /\ within_tolerance mean 3
       /\ cell digest name "std" = Some std
       /\ within_tolerance std (15811 / 10000)
       /\ cell digest name "min" = Some min /\ within_tolerance min 1
       /\ cell digest name "50%" = Some median /\ within_tolerance median 3
       /\ cell digest name "max" = Some max /\ within_tolerance max 5.
Proof.
  intros Hload Hrows Hnd Hin digest.
  assert (Hs : summarize lib df
               = (kpi_description_markdown <~ to_markdown lib digest ;;
                  Ok (Some df, Some kpi_description_markdown, None))).
  { apply (DigestFacts.summarize_numeric lib df name _ Hin).
    rewrite Hrows. discriminate. }
  split; [exact Hs |].
  split.
  { rewrite (ingest_loaded lib f df Hload), Hs.
    destruct (to_markdown lib digest); reflexivity. }
  subst digest.
  exists (Exact 5), (Exact 3), (Sqrt (5 # 2)), (Exact 1), (Exact 3), (Exact 5).
  rewrite (DigestFacts.digest_cell df name "count" _ 0 Hnd Hin eq_refl).
  rewrite (DigestFacts.digest_cell df name "mean" _ 1 Hnd Hin eq_refl).
  rewrite (DigestFacts.digest_cell df name "std" _ 2 Hnd Hin eq_refl).
  rewrite (DigestFacts.digest_cell df name "min" _ 3 Hnd Hin eq_refl).
  rewrite (DigestFacts.digest_cell df name "50%" _ 5 Hnd Hin eq_refl).
  rewrite (DigestFacts.digest_cell df name "max" _ 7 Hnd Hin eq_refl).
  repeat split; try (vm_compute; reflexivity);
    try (apply DigestFacts.exact_within; unfold Q2R; simpl; lra).
  apply DigestFacts.sqrt_five_halves.
Qed.

Lemma digest_of_one_to_five_witness :
  ingest_and_summarize_kpis (Sample.library Sample.table) Sample.report_csv
  = (Some Sample.table,
     Some "|    | count | mean | std | min | 25% | 50% | 75% | max |", None)
  /\ exists std,
       cell (transpose (describe (select_dtypes_number Sample.table)))
            "revenue" "std" = Some std
       /\ within_tolerance std (15811 / 10000).
Proof.
  destruct (digest_of_one_to_five (Sample.library Sample.table)
              Sample.report_csv Sample.table "revenue")
    as (_ & Hi & count & mean & std & min & median & max & H).
  - reflexivity.
  - reflexivity.
  - repeat constructor; simpl; intuition discriminate.
  - right. left. reflexivity.
  - split; [exact Hi |]. exists std. split; apply H.
Defined.

(** ** features.py: the orchestration *)

Section ReportFacts.

Variable lib : Library.
Variable ai : GenAI.

Lemma package_markdown (f : UploadedFile) (s : string)
      (df : option DataFrame) (log : list Event) :
  package lib f "markdown" s df log
  = (Ok (s, Some ("data:text/markdown;base64," ++ Base64.b64encode s),
         true, None, df), log).
Proof. reflexivity. Qed.

Lemma package_html (f : UploadedFile) (s html : string)
      (df : option DataFrame) (log : list Event) :
  markdown_markdown lib s = Ok html ->
  package lib f "html" s df log
  = (Ok (s,
         Some ("data:text/html;base64,"
               ++ Base64.b64encode
                    (html_content (download_filename_prefix (file_name f))
                                  html)),
         true, None, df), log).
Proof.
  intros H. unfold package. cbn [String.eqb Ascii.eqb Bool.eqb].
  unfold_monad. rewrite H. reflexivity.
Qed.

(** Packaging reaches no service. *)
Lemma package_pure (f : UploadedFile) (fmt s : string)
      (df : option DataFrame) (log : list Event) :
  package lib f fmt s df log = (fst (package lib f fmt s df []), log).
Proof.
  unfold package.
  destruct (String.eqb fmt "markdown"); [reflexivity |].
  destruct (String.eqb fmt "html"); [| reflexivity].
  unfold_monad. destruct (markdown_markdown lib s); reflexivity.
Qed.

Lemma parse_link (mime payload : string) :
  Py.contains ";" mime = false ->
  DataUri.parse ("data:" ++ mime ++ ";base64," ++ payload)
  = Some (mime, payload).
Proof.
  intros H. unfold DataUri.parse.
  change (DataUri.strip_prefix "data:" ("data:" ++ mime ++ ";base64," ++ payload))
    with (Some (mime ++ ";base64," ++ payload)).
  assert (B : DataUri.break_at ";" (mime ++ ";base64," ++ payload)
              = Some (mime, "base64," ++ payload)).
  { induction mime as [|c mime IH]; [reflexivity |].
    cbn [Py.contains] in H. apply orb_false_iff in H as [Hc Hm].
    change (String c mime ++ ";base64," ++ payload)
      with (String c (mime ++ ";base64," ++ payload)).
    cbn [DataUri.break_at]. rewrite (IH Hm).
    replace (Ascii.eqb c ";") with false; [reflexivity |].
    symmetry. apply Ascii.eqb_neq. intros E. subst c.
    destruct mime; discriminate Hc. }
  cbv beta iota. rewrite B. reflexivity.
Qed.

(** What the orchestration does once a digest with numbers is there:
    it asks for the summary, and either reports its failure or packages
    it. *)
Lemma report_summarized (f : UploadedFile) (fmt : string)
      (df : DataFrame) (md s : string) (log : list Event) :
  ingest_and_summarize_kpis lib f = (Some df, Some md, None) ->
  Py.contains "No numerical data" md = false ->
  generate_kpi_summary ai md [] = (Ok s, log) ->
  generate_report_and_insights lib ai (Some f) fmt []
  = if negb (Py.truthy s) || Py.startswith s "ERROR:"
    then (Ok (EmptyString, None, false, Some s, Some df), log)
    else
      (match fst (package lib f fmt s (Some df) []) with
       | Ok r => Ok r
       | Raised e =>
           Ok (EmptyString, None, false, Some (unexpected_error e), Some df)
       end, log).
Proof.
  intros Hing Hnum Hsum.
  destruct (ingest_success lib f df md Hing) as [Hne _].
  unfold generate_report_and_insights. rewrite Hing.
  cbv beta iota zeta. unfold summarize_and_package.
  unfold is_empty_or_none, lacks_numerical_data. rewrite Hne, Hnum.
  unfold try_except at 1, bind at 1. rewrite Hsum.
  destruct (negb (Py.truthy s) || Py.startswith s "ERROR:");
    [reflexivity |].
  rewrite package_pure.
  destruct (fst (package lib f fmt s (Some df) [])); reflexivity.
Qed.

End ReportFacts.

Section ReportLinks.

Variable lib : Library.
Variable ai : GenAI.

(** Every link a report carries was made by the packaging step, from the
    summary text the report returns. *)
Lemma summarize_and_package_link
      (f : UploadedFile) (fmt : string) (df df' : option DataFrame)
      (md : option string) (text link : string) (ok : bool)
      (err : option string) (log : list Event) :
  fst (summarize_and_package lib ai f fmt df md log)
  = Ok (text, Some link, ok, err, df') ->
  fst (package lib f fmt text df [])
  = Ok (text, Some link, ok, err, df').
Proof.
  unfold summarize_and_package.
  destruct (is_empty_or_none df); [unfold_monad; discriminate |].
  unfold bind.
  destruct ((if lacks_numerical_data md
             then ret no_numerical_kpis
             else match md with
                  | Some text => generate_kpi_summary ai text
                  | None => ret no_numerical_kpis
                  end) log) as [[s|e] l]; [| discriminate].
  destruct (negb (Py.truthy s) || Py.startswith s "ERROR:");
    [unfold ret; discriminate |].
  rewrite package_pure. cbn [fst].
  intros H.
  assert (E : s = text).
  { unfold package in H.
    destruct (String.eqb fmt "markdown");
      [unfold_monad; simpl in H; congruence |].
    destruct (String.eqb fmt "html");
      [| unfold_monad; simpl in H; congruence].
    unfold_monad. destruct (markdown_markdown lib s); simpl in H;
      congruence. }
  subst s. exact H.
Qed.

Lemma report_link (f : UploadedFile) (fmt text link : string) (ok : bool)
      (err : option string) (df : option DataFrame) :
  outcome (generate_report_and_insights lib ai (Some f) fmt)
  = Ok (text, Some link, ok, err, df) ->
  exists df0,
    fst (package lib f fmt text df0 [])
    = Ok (text, Some link, ok, err, df).
Proof.
  unfold outcome, generate_report_and_insights.
  destruct (ingest_and_summarize_kpis lib f) as [[d m] e].
  unfold try_except.
  assert (K : fst (match summarize_and_package lib ai f fmt d m [] with
                   | (Ok a, log') => (Ok a, log')
                   | (Raised e0, log') =>
                       ret (EmptyString, None, false,
                            Some (unexpected_error e0), d) log'
                   end)
              = Ok (text, Some link, ok, err, df) ->
              exists df0,
                fst (package lib f fmt text df0 [])
                = Ok (text, Some link, ok, err, df)).
  { pose proof (summarize_and_package_link f fmt d df m text link ok err [])
      as L.
    destruct (summarize_and_package lib ai f fmt d m []) as [[r|e0] l];
      simpl in *; [| discriminate].
    intros H. exists d. apply L. exact H. }
  destruct e as [e|]; [| exact K].
  destruct (Py.truthy e); [unfold ret; discriminate | exact K].
Qed.

End ReportLinks.

(** A data URI made of a MIME type without semicolon and of the base64 of
    some bytes is read back as that type and those bytes. *)
Lemma link_decodes (mime bytes : string) :
  Py.contains ";" mime = false ->
  DataUri.mime_type ("data:" ++ mime ++ ";base64," ++ Base64.b64encode bytes)
  = Some mime
  /\ DataUri.decoded ("data:" ++ mime ++ ";base64," ++ Base64.b64encode bytes)
     = Some bytes.
Proof.
  intros H. unfold DataUri.mime_type, DataUri.decoded.
  rewrite (parse_link mime (Base64.b64encode bytes) H).
  split; [reflexivity | apply Base64Facts.b64decode_b64encode].
Qed.

(** C6: packaging a narrative as Markdown gives a link of MIME type
    text/markdown whose base64 payload decodes to exactly the narrative; and
    whenever a Markdown report carries a link, the link decodes to the
    summary text the report returns. *)
Theorem markdown_round_trip
    (lib : Library) (f : UploadedFile) (narrative : string)
    (df : option DataFrame) :
  (exists link,
      outcome (package lib f "markdown" narrative df)
      = Ok (narrative, Some link, true, None, df)
      /\ DataUri.mime_type link = Some "text/markdown"
      /\ DataUri.decoded link = Some narrative)
  /\ (forall ai text link ok err df',
         outcome (generate_report_and_insights lib ai (Some f) "markdown")
         = Ok (text, Some link, ok, err, df') ->
         DataUri.mime_type link = Some "text/markdown"
         /\ DataUri.decoded link = Some text).
Proof.
  assert (P : forall s,
             DataUri.mime_type
               ("data:text/markdown;base64," ++ Base64.b64encode s)
             = Some "text/markdown"
             /\ DataUri.decoded
                  ("data:text/markdown;base64," ++ Base64.b64encode s)
                = Some s)
    by (intros s; exact (link_decodes "text/markdown" s eq_refl)).
  split.
  - eexists. split; [reflexivity | apply P].
  - intros ai text link ok err df' H.
    apply report_link in H as [df0 H].
    rewrite package_markdown in H. simpl in H.
    inversion H; subst. apply P.
Qed.

Lemma markdown_round_trip_witness :
  DataUri.decoded
    "data:text/markdown;base64,UmV2ZW51ZSBncm93cy4="
  = Some "Revenue grows.".
Proof.
  refine (proj2 (proj2 (markdown_round_trip
            (Sample.library Sample.table) Sample.report_csv "unused" None)
          (Sample.answering "Revenue grows.") "Revenue grows."
          "data:text/markdown;base64,UmV2ZW51ZSBncm93cy4="
          true None (Some Sample.table) _)).
  vm_compute. reflexivity.
Defined.

(** C7, as the specification states it, fails: for the file name
    q1.2024.csv the stem is q1.2024, and the title of the hypertext report
    is "KPI Summary - q1", which does not contain it. *)
Lemma hypertext_title_misses_stem :
  exists link document title,
    outcome (generate_report_and_insights
               (Sample.library Sample.table) (Sample.answering "Revenue grows.")
               (Some (mkUploadedFile "q1.2024.csv" "bytes")) "html")
    = Ok ("Revenue grows.", Some link, true, None, Some Sample.table)
    /\ DataUri.decoded link = Some document
    /\ title_of document = Some title
    /\ title = "KPI Summary - q1"
    /\ stem "q1.2024.csv" = "q1.2024"
    /\ Py.contains (stem "q1.2024.csv") title = false.
Proof.
  eexists. eexists. eexists.
  split; [vm_compute; reflexivity |].
  split; [vm_compute; reflexivity |].
  split; [vm_compute; reflexivity |].
  split; [reflexivity |].
  split; vm_compute; reflexivity.
Qed.

(** C7, amended: packaging a narrative as hypertext gives a link of MIME
    type text/html whose payload decodes to the fixed page template with the
    rendered narrative in its body and, in its title element, "KPI Summary - "
    followed by the part of the file name before its first dot; this part is
    the stem of the file name when the name has at most one dot. *)
Theorem hypertext_title
    (lib : Library) (f : UploadedFile) (narrative html : string)
    (df : option DataFrame) :
  markdown_markdown lib narrative = Ok html ->
  let prefix := download_filename_prefix (file_name f) in
  (exists link,
      outcome (package lib f "html" narrative df)
      = Ok (narrative, Some link, true, None, df)
      /\ DataUri.mime_type link = Some "text/html"
      /\ DataUri.decoded link = Some (html_content prefix html))
  /\ (exists before_title after_title after_body,
        forall p h,
          html_content p h
          = before_title ++ "<title>" ++ html_title p ++ "</title>"
            ++ after_title ++ h ++ after_body)
  /\ Py.contains prefix (html_title prefix) = true
  /\ (forall a b, file_name f = a ++ "." ++ b ->
                  Py.contains "." a = false -> prefix = a)
  /\ (Py.contains "." (file_name f) = false ->
      prefix = file_name f /\ prefix = stem (file_name f))
  /\ (forall a b, file_name f = a ++ "." ++ b ->
                  Py.contains "." a = false -> Py.contains "." b = false ->
                  prefix = stem (file_name f)).
Proof.
  intros Hmd prefix.
  split.
  { eexists. split.
    - unfold outcome. rewrite (package_html lib f narrative html df [] Hmd).
      reflexivity.
    - exact (link_decodes "text/html" (html_content prefix html) eq_refl). }
  split.
  { unfold html_content.
    match eval vm_compute in (split_once "<title>" html_head) with
    | Some (?b, _) => exists b
    end.
    match eval vm_compute in (split_once "</title>" html_middle) with
    | Some (_, ?a) => exists a
    end.
    exists html_tail. intros p h. reflexivity. }
  split.
  { unfold html_title.
    replace prefix with (prefix ++ EmptyString) at 2
      by (clear; induction prefix as [|c p IH]; simpl; congruence).
    apply PyFacts.contains_append. }
  split.
  { intros a b E Ha. subst prefix. rewrite E.
    apply PyFacts.prefix_before_first_dot, Ha. }
  split.
  { intros H. subst prefix.
    destruct (PyFacts.prefix_no_dot _ H) as [P S]. rewrite P, S. auto. }
  intros a b E Ha Hb. subst prefix. rewrite E.
  rewrite (PyFacts.prefix_before_first_dot _ _ Ha).
  rewrite (PyFacts.stem_one_dot _ _ Ha Hb). reflexivity.
Qed.

Lemma hypertext_title_witness :
  Py.contains "report"
    (html_title (download_filename_prefix "report.csv")) = true
  /\ download_filename_prefix "report.csv" = stem "report.csv".
Proof.
  pose proof (hypertext_title (Sample.library Sample.table) Sample.report_csv
                "Revenue grows." "<p>Revenue grows.</p>" None eq_refl)
    as (_ & _ & Hc & _ & _ & Hs).
  split; [exact Hc |].
  exact (Hs "report" "csv" eq_refl eq_refl eq_refl).
Defined.

(** C9: when the file was ingested and its digest was handed to the
    summarizer, and the summarizer returns a text starting with "ERROR:",
    the orchestration reports a failure whose message is that text, with no
    summary and no link, and still returns the ingested table; the digest is
    the serialization of the statistics of that table. *)
Theorem summarizer_failure_keeps_table
    (lib : Library) (ai : GenAI) (f : UploadedFile) (output_format : string)
    (df : DataFrame) (digest error_text : string) :
  ingest_and_summarize_kpis lib f = (Some df, Some digest, None) ->
  Py.contains "No numerical data" digest = false ->
  outcome (generate_kpi_summary ai digest) = Ok error_text ->
  Py.startswith error_text "ERROR:" = true ->
  outcome (generate_report_and_insights lib ai (Some f) output_format)
  = Ok (EmptyString, None, false, Some error_text, Some df)
  /\ to_markdown lib (transpose (describe (select_dtypes_number df)))
     = Ok digest.
Proof.
  intros Hing Hnum Hsum Herr. unfold outcome in *.
  destruct (generate_kpi_summary ai digest []) as [r l] eqn:Hrun.
  simpl in Hsum. subst r.
  split.
  - rewrite (report_summarized lib ai f output_format df digest error_text l
               Hing Hnum Hrun).
    rewrite Herr, orb_true_r. reflexivity.
  - destruct (ingest_success lib f df digest Hing) as [_ [E | E]];
      [| exact E].
    subst digest. discriminate Hnum.
Qed.

Lemma summarizer_failure_keeps_table_witness :
  outcome (generate_report_and_insights
             (Sample.library Sample.table) Sample.failing
             (Some Sample.report_csv) "markdown")
  = Ok (EmptyString, None, false,
        Some "ERROR: An error occurred while calling the Google Generative AI API for KPI summary: 503 service unavailable",
        Some Sample.table).
Proof.
  refine (proj1 (summarizer_failure_keeps_table
            (Sample.library Sample.table) Sample.failing Sample.report_csv
            "markdown" Sample.table
            "|    | count | mean | std | min | 25% | 50% | 75% | max |"
            _ _ _ _ _)).
  - reflexivity.
  - reflexivity.
  - reflexivity.
  - reflexivity.
Defined.

(** C10: when the generation call returns a response without extractable
    text, the summarizer returns its fixed fallback sentence, which does not
    start with "ERROR:"; the orchestration then reports success with the
    fallback sentence as summary, and the Markdown link it returns decodes to
    that sentence (the hypertext link, to the page that embeds its
    rendering). *)
Theorem fallback_is_packaged
    (lib : Library) (ai : GenAI) (f : UploadedFile)
    (df : DataFrame) (digest model_name : string)
    (response : option Response) :
  ingest_and_summarize_kpis lib f = (Some df, Some digest, None) ->
  Py.contains "No numerical data" digest = false ->
  outcome (initialize_model ai "KPI Summary") = Ok model_name ->
  generate_content ai model_name (kpi_prompt digest) temperature
  = Ok response ->
  no_extractable_text response ->
  outcome (generate_kpi_summary ai digest) = Ok kpi_fallback
  /\ kpi_fallback
     = "AI response structure not as expected for KPI summary. Could not extract text."
  /\ Py.startswith kpi_fallback "ERROR:" = false
  /\ (exists link,
        outcome (generate_report_and_insights lib ai (Some f) "markdown")
        = Ok (kpi_fallback, Some link, true, None, Some df)
        /\ DataUri.decoded link = Some kpi_fallback)
  /\ (forall html,
        markdown_markdown lib kpi_fallback = Ok html ->
        exists link,
          outcome (generate_report_and_insights lib ai (Some f) "html")
          = Ok (kpi_fallback, Some link, true, None, Some df)
          /\ DataUri.decoded link
             = Some (html_content (download_filename_prefix (file_name f))
                                  html)).
Proof.
  intros Hing Hnum Hinit Hcall Hnone. unfold outcome in *.
  destruct (initialize_model ai "KPI Summary" []) as [r l] eqn:Hrun.
  simpl in Hinit. subst r.
  pose proof (summary_when_init_ok ai digest _ _ _ Hrun) as Hsum.
  rewrite Hcall, (extract_text_fallback kpi_fallback response Hnone) in Hsum.
  split; [rewrite Hsum; reflexivity |].
  split; [reflexivity |].
  split; [reflexivity |].
  split.
  - rewrite (report_summarized lib ai f "markdown" df digest kpi_fallback _
               Hing Hnum Hsum).
    change (negb (Py.truthy kpi_fallback)
            || Py.startswith kpi_fallback "ERROR:") with false.
    cbv iota. rewrite package_markdown.
    eexists. split; [reflexivity |].
    exact (proj2 (link_decodes "text/markdown" kpi_fallback eq_refl)).
  - intros html Hmd.
    rewrite (report_summarized lib ai f "html" df digest kpi_fallback _
               Hing Hnum Hsum).
    change (negb (Py.truthy kpi_fallback)
            || Py.startswith kpi_fallback "ERROR:") with false.
    cbv iota. rewrite (package_html lib f kpi_fallback html _ [] Hmd).
    eexists. split; [reflexivity |].
    exact (proj2 (link_decodes "text/html" _ eq_refl)).
Qed.

Lemma fallback_is_packaged_witness :
  exists link,
    outcome (generate_report_and_insights
               (Sample.library Sample.table) Sample.silent
               (Some Sample.report_csv) "markdown")
    = Ok (kpi_fallback, Some link, true, None, Some Sample.table)
    /\ DataUri.decoded link = Some kpi_fallback.
Proof.
  refine (proj1 (proj2 (proj2 (proj2
    (fallback_is_packaged
       (Sample.library Sample.table) Sample.silent Sample.report_csv
       Sample.table
       "|    | count | mean | std | min | 25% | 50% | 75% | max |"
       "gemini-1.5-flash-latest" (Some Sample.empty_response)
       _ _ _ _ _))))).
  - reflexivity.
  - reflexivity.
  - reflexivity.
  - reflexivity.
  - split; [reflexivity | left; reflexivity].
Defined.

(** * Further properties of the code *)

(** ** ai_logic.py: model selection *)

Module SelectionFacts.

Lemma mem_In (x : string) (l : list string) :
  Py.mem x l = true <-> In x l.
Proof.
  unfold Py.mem. rewrite existsb_exists. split.
  - intros (y & Hy & E). apply String.eqb_eq in E. subst y. exact Hy.
  - intros H. exists x. split; [exact H | apply String.eqb_refl].
Qed.

(** a name is kept by lines 14-17 when a listed model that supports
    generateContent bears it *)
Lemma supported_name (ms : list ModelInfo) (n : string) :
  In n (map name (filter supports_generateContent ms))
  <-> exists m, In m ms /\ supports_generateContent m = true /\ name m = n.
Proof.
  rewrite in_map_iff. split.
  - intros (m & E & H). apply filter_In in H as [H S]. eauto.
  - intros (m & H & S & E). exists m. split; [exact E |].
    apply filter_In. auto.
Qed.

(** the result of lines 6-37 when the listing returned *)
Lemma selection_listed (ai : GenAI) (ms : list ModelInfo) (log : list Event) :
  list_models ai = Ok ms ->
  fst (_get_suitable_model ai log)
  = let names := map name (filter supports_generateContent ms) in
    if Py.mem "models/gemini-1.5-flash-latest" names
    then Ok "gemini-1.5-flash-latest"
    else if Py.mem "models/gemini-1.0-pro" names then Ok "gemini-1.0-pro"
    else if Py.mem "models/gemini-pro" names then Ok "gemini-pro"
    else if Py.nonempty names
    then match find not_embedding_or_aqa names with
         | Some n => Ok (Py.replace "models/" "" n)
         | None =>
             Raised (ConnectionError
                       (selection_prefix ++ "No suitable text generation model found that supports generateContent after filtering."))
         end
    else Raised (ConnectionError
                   (selection_prefix ++ "No models found that support generateContent.")).
Proof.
  intros H. unfold _get_suitable_model. unfold_monad. rewrite H.
  cbv zeta.
  repeat (break_match; try reflexivity).
Qed.

Lemma selection_unlisted (ai : GenAI) (e : exn) (log : list Event) :
  list_models ai = Raised e ->
  fst (_get_suitable_model ai log)
  = Raised (ConnectionError (selection_prefix ++ str_of e)).
Proof.
  intros H. unfold _get_suitable_model. unfold_monad. rewrite H.
  reflexivity.
Qed.

(** replacing a text that does not occur changes nothing *)
Lemma replace_from_absent (old new s : string) :
  Py.contains old s = false -> Py.replace_from old new 0 s = s.
Proof.
  induction s as [|c s IH]; [reflexivity |].
  cbn [Py.contains Py.replace_from]. intros H.
  apply orb_false_iff in H as [Hp Hs].
  rewrite Hp, (IH Hs). reflexivity.
Qed.

(** the name of a model without its resource prefix *)
Lemma replace_models_prefix (id : string) :
  Py.contains "models/" id = false ->
  Py.replace "models/" "" ("models/" ++ id) = id.
Proof.
  intros H. unfold Py.replace.
  change ("models/" ++ id)
    with (String "m" (String "o" (String "d" (String "e"
            (String "l" (String "s" (String "/" id))))))).
  cbn [Py.replace_from].
  replace (String.prefix "models/"
             (String "m" (String "o" (String "d" (String "e"
                (String "l" (String "s" (String "/" id))))))))
    with true.
  - cbn [String.length Nat.sub Py.replace_from String.append].
    apply replace_from_absent, H.
  - symmetry. apply (PyFacts.prefix_append "models/" id).
Qed.

End SelectionFacts.

(** X1: the three preferred models are taken in their order of preference,
    wherever they stand in the listing: gemini-1.5-flash-latest when a model
    of that name supports generateContent, else gemini-1.0-pro, else
    gemini-pro. *)
Theorem selection_priority
    (ai : GenAI) (ms : list ModelInfo) (log : list Event) :
  list_models ai = Ok ms ->
  let offered n :=
    exists m, In m ms /\ supports_generateContent m = true /\ name m = n in
  (offered "models/gemini-1.5-flash-latest" ->
   fst (_get_suitable_model ai log) = Ok "gemini-1.5-flash-latest")
  /\ (~ offered "models/gemini-1.5-flash-latest" ->
      offered "models/gemini-1.0-pro" ->
      fst (_get_suitable_model ai log) = Ok "gemini-1.0-pro")
  /\ (~ offered "models/gemini-1.5-flash-latest" ->
      ~ offered "models/gemini-1.0-pro" ->
      offered "models/gemini-pro" ->
      fst (_get_suitable_model ai log) = Ok "gemini-pro").
Proof.
  intros Hl offered. rewrite (SelectionFacts.selection_listed ai ms log Hl).
  cbv zeta.
  assert (Yes : forall n, offered n ->
             Py.mem n (map name (filter supports_generateContent ms)) = true).
  { intros n H. apply SelectionFacts.mem_In, SelectionFacts.supported_name.
    exact H. }
  assert (No : forall n, ~ offered n ->
            Py.mem n (map name (filter supports_generateContent ms)) = false).
  { intros n H.
    destruct (Py.mem n (map name (filter supports_generateContent ms)))
      eqn:E; [| reflexivity].
    exfalso. apply H.
    apply SelectionFacts.supported_name, SelectionFacts.mem_In. exact E. }
  split; [| split].
  - intros H. rewrite (Yes _ H). reflexivity.
  - intros N1 H. rewrite (No _ N1), (Yes _ H). reflexivity.
  - intros N1 N2 H. rewrite (No _ N1), (No _ N2), (Yes _ H). reflexivity.
Qed.

Lemma selection_priority_witness :
  fst (_get_suitable_model
         (MoreSamples.listing
            [ mkModelInfo "models/gemini-pro" (Some ["generateContent"]);
              mkModelInfo "models/gemini-1.0-pro" (Some ["generateContent"]);
              mkModelInfo "models/gemini-1.5-flash-latest"
                          (Some ["countTokens"]) ] "ok") [])
  = Ok "gemini-1.0-pro".
Proof.
  refine (proj1 (proj2 (selection_priority
            (MoreSamples.listing _ "ok") _ [] eq_refl)) _ _).
  - intros (m & [H | [H | [H | []]]] & S & E); subst m; discriminate.
  - eexists. split; [right; left; reflexivity |]. split; reflexivity.
Defined.

(** X2: model selection returns a model exactly when the listing call
    returns and lists a model that supports generateContent and whose name
    holds neither "embedding" nor "aqa". *)
Theorem selection_succeeds_iff (ai : GenAI) (log : list Event) :
  (exists n, fst (_get_suitable_model ai log) = Ok n)
  <-> (exists ms m, list_models ai = Ok ms /\ In m ms /\ eligible m = true).
Proof.
  destruct (list_models ai) as [ms|e] eqn:Hl.
  - rewrite (SelectionFacts.selection_listed ai ms log Hl). cbv zeta.
    set (names := map name (filter supports_generateContent ms)).
    assert (In_eligible : forall n,
               In n names -> not_embedding_or_aqa n = true ->
               exists ms0 m, Ok ms = Ok ms0 /\ In m ms0 /\ eligible m = true).
    { intros n Hn He.
      apply SelectionFacts.supported_name in Hn as (m & Hm & Hs & E).
      exists ms, m. split; [reflexivity |]. split; [exact Hm |].
      unfold eligible. rewrite Hs, E, He. reflexivity. }
    split.
    + intros [n H].
      destruct (Py.mem "models/gemini-1.5-flash-latest" names) eqn:M1.
      { apply (In_eligible "models/gemini-1.5-flash-latest");
          [apply SelectionFacts.mem_In, M1 | reflexivity]. }
      destruct (Py.mem "models/gemini-1.0-pro" names) eqn:M2.
      { apply (In_eligible "models/gemini-1.0-pro");
          [apply SelectionFacts.mem_In, M2 | reflexivity]. }
      destruct (Py.mem "models/gemini-pro" names) eqn:M3.
      { apply (In_eligible "models/gemini-pro");
          [apply SelectionFacts.mem_In, M3 | reflexivity]. }
      destruct (Py.nonempty names); [| discriminate].
      destruct (find not_embedding_or_aqa names) as [n'|] eqn:F;
        [| discriminate].
      apply find_some in F as [Hin He]. apply (In_eligible n' Hin He).
    + intros (ms0 & m & E & Hm & He). inversion E; subst ms0.
      unfold eligible in He. apply andb_true_iff in He as [Hs He].
      assert (Hin : In (name m) names)
        by (apply SelectionFacts.supported_name; eauto).
      destruct (Py.mem "models/gemini-1.5-flash-latest" names); [eauto |].
      destruct (Py.mem "models/gemini-1.0-pro" names); [eauto |].
      destruct (Py.mem "models/gemini-pro" names); [eauto |].
      destruct names as [|n0 names'] eqn:N; [contradiction |].
      cbn [Py.nonempty].
      destruct (find not_embedding_or_aqa (n0 :: names')) as [n'|] eqn:F;
        [eauto |].
      exfalso. pose proof (find_none _ _ F (name m) Hin) as C.
      rewrite He in C. discriminate.
  - rewrite (SelectionFacts.selection_unlisted ai e log Hl). split.
    + intros [n H]. discriminate.
    + intros (ms & m & E & _). discriminate.
Qed.

Lemma selection_succeeds_iff_witness :
  exists n,
    fst (_get_suitable_model
           (MoreSamples.listing MoreSamples.tuned_models "ok") []) = Ok n.
Proof.
  apply (proj2 (selection_succeeds_iff
                  (MoreSamples.listing MoreSamples.tuned_models "ok") [])).
  exists MoreSamples.tuned_models,
         (mkModelInfo "models/gemini-2.0-flash" (Some ["generateContent"])).
  split; [reflexivity |]. split; [| reflexivity].
  right. right. left. reflexivity.
Defined.

(** X3: the model returned comes from the listing: it is the name of a
    listed model that supports generateContent and holds neither "embedding"
    nor "aqa", with every "models/" removed; for a listed name models/<id>,
    with no further "models/" in <id>, it is <id>. *)
Theorem selection_sound (ai : GenAI) (log : list Event) (n : string) :
  fst (_get_suitable_model ai log) = Ok n ->
  exists ms m,
    list_models ai = Ok ms /\ In m ms /\ eligible m = true
    /\ n = Py.replace "models/" "" (name m)
    /\ (forall id, name m = "models/" ++ id ->
                   Py.contains "models/" id = false -> n = id).
Proof.
  intros H.
  destruct (list_models ai) as [ms|e] eqn:Hl;
    [| rewrite (SelectionFacts.selection_unlisted ai e log Hl) in H;
       discriminate].
  rewrite (SelectionFacts.selection_listed ai ms log Hl) in H. cbv zeta in H.
  set (names := map name (filter supports_generateContent ms)) in *.
  assert (K : forall listed,
             In listed names -> not_embedding_or_aqa listed = true ->
             n = Py.replace "models/" "" listed ->
             exists ms0 m,
               Ok ms = Ok ms0 /\ In m ms0 /\ eligible m = true
               /\ n = Py.replace "models/" "" (name m)
               /\ (forall id, name m = "models/" ++ id ->
                              Py.contains "models/" id = false -> n = id)).
  { intros listed Hn He En.
    apply SelectionFacts.supported_name in Hn as (m & Hm & Hs & E).
    exists ms, m. split; [reflexivity |]. split; [exact Hm |].
    split; [unfold eligible; rewrite Hs, E, He; reflexivity |].
    split; [rewrite E; exact En |].
    intros id Eid Hid. rewrite En, <- E, Eid.
    apply SelectionFacts.replace_models_prefix, Hid. }
  destruct (Py.mem "models/gemini-1.5-flash-latest" names) eqn:M1.
  { injection H as Hn. apply (K "models/gemini-1.5-flash-latest");
      [apply SelectionFacts.mem_In, M1 | reflexivity
      | rewrite <- Hn; reflexivity]. }
  destruct (Py.mem "models/gemini-1.0-pro" names) eqn:M2.
  { injection H as Hn. apply (K "models/gemini-1.0-pro");
      [apply SelectionFacts.mem_In, M2 | reflexivity
      | rewrite <- Hn; reflexivity]. }
  destruct (Py.mem "models/gemini-pro" names) eqn:M3.
  { injection H as Hn. apply (K "models/gemini-pro");
      [apply SelectionFacts.mem_In, M3 | reflexivity
      | rewrite <- Hn; reflexivity]. }
  destruct (Py.nonempty names); [| discriminate].
  destruct (find not_embedding_or_aqa names) as [n'|] eqn:F;
    [| discriminate].
  injection H as Hn. apply find_some in F as [Hin He].
  apply (K n' Hin He). symmetry. exact Hn.
Qed.

Lemma selection_sound_witness :
  exists ms m,
    list_models (MoreSamples.listing MoreSamples.tuned_models "ok") = Ok ms
    /\ In m ms /\ eligible m = true
    /\ "gemini-2.0-flash" = Py.replace "models/" "" (name m).
Proof.
  destruct (selection_sound
              (MoreSamples.listing MoreSamples.tuned_models "ok") []
              "gemini-2.0-flash" eq_refl)
    as (ms & m & H1 & H2 & H3 & H4 & _).
  exists ms, m. auto.
Defined.

(** X4: whatever goes wrong in model selection leaves it as a
    ConnectionError whose message is the fixed text of line 37 followed by
    the cause: the message of the exception of the listing call, or one of
    the two "no model" sentences. *)
Theorem selection_error (ai : GenAI) (log : list Event) (e : exn) :
  fst (_get_suitable_model ai log) = Raised e ->
  exn_type e = "ConnectionError"
  /\ exists cause,
       exn_msg e = selection_prefix ++ cause
       /\ (forall e0, list_models ai = Raised e0 -> cause = exn_msg e0)
       /\ (forall ms, list_models ai = Ok ms ->
             (forall m, In m ms -> supports_generateContent m = false) ->
             cause = "No models found that support generateContent.")
       /\ (forall ms m, list_models ai = Ok ms ->
             In m ms -> supports_generateContent m = true ->
             cause = "No suitable text generation model found that supports generateContent after filtering.").
Proof.
  intros H.
  destruct (list_models ai) as [ms|e0] eqn:Hl.
  - rewrite (SelectionFacts.selection_listed ai ms log Hl) in H.
    cbv zeta in H.
    set (names := map name (filter supports_generateContent ms)) in *.
    destruct (Py.mem "models/gemini-1.5-flash-latest" names);
      [discriminate |].
    destruct (Py.mem "models/gemini-1.0-pro" names); [discriminate |].
    destruct (Py.mem "models/gemini-pro" names); [discriminate |].
    destruct (Py.nonempty names) eqn:Ne.
    + destruct (find not_embedding_or_aqa names); [discriminate |].
      inversion H. split; [reflexivity |].
      eexists. split; [reflexivity |].
      split; [intros e0 E; discriminate |].
      split; [| reflexivity].
      intros ms0 E Hall. inversion E; subst ms0.
      exfalso. destruct names as [|n0 r] eqn:N; [discriminate |].
      assert (Hin : In n0 names) by (rewrite N; left; reflexivity).
      apply SelectionFacts.supported_name in Hin as (m & Hm & Hs & _).
      rewrite (Hall m Hm) in Hs. discriminate.
    + inversion H. split; [reflexivity |].
      eexists. split; [reflexivity |].
      split; [intros e0 E; discriminate |].
      split; [reflexivity |].
      intros ms0 m E Hm Hs. inversion E; subst ms0.
      exfalso.
      assert (Hin : In (name m) names)
        by (apply SelectionFacts.supported_name; eauto).
      destruct names; [contradiction | discriminate].
  - rewrite (SelectionFacts.selection_unlisted ai e0 log Hl) in H.
    inversion H. split; [reflexivity |].
    exists (str_of e0). split; [reflexivity |].
    split; [intros e1 E; inversion E; reflexivity |].
    split; [intros ms E; discriminate | intros ms m E; discriminate].
Qed.

Lemma selection_error_witness :
  exists cause,
    selection_prefix ++ "deadline exceeded" = selection_prefix ++ cause
    /\ cause = "deadline exceeded".
Proof.
  destruct (selection_error MoreSamples.unreachable []
              (ConnectionError (selection_prefix ++ "deadline exceeded"))
              eq_refl)
    as (_ & cause & E & Hc & _).
  exists cause. split; [exact E |].
  exact (Hc (Exn "TimeoutError" "deadline exceeded") eq_refl).
Defined.

(** ** ai_logic.py: the calls the entry points make *)

Section CallFacts.

Variable ai : GenAI.

(** The initialisation never issues a generation call. *)
Lemma initialize_model_log (entry : string) (log : list Event) :
  exists evs,
    snd (initialize_model ai entry log) = (log ++ evs)%list
    /\ filter is_generation_call evs = [].
Proof.
  unfold initialize_model, _configure_genai.
  destruct (GOOGLE_API_KEY ai) as [key|];
    [| exists []; unfold_monad; simpl; rewrite app_nil_r; auto].
  destruct (Py.truthy key);
    [| exists []; unfold_monad; simpl; rewrite app_nil_r; auto].
  unfold bind at 1. unfold call at 1.
  destruct (configure ai key) as [[]|e];
    [| exists [EvConfigure key]; auto].
  unfold bind at 1.
  pose proof (get_suitable_model_log ai (log ++ [EvConfigure key])%list)
    as Hlog.
  destruct (_get_suitable_model ai (log ++ [EvConfigure key])%list)
    as [[m|e] l1]; simpl in Hlog; subst l1.
  - unfold_monad.
    exists [EvConfigure key; EvListModels; EvGenerativeModel m].
    destruct (GenerativeModel ai m) as [[]|e]; simpl;
      [destruct (print ai _) as [[]|e] |]; simpl;
      rewrite <- !app_assoc; auto.
  - exists [EvConfigure key; EvListModels]. simpl.
    rewrite <- !app_assoc. auto.
Qed.

Lemma filter_generation_app (l l' : list Event) :
  filter is_generation_call l' = [] ->
  filter is_generation_call (l ++ l') = filter is_generation_call l.
Proof.
  intros H. rewrite filter_app, H. apply app_nil_r.
Qed.

End CallFacts.

(** X5: without an API key (unset or empty) neither entry point reaches the
    service: no call is made at all, and the text returned is the
    initialisation error of the entry point with the sentence of
    [_configure_genai]. *)
Theorem no_key_no_call
    (ai : GenAI) (digest X Q : string) (H : list Message) :
  GOOGLE_API_KEY ai = None \/ GOOGLE_API_KEY ai = Some EmptyString ->
  sent (generate_kpi_summary ai digest) = []
  /\ outcome (generate_kpi_summary ai digest)
     = Ok "ERROR: Could not initialize Generative Model for KPI summary: GOOGLE_API_KEY is not set in your .env file."
  /\ sent (chat_with_llm ai X Q H) = []
  /\ outcome (chat_with_llm ai X Q H)
     = Ok "ERROR: Could not initialize Generative Model for chatbot: GOOGLE_API_KEY is not set in your .env file.".
Proof.
  intros Hk.
  assert (Hi : forall entry,
             initialize_model ai entry []
             = (Raised (ValueError
                          "GOOGLE_API_KEY is not set in your .env file."),
                [])).
  { intros entry. unfold initialize_model, _configure_genai.
    destruct Hk as [Hk | Hk]; rewrite Hk; reflexivity. }
  unfold sent, outcome.
  rewrite (summary_when_init_raises ai digest _ _ _ (Hi _)).
  rewrite (chat_when_init_raises ai X Q H _ _ _ (Hi _)).
  repeat split; reflexivity.
Qed.

Lemma no_key_no_call_witness :
  sent (chat_with_llm Sample.without_key "X" "Q" []) = []
  /\ sent (generate_kpi_summary Sample.without_key "digest") = [].
Proof.
  destruct (no_key_no_call Sample.without_key "digest" "X" "Q" []
              (or_introl eq_refl)) as (S1 & _ & S2 & _).
  split; [exact S2 | exact S1].
Defined.

(** X6: the summarizer issues at most one generation call, none when the
    initialisation fails, and does not retry; the call goes to the selected
    model with temperature 0.2 and a prompt that holds the digest verbatim
    between two fixed texts. *)
Theorem single_generation_call (ai : GenAI) (digest : string) :
  filter is_generation_call (sent (generate_kpi_summary ai digest))
  = match outcome (initialize_model ai "KPI Summary") with
    | Ok model_name =>
        [EvGenerateContent model_name (kpi_prompt digest) (2 # 10)]
    | Raised _ => []
    end
  /\ (generation_calls (sent (generate_kpi_summary ai digest)) <= 1)%nat
  /\ exists before after,
       forall d, kpi_prompt d = before ++ d ++ after.
Proof.
  assert (F : filter is_generation_call
                (sent (generate_kpi_summary ai digest))
              = match outcome (initialize_model ai "KPI Summary") with
                | Ok model_name =>
                    [EvGenerateContent model_name (kpi_prompt digest)
                                       (2 # 10)]
                | Raised _ => []
                end).
  { unfold sent, outcome.
    destruct (initialize_model_log ai "KPI Summary" []) as (evs & Hl & Hf).
    destruct (initialize_model ai "KPI Summary" []) as [[m|e] l] eqn:Hi;
      simpl in Hl; subst l.
    - rewrite (summary_when_init_ok ai digest _ _ _ Hi). cbn [fst snd].
      rewrite filter_app, Hf. reflexivity.
    - rewrite (summary_when_init_raises ai digest _ _ _ Hi). cbn [fst snd].
      exact Hf. }
  split; [exact F |].
  split.
  - unfold generation_calls. rewrite F.
    destruct (outcome (initialize_model ai "KPI Summary")); simpl; lia.
  - match eval cbv beta delta [kpi_prompt] in (kpi_prompt "@") with
    | (?b ++ _ ++ ?a) => exists b, a
    end.
    intros d. reflexivity.
Qed.

(** X7: when the response has parts, the summary is its text, unchanged,
    whatever the candidates hold; without parts it is the text of the first
    candidate when this text is not empty. *)
Theorem summary_is_response_text
    (ai : GenAI) (digest model_name : string) (r : Response) :
  outcome (initialize_model ai "KPI Summary") = Ok model_name ->
  generate_content ai model_name (kpi_prompt digest) temperature
  = Ok (Some r) ->
  (forall p ps t,
      resp_parts r = Ok (p :: ps) -> resp_text r = Ok t ->
      outcome (generate_kpi_summary ai digest) = Ok t)
  /\ (forall c cs t,
        resp_parts r = Ok [] -> resp_candidates r = Ok (c :: cs) ->
        cand_text c = Ok t -> t <> EmptyString ->
        outcome (generate_kpi_summary ai digest) = Ok t).
Proof.
  unfold outcome. intros Hi Hg.
  destruct (initialize_model ai "KPI Summary" []) as [r0 l] eqn:Hrun.
  simpl in Hi. subst r0.
  rewrite (summary_when_init_ok ai digest _ _ _ Hrun), Hg. cbn [fst].
  unfold extract_text. unfold_monad.
  split.
  - intros p ps t Hp Ht. rewrite Hp, Ht. reflexivity.
  - intros c cs t Hp Hc Ht Hne. rewrite Hp, Hc. simpl. rewrite Ht.
    destruct t; [contradiction | reflexivity].
Qed.

Lemma summary_is_response_text_witness :
  outcome (generate_kpi_summary (Sample.answering "Revenue grows.") "digest")
  = Ok "Revenue grows.".
Proof.
  refine (proj1 (summary_is_response_text
            (Sample.answering "Revenue grows.") "digest"
            "gemini-1.5-flash-latest" (Sample.text_response "Revenue grows.")
            eq_refl eq_refl) "Revenue grows." [] "Revenue grows."
            eq_refl eq_refl).
Defined.

(** X8: the chat entry point raises exactly when its first [try] block
    succeeded and one of three unprotected steps raises, with the exception
    of that step: the lookup of "role" or "content" in a history item (lines
    144-145, a [KeyError], before the session is opened), the opening of the
    session ([start_chat], line 148, before any message is sent), or the
    [print] of line 159 inside the handler of the second [try], after the
    sending or the reading of the response raised. *)
Theorem chat_raises_iff
    (ai : GenAI) (X Q : string) (H : list Message) (e : exn) :
  (outcome (chat_with_llm ai X Q H) = Raised e
   <-> exists model_name,
         outcome (initialize_model ai "Chatbot") = Ok model_name
         /\ (formatted_history H = Raised e
             \/ exists turns,
                  formatted_history H = Ok turns
                  /\ (start_chat ai model_name (initial_message X :: turns)
                      = Raised e
                      \/ (start_chat ai model_name
                                     (initial_message X :: turns) = Ok tt
                          /\ exists e0,
                               (send_message ai model_name
                                             (initial_message X :: turns) Q
                                = Raised e0
                                \/ exists response,
                                     send_message
                                       ai model_name
                                       (initial_message X :: turns) Q
                                     = Ok response
                                     /\ outcome (extract_text chat_fallback
                                                              response)
                                        = Raised e0)
                               /\ print ai
                                    ("DEBUG: Error during LLM API call for chatbot: "
                                     ++ str_of e0)
                                  = Raised e))))
  /\ (formatted_history H = Raised e ->
      exists m key,
        In m H /\ (key = "role" \/ key = "content")
        /\ getitem m key = Raised e /\ e = KeyError key).
Proof.
  assert (Hiff :
    outcome (chat_with_llm ai X Q H) = Raised e
    <-> exists model_name,
          outcome (initialize_model ai "Chatbot") = Ok model_name
          /\ (formatted_history H = Raised e
              \/ exists turns,
                   formatted_history H = Ok turns
                   /\ (start_chat ai model_name (initial_message X :: turns)
                       = Raised e
                       \/ (start_chat ai model_name
                                      (initial_message X :: turns) = Ok tt
                           /\ exists e0,
                                (send_message ai model_name
                                              (initial_message X :: turns) Q
                                 = Raised e0
                                 \/ exists response,
                                      send_message
                                        ai model_name
                                        (initial_message X :: turns) Q
                                      = Ok response
                                      /\ outcome (extract_text chat_fallback
                                                               response)
                                         = Raised e0)
                                /\ print ai
                                     ("DEBUG: Error during LLM API call for chatbot: "
                                      ++ str_of e0)
                                   = Raised e)))).
  { unfold outcome.
    destruct (initialize_model ai "Chatbot" []) as [[m|e1] l] eqn:Hi.
    - destruct (formatted_history H) as [turns|e2] eqn:Hf.
      + rewrite (chat_when_init_ok ai X Q H _ _ _ turns Hi Hf).
        destruct (start_chat ai m (initial_message X :: turns))
          as [[]|e3] eqn:Hs; cbn [fst].
        * destruct (send_message ai m (initial_message X :: turns) Q)
            as [response|e0] eqn:Hsend.
          -- destruct (fst (extract_text chat_fallback response []))
               as [s|e0] eqn:Hr.
             ++ split; [discriminate |].
                intros (m' & E & [F | (ts & F & [S | (_ & e0 & C & _)])]);
                  inversion E; subst m'; try discriminate F;
                  inversion F; subst ts;
                  [rewrite Hs in S; discriminate |].
                destruct C as [C | (r' & C & C')]; rewrite Hsend in C;
                  [discriminate |].
                inversion C; subst r'. rewrite Hr in C'. discriminate.
             ++ rewrite chat_call_handler_result. split.
                ** intros E. exists m. split; [reflexivity |].
                   right. exists turns. split; [reflexivity |].
                   right. split; [exact Hs |]. exists e0.
                   split; [right; exists response; auto |].
                   destruct (print ai _) as [[]|e']; [discriminate |].
                   inversion E. reflexivity.
                ** intros (m' & E & [F | (ts & F & [S | (_ & e4 & C & P)])]);
                     inversion E; subst m'; try discriminate F;
                     inversion F; subst ts;
                     [rewrite Hs in S; discriminate |].
                   destruct C as [C | (r' & C & C')]; rewrite Hsend in C;
                     [discriminate |].
                   inversion C; subst r'. rewrite Hr in C'.
                   inversion C'; subst e4. rewrite P. reflexivity.
          -- rewrite chat_call_handler_result. split.
             ++ intros E. exists m. split; [reflexivity |].
                right. exists turns. split; [reflexivity |].
                right. split; [exact Hs |]. exists e0.
                split; [left; exact Hsend |].
                destruct (print ai _) as [[]|e']; [discriminate |].
                inversion E. reflexivity.
             ++ intros (m' & E & [F | (ts & F & [S | (_ & e4 & C & P)])]);
                  inversion E; subst m'; try discriminate F;
                  inversion F; subst ts;
                  [rewrite Hs in S; discriminate |].
                destruct C as [C | (r' & C & C')]; rewrite Hsend in C;
                  [| discriminate].
                inversion C; subst e4. rewrite P. reflexivity.
        * split.
          -- intros E. inversion E; subst e3. exists m.
             split; [reflexivity |]. right. exists turns. auto.
          -- intros (m' & E & [F | (ts & F & [S | (S & _)])]);
               inversion E; subst m'; try discriminate F;
               inversion F; subst ts; rewrite Hs in S;
               [inversion S; reflexivity | discriminate].
      + rewrite (chat_when_history_raises ai X Q H _ _ _ _ Hi Hf).
        cbn [fst]. split.
        * intros E. inversion E; subst e2. exists m. auto.
        * intros (m' & E & [F | (ts & F & _)]);
            [inversion F; reflexivity | discriminate F].
    - rewrite (chat_when_init_raises ai X Q H _ _ _ Hi). cbn [fst].
      split; [discriminate | intros (m' & E & _); discriminate]. }
  split; [exact Hiff |].
  apply formatted_history_raises.
Qed.

Lemma chat_raises_iff_witness :
  outcome (chat_with_llm MoreSamples.no_session "X" "Q" [])
  = Raised (Exn "TypeError" "bad history")
  /\ outcome (chat_with_llm (Sample.answering "Revenue grows.") "X" "Q"
                [MoreSamples.role_only])
     = Raised (KeyError "content")
  /\ outcome (chat_with_llm MoreSamples.refused "X" "Q" [])
     = Raised (Exn "UnicodeEncodeError"
                   "'ascii' codec can't encode character").
Proof.
  split; [| split].
  - apply (proj2 (proj1 (chat_raises_iff MoreSamples.no_session "X" "Q" []
                           (Exn "TypeError" "bad history")))).
    exists "gemini-1.5-flash-latest". split; [reflexivity |].
    right. exists []. split; [reflexivity |]. left. reflexivity.
  - apply (proj2 (proj1 (chat_raises_iff (Sample.answering "Revenue grows.")
                           "X" "Q" [MoreSamples.role_only]
                           (KeyError "content")))).
    exists "gemini-1.5-flash-latest". split; [reflexivity |].
    left. reflexivity.
  - apply (proj2 (proj1 (chat_raises_iff MoreSamples.refused "X" "Q" []
                           (Exn "UnicodeEncodeError"
                                "'ascii' codec can't encode character")))).
    exists "gemini-1.5-flash-latest". split; [reflexivity |].
    right. exists []. split; [reflexivity |]. right.
    split; [reflexivity |]. exists MoreSamples.unavailable.
    split; [left; reflexivity | reflexivity].
Defined.

(** X9: when every history item has its two keys, the session opens and
    the standard output accepts the debug line of the handler (line 159), a
    chat turn returns a text: the error text of the entry point when the
    initialisation or the sending fails, the text of the reply, unchanged,
    when the response has parts. *)
Theorem chat_returns
    (ai : GenAI) (X Q : string) (H : list Message) (turns : list Turn) :
  formatted_history H = Ok turns ->
  (forall model_name history, start_chat ai model_name history = Ok tt) ->
  (forall e,
      print ai ("DEBUG: Error during LLM API call for chatbot: " ++ str_of e)
      = Ok tt) ->
  exists s,
    outcome (chat_with_llm ai X Q H) = Ok s
    /\ (forall e, outcome (initialize_model ai "Chatbot") = Raised e ->
          s = "ERROR: Could not initialize Generative Model for chatbot: "
              ++ str_of e)
    /\ (forall model_name e,
          outcome (initialize_model ai "Chatbot") = Ok model_name ->
          send_message ai model_name (initial_message X :: turns) Q
          = Raised e ->
          s = "ERROR: An error occurred while calling the Google Generative AI API for chatbot: "
              ++ str_of e)
    /\ (forall model_name r p ps t,
          outcome (initialize_model ai "Chatbot") = Ok model_name ->
          send_message ai model_name (initial_message X :: turns) Q
          = Ok (Some r) ->
          resp_parts r = Ok (p :: ps) -> resp_text r = Ok t ->
          s = t).
Proof.
  intros Hf Hstart Hprint. unfold outcome.
  assert (Hh : forall e0, fst (chat_call_handler ai e0 [])
                          = Ok (chat_call_error e0))
    by (intros e0; rewrite chat_call_handler_result, Hprint; reflexivity).
  destruct (initialize_model ai "Chatbot" []) as [[m|e0] l] eqn:Hi.
  - rewrite (chat_when_init_ok ai X Q H _ _ _ turns Hi Hf).
    rewrite Hstart. cbn [fst].
    destruct (send_message ai m (initial_message X :: turns) Q)
      as [response|e1] eqn:Hsend.
    + destruct (fst (extract_text chat_fallback response []))
        as [s|e1] eqn:Hr.
      * exists s. split; [reflexivity |].
        split; [intros e E; discriminate |].
        split.
        { intros m' e E Hs. inversion E; subst m'.
          rewrite Hsend in Hs. discriminate. }
        intros m' r p ps t E Hs Hp Ht. inversion E; subst m'.
        rewrite Hsend in Hs. inversion Hs; subst response.
        revert Hr. unfold extract_text. unfold_monad.
        rewrite Hp, Ht. cbn. intros Hr. inversion Hr. reflexivity.
      * exists (chat_call_error e1). rewrite Hh.
        split; [reflexivity |].
        split; [intros e E; discriminate |].
        split.
        { intros m' e E Hs. inversion E; subst m'.
          rewrite Hsend in Hs. discriminate. }
        intros m' r p ps t E Hs Hp Ht. inversion E; subst m'.
        rewrite Hsend in Hs. inversion Hs; subst response.
        revert Hr. unfold extract_text. unfold_monad.
        rewrite Hp, Ht. cbn. discriminate.
    + exists (chat_call_error e1). rewrite Hh.
      split; [reflexivity |].
      split; [intros e E; discriminate |].
      split.
      * intros m' e E Hs. inversion E; subst m'.
        rewrite Hsend in Hs. inversion Hs. reflexivity.
      * intros m' r p ps t E Hs. inversion E; subst m'.
        rewrite Hsend in Hs. discriminate.
  - rewrite (chat_when_init_raises ai X Q H _ _ _ Hi). cbn [fst].
    eexists. split; [reflexivity |].
    split; [intros e E; inversion E; reflexivity |].
    split; [intros m' e E; discriminate
           | intros m' r p ps t E; discriminate].
Qed.

Lemma chat_returns_witness :
  outcome (chat_with_llm Sample.failing "X" "Q" [])
  = Ok "ERROR: An error occurred while calling the Google Generative AI API for chatbot: 503 service unavailable".
Proof.
  destruct (chat_returns Sample.failing "X" "Q" [] [] eq_refl
              (fun _ _ => eq_refl) (fun _ => eq_refl))
    as (s & Hs & _ & Hsend & _).
  rewrite Hs. f_equal.
  exact (Hsend "gemini-1.5-flash-latest"
               (Exn "ServiceUnavailable" "503 service unavailable")
               eq_refl eq_refl).
Defined.

(** X10: the history handed to the provider has one turn per caller
    message, in order, each with a single part, the content of the message;
    its roles are only "user" and "model": a caller role that is not exactly
    "user" ("assistant", "model", "system", "User") is sent as "model". A
    history whose items all have a role and a content is always formatted. *)
Theorem provider_roles
    (H : list Message) (pairs : list (string * string)) :
  formatted_history (map (fun p => mkMessage (fst p) (snd p)) pairs)
  = Ok (map (fun p => mkTurn (provider_role (fst p)) [snd p]) pairs)
  /\ forall turns,
       formatted_history H = Ok turns ->
       length turns = length H
       /\ Forall2 (fun m t => exists caller_role content,
                      getitem m "role" = Ok caller_role
                      /\ getitem m "content" = Ok content
                      /\ role t = provider_role caller_role
                      /\ parts t = [content]) H turns
       /\ (forall t, In t turns -> role t = "user" \/ role t = "model")
       /\ (forall m caller_role content,
             In m H ->
             getitem m "role" = Ok caller_role ->
             getitem m "content" = Ok content ->
             caller_role <> "user" ->
             In (mkTurn "model" [content]) turns).
Proof.
  split; [apply formatted_history_pairs |].
  intros turns Hf.
  pose proof (formatted_history_items H turns Hf) as Hitems.
  split; [apply formatted_history_length, Hf |].
  split.
  { clear Hf. induction Hitems as [|m t H ts Hm _ IH]; constructor;
      [| exact IH].
    destruct (format_message_ok m t Hm) as (r & c & Hr & Hc & ->).
    exists r, c. repeat split; assumption. }
  split.
  - clear Hf. induction Hitems as [|m t H ts Hm _ IH];
      intros t' Ht'; [destruct Ht' |].
    destruct Ht' as [<- | Ht']; [| apply IH, Ht'].
    destruct (format_message_ok m t Hm) as (r & c & _ & _ & ->).
    cbn [role]. unfold provider_role.
    destruct (String.eqb r "user"); auto.
  - clear Hf. induction Hitems as [|m t H ts Hm _ IH];
      intros m' r c Hin Hr Hc Hne; [destruct Hin |].
    destruct Hin as [<- | Hin]; [| right; apply (IH m' r c); assumption].
    left. unfold format_message in Hm. rewrite Hr, Hc in Hm.
    cbn [and_then] in Hm. inversion Hm. unfold provider_role.
    destruct (String.eqb_spec r "user") as [E|_];
      [contradiction | reflexivity].
Qed.

Lemma provider_roles_witness :
  In (mkTurn "model" ["be brief"])
     [mkTurn "model" ["be brief"]].
Proof.
  apply (proj2 (proj2 (proj2
           (proj2 (provider_roles [mkMessage "system" "be brief"] [])
                  [mkTurn "model" ["be brief"]] eq_refl)))
           (mkMessage "system" "be brief") "system" "be brief").
  - left. reflexivity.
  - reflexivity.
  - reflexivity.
  - discriminate.
Defined.

(** ** features.py: every outcome of the ingestion and of the report *)

Section OutcomeFacts.

Variable lib : Library.
Variable ai : GenAI.

(** An ingestion returns a non-empty table with a digest text, or an error
    text that is not empty. *)
Lemma ingest_shape (f : UploadedFile) :
  (exists df md,
      ingest_and_summarize_kpis lib f = (Some df, Some md, None)
      /\ df_empty df = false)
  \/ (exists err,
        ingest_and_summarize_kpis lib f = (None, None, Some err)
        /\ Py.truthy err = true).
Proof.
  unfold ingest_and_summarize_kpis.
  destruct (load lib f) as [[df|]|e]; cbn [and_then];
    [| right; eexists; split; reflexivity
     | right; eexists; split; reflexivity].
  unfold summarize.
  destruct (df_empty df) eqn:E; cbn [negb];
    [right; eexists; split; reflexivity |].
  destruct (df_empty (select_dtypes_number df)); cbn [negb].
  - left. exists df. eexists. split; [reflexivity | exact E].
  - destruct (to_markdown lib _); cbn [and_then].
    + left. exists df. eexists. split; [reflexivity | exact E].
    + right. eexists. split; reflexivity.
Qed.

(** What goes on to be checked and packaged: the fixed sentence when the
    digest holds "No numerical data", else what the summarizer returns, or
    the exception it raises. *)
Lemma summary_step (md : string) :
  exists r log,
    (if lacks_numerical_data (Some md)
     then ret no_numerical_kpis
     else generate_kpi_summary ai md) [] = (r, log)
    /\ (Py.contains "No numerical data" md = true ->
        r = Ok no_numerical_kpis /\ log = [])
    /\ (Py.contains "No numerical data" md = false ->
        generate_kpi_summary ai md [] = (r, log)).
Proof.
  cbn [lacks_numerical_data].
  destruct (Py.contains "No numerical data" md).
  - exists (Ok no_numerical_kpis), []. split; [reflexivity |].
    split; [auto | discriminate].
  - destruct (generate_kpi_summary ai md []) as [r l].
    exists r, l. split; [reflexivity |]. split; [discriminate | auto].
Qed.

(** The run of the orchestration on a file, by cases on its ingestion and
    on the outcome of the summary step. *)
Lemma report_cases (f : UploadedFile) (fmt : string) :
  (exists err,
      ingest_and_summarize_kpis lib f = (None, None, Some err)
      /\ generate_report_and_insights lib ai (Some f) fmt []
         = (Ok (EmptyString, None, false,
                Some ("Data Ingestion Error: " ++ err), None), []))
  \/ (exists df md r log,
        ingest_and_summarize_kpis lib f = (Some df, Some md, None)
        /\ df_empty df = false
        /\ (if lacks_numerical_data (Some md)
            then ret no_numerical_kpis
            else generate_kpi_summary ai md) [] = (r, log)
        /\ generate_report_and_insights lib ai (Some f) fmt []
           = (match r with
              | Ok s =>
                  if negb (Py.truthy s) || Py.startswith s "ERROR:"
                  then Ok (EmptyString, None, false, Some s, Some df)
                  else match fst (package lib f fmt s (Some df) []) with
                       | Ok r => Ok r
                       | Raised e =>
                           Ok (EmptyString, None, false,
                               Some (unexpected_error e), Some df)
                       end
              | Raised e =>
                  Ok (EmptyString, None, false,
                      Some (unexpected_error e), Some df)
              end, log)).
Proof.
  destruct (ingest_shape f) as [(df & md & Hi & Hne) | (err & Hi & Ht)].
  - right. destruct (summary_step md) as (r & log & Hs & _).
    exists df, md, r, log.
    split; [exact Hi |]. split; [exact Hne |]. split; [exact Hs |].
    unfold generate_report_and_insights. rewrite Hi. cbv beta iota zeta.
    unfold summarize_and_package. cbn [is_empty_or_none]. rewrite Hne.
    unfold try_except at 1, bind at 1.
    replace ((if lacks_numerical_data (Some md)
              then ret no_numerical_kpis
              else match Some md with
                   | Some text => generate_kpi_summary ai text
                   | None => ret no_numerical_kpis
                   end) [])
      with (r, log).
    destruct r as [s|e]; [| reflexivity].
    destruct (negb (Py.truthy s) || Py.startswith s "ERROR:");
      [reflexivity |].
    rewrite package_pure.
    destruct (fst (package lib f fmt s (Some df) [])); reflexivity.
  - left. exists err. split; [exact Hi |].
    unfold generate_report_and_insights. rewrite Hi. cbv beta iota zeta.
    rewrite Ht. reflexivity.
Qed.

(** The three results of the packaging step. *)
Lemma package_cases (f : UploadedFile) (fmt s : string)
      (df : option DataFrame) :
  (fmt = "markdown"
   /\ fst (package lib f fmt s df [])
      = Ok (s, Some ("data:text/markdown;base64," ++ Base64.b64encode s),
            true, None, df))
  \/ (fmt = "html"
      /\ ((exists html,
              markdown_markdown lib s = Ok html
              /\ fst (package lib f fmt s df [])
                 = Ok (s,
                       Some ("data:text/html;base64,"
                             ++ Base64.b64encode
                                  (html_content
                                     (download_filename_prefix (file_name f))
                                     html)),
                       true, None, df))
          \/ (exists e,
                 markdown_markdown lib s = Raised e
                 /\ fst (package lib f fmt s df []) = Raised e)))
  \/ (fmt <> "markdown" /\ fmt <> "html"
      /\ fst (package lib f fmt s df [])
         = Ok (s, None, false,
               Some "Unsupported output format for download.", df)).
Proof.
  unfold package.
  destruct (String.eqb_spec fmt "markdown") as [E1|N1];
    [left; split; [exact E1 | reflexivity] |].
  destruct (String.eqb_spec fmt "html") as [E2|N2].
  - right. left. split; [exact E2 |]. unfold_monad.
    destruct (markdown_markdown lib s) as [html|e].
    + left. exists html. split; reflexivity.
    + right. exists e. split; reflexivity.
  - right. right. split; [exact N1 |]. split; [exact N2 | reflexivity].
Qed.

End OutcomeFacts.

(** X11: an ingestion never returns a table together with an error, nor
    neither: it returns a non-empty table with a digest text and no error, or
    no table, no digest and an error text that is not empty. *)
Theorem ingest_table_or_error (lib : Library) (f : UploadedFile) :
  let '(df, digest, error) := ingest_and_summarize_kpis lib f in
  match df, digest, error with
  | Some table, Some _, None => df_empty table = false
  | None, None, Some message => Py.truthy message = true
  | _, _, _ => False
  end.
Proof.
  destruct (ingest_shape lib f) as [(df & md & Hi & Hne) | (err & Hi & Ht)];
    rewrite Hi; assumption.
Qed.

(** X12: the ways an ingestion fails and their messages: a loader that
    raises (an undecodable CSV or JSON, a parser error) gives "Error
    ingesting or processing file: " and the message of the exception; a
    table without rows or columns gives the empty-file message; and when
    the serialization of the digest raises, the table that was parsed is
    not returned either. *)
Theorem ingestion_errors (lib : Library) (f : UploadedFile) :
  (forall e, load lib f = Raised e ->
     ingest_and_summarize_kpis lib f
     = (None, None,
        Some ("Error ingesting or processing file: " ++ exn_msg e)))
  /\ (forall e, decode_utf8 lib (getvalue f) = Raised e ->
        file_extension (file_name f) = "csv"
        \/ file_extension (file_name f) = "json" ->
        load lib f = Raised e)
  /\ (forall df, load lib f = Ok (Some df) -> df_empty df = true ->
        ingest_and_summarize_kpis lib f = (None, None, Some empty_file))
  /\ (forall df e,
        load lib f = Ok (Some df) -> df_empty df = false ->
        to_markdown lib (transpose (describe (select_dtypes_number df)))
        = Raised e ->
        (exists c, In c (columns df) /\ is_numeric c = true) ->
        ingest_and_summarize_kpis lib f
        = (None, None,
           Some ("Error ingesting or processing file: " ++ exn_msg e))).
Proof.
  split; [| split; [| split]].
  - intros e H. unfold ingest_and_summarize_kpis. rewrite H. reflexivity.
  - intros e H [E | E]; unfold load; rewrite E; cbn; rewrite H; reflexivity.
  - intros df H He. rewrite (ingest_loaded lib f df H).
    unfold summarize. rewrite He. reflexivity.
  - intros df e H Hne Hm (c & Hc & Hn). rewrite (ingest_loaded lib f df H).
    unfold summarize. rewrite Hne. cbn [negb].
    assert (Hs : df_empty (select_dtypes_number df) = false).
    { unfold df_empty, select_dtypes_number in *. cbn [nrows columns] in *.
      apply orb_false_iff in Hne as [Hr _]. rewrite Hr. cbn [orb].
      assert (Hin : In c (filter is_numeric (columns df)))
        by (apply filter_In; auto).
      destruct (filter is_numeric (columns df)); [contradiction |].
      reflexivity. }
    rewrite Hs. cbn [negb]. rewrite Hm. reflexivity.
Qed.

Lemma ingestion_errors_witness :
  ingest_and_summarize_kpis MoreSamples.undecodable Sample.report_csv
  = (None, None,
     Some "Error ingesting or processing file: invalid start byte")
  /\ ingest_and_summarize_kpis (Sample.library MoreSamples.empty_table)
       Sample.report_csv
     = (None, None, Some empty_file).
Proof.
  destruct (ingestion_errors MoreSamples.undecodable Sample.report_csv)
    as (H1 & H2 & _).
  destruct (ingestion_errors (Sample.library MoreSamples.empty_table)
              Sample.report_csv) as (_ & _ & H3 & _).
  split.
  - apply (H1 (Exn "UnicodeDecodeError" "invalid start byte")).
    apply H2; [reflexivity | left; reflexivity].
  - apply (H3 MoreSamples.empty_table); reflexivity.
Defined.

(** X13: the orchestration never raises: whatever the file, the format, the
    libraries and the service do, it returns its five-fold result. *)
Theorem report_never_raises
    (lib : Library) (ai : GenAI) (uploaded_file : option UploadedFile)
    (output_format : string) :
  exists summary link success error table,
    outcome (generate_report_and_insights lib ai uploaded_file output_format)
    = Ok (summary, link, success, error, table).
Proof.
  unfold outcome. destruct uploaded_file as [f|].
  - destruct (report_cases lib ai f output_format)
      as [(err & _ & H) | (df & md & [s|e0] & log & _ & _ & _ & H)];
      rewrite H; cbn [fst].
    + do 5 eexists. reflexivity.
    + destruct (negb (Py.truthy s) || Py.startswith s "ERROR:");
        [do 5 eexists; reflexivity |].
      destruct (fst (package lib f output_format s (Some df) []))
        as [[[[[a b] c] d] e]|e]; do 5 eexists; reflexivity.
    + do 5 eexists. reflexivity.
  - do 5 eexists. reflexivity.
Qed.

(** X14: what a result says.  When it reports success, the format was
    markdown or html, there is a link, of MIME type text/<format>, that
    decodes (to the summary itself for markdown), there is no error, the
    table is there and not empty, and the summary is not empty and does not
    start with "ERROR:".  When it reports failure, there is no link and
    there is an error text. *)
Theorem report_result_invariant
    (lib : Library) (ai : GenAI) (uploaded_file : option UploadedFile)
    (output_format summary : string) (link : option string) (success : bool)
    (error : option string) (table : option DataFrame) :
  outcome (generate_report_and_insights lib ai uploaded_file output_format)
  = Ok (summary, link, success, error, table) ->
  if success
  then (output_format = "markdown" \/ output_format = "html")
       /\ (exists l document,
             link = Some l
             /\ DataUri.mime_type l = Some ("text/" ++ output_format)
             /\ DataUri.decoded l = Some document
             /\ (output_format = "markdown" -> document = summary))
       /\ error = None
       /\ (exists df, table = Some df /\ df_empty df = false)
       /\ Py.truthy summary = true
       /\ Py.startswith summary "ERROR:" = false
  else link = None /\ exists message, error = Some message.
Proof.
  unfold outcome. destruct uploaded_file as [f|].
  - destruct (report_cases lib ai f output_format)
      as [(err & _ & H) | (df & md & [s|e0] & log & _ & Hne & _ & H)];
      rewrite H; cbn [fst]; clear H;
      [| | intros E; inversion E; subst; split; [reflexivity | eauto]].
    + intros E. inversion E; subst. split; [reflexivity | eauto].
    + destruct (negb (Py.truthy s) || Py.startswith s "ERROR:") eqn:Bad.
      { intros E. inversion E; subst. split; [reflexivity | eauto]. }
      apply orb_false_iff in Bad as [Ht He].
      apply negb_false_iff in Ht.
      destruct (package_cases lib f output_format s (Some df))
        as [[Ef P] | [[Ef [(html & _ & P) | (e & _ & P)]] | (_ & _ & P)]];
        rewrite P; intros E; inversion E; subst.
      * split; [left; reflexivity |].
        split.
        { exists ("data:text/markdown;base64," ++ Base64.b64encode summary),
                 summary.
          split; [reflexivity |].
          destruct (link_decodes "text/markdown" summary eq_refl) as [M D].
          split; [exact M |]. split; [exact D | reflexivity]. }
        split; [reflexivity |].
        split; [eauto |]. split; assumption.
      * split; [right; reflexivity |].
        split.
        { eexists. eexists. split; [reflexivity |].
          destruct (link_decodes "text/html"
                      (html_content (download_filename_prefix (file_name f))
                                    html) eq_refl) as [M D].
          split; [exact M |]. split; [exact D | discriminate]. }
        split; [reflexivity |].
        split; [eauto |]. split; assumption.
      * split; [reflexivity | eauto].
      * split; [reflexivity | eauto].
  - intros E. inversion E; subst. split; [reflexivity | eauto].
Qed.

Lemma report_result_invariant_witness :
  exists l document,
    Some "data:text/markdown;base64,UmV2ZW51ZSBncm93cy4=" = Some l
    /\ DataUri.mime_type l = Some "text/markdown"
    /\ DataUri.decoded l = Some document.
Proof.
  pose proof (report_result_invariant
                (Sample.library Sample.table)
                (Sample.answering "Revenue grows.")
                (Some Sample.report_csv) "markdown" "Revenue grows."
                (Some "data:text/markdown;base64,UmV2ZW51ZSBncm93cy4=")
                true None (Some Sample.table) eq_refl)
    as (_ & (l & document & H1 & H2 & H3 & _) & _).
  exists l, document. auto.
Defined.

(** X15: the branch of lines 91-92 is never taken: whenever the ingestion
    leaves no error for the test of line 88 (none, or an empty text), the
    table it returned is there and is not empty, so the test of line 91 is
    false and the "No data was successfully ingested" result is not
    produced. *)
Theorem soft_success_unreachable
    (lib : Library) (f : UploadedFile) (df : option DataFrame)
    (digest error : option string) :
  ingest_and_summarize_kpis lib f = (df, digest, error) ->
  (forall message, error = Some message -> Py.truthy message = false) ->
  is_empty_or_none df = false
  /\ error = None
  /\ exists text, digest = Some text.
Proof.
  intros Hi Herr.
  destruct (ingest_shape lib f) as [(d & md & H & Hne) | (err & H & Ht)];
    rewrite Hi in H; inversion H; subst.
  - split; [exact Hne |]. split; [reflexivity | eauto].
  - rewrite (Herr err eq_refl) in Ht. discriminate.
Qed.

Lemma soft_success_unreachable_witness :
  is_empty_or_none (Some Sample.table) = false.
Proof.
  refine (proj1 (soft_success_unreachable
            (Sample.library Sample.table) Sample.report_csv
            (Some Sample.table)
            (Some "|    | count | mean | std | min | 25% | 50% | 75% | max |")
            None eq_refl _)).
  intros message H. discriminate H.
Defined.

Section ReportRuns.

Variable lib : Library.
Variable ai : GenAI.

(** The run after an ingestion that gave a table and a digest [md] that
    goes to the summarizer. *)
Lemma report_after_summary (f : UploadedFile) (fmt : string)
      (df : DataFrame) (md s : string) :
  ingest_and_summarize_kpis lib f = (Some df, Some md, None) ->
  Py.contains "No numerical data" md = false ->
  outcome (generate_kpi_summary ai md) = Ok s ->
  sent (generate_report_and_insights lib ai (Some f) fmt)
  = sent (generate_kpi_summary ai md)
  /\ outcome (generate_report_and_insights lib ai (Some f) fmt)
     = if negb (Py.truthy s) || Py.startswith s "ERROR:"
       then Ok (EmptyString, None, false, Some s, Some df)
       else match fst (package lib f fmt s (Some df) []) with
            | Ok r => Ok r
            | Raised e =>
                Ok (EmptyString, None, false, Some (unexpected_error e),
                    Some df)
            end.
Proof.
  intros Hi Hc. unfold outcome, sent.
  destruct (generate_kpi_summary ai md []) as [r l] eqn:Hs.
  cbn [fst snd]. intros E. subst r.
  rewrite (report_summarized lib ai f fmt df md s l Hi Hc Hs).
  destruct (negb (Py.truthy s) || Py.startswith s "ERROR:");
    split; reflexivity.
Qed.

(** The calls of such a run are those of the summarizer, whatever it
    returns or raises. *)
Lemma report_sent (f : UploadedFile) (fmt : string)
      (df : DataFrame) (md : string) :
  ingest_and_summarize_kpis lib f = (Some df, Some md, None) ->
  Py.contains "No numerical data" md = false ->
  sent (generate_report_and_insights lib ai (Some f) fmt)
  = sent (generate_kpi_summary ai md).
Proof.
  intros Hi Hc. unfold sent.
  destruct (report_cases lib ai f fmt)
    as [(err & Hi' & _) | (df' & md' & r & log & Hi' & _ & Hs & H)];
    rewrite Hi in Hi'; [discriminate |].
  inversion Hi'; subst df' md'.
  cbn [lacks_numerical_data] in Hs. rewrite Hc in Hs.
  rewrite H, Hs. reflexivity.
Qed.

End ReportRuns.

(** X16: a failed ingestion stops the run: the service is not called, the
    result has no summary, no link and no table, and its error text is "Data
    Ingestion Error: " followed by the error of the ingestion. *)
Theorem ingestion_failure_blocks
    (lib : Library) (ai : GenAI) (f : UploadedFile)
    (output_format message : string) :
  ingest_and_summarize_kpis lib f = (None, None, Some message) ->
  outcome (generate_report_and_insights lib ai (Some f) output_format)
  = Ok (EmptyString, None, false,
        Some ("Data Ingestion Error: " ++ message), None)
  /\ sent (generate_report_and_insights lib ai (Some f) output_format) = [].
Proof.
  intros Hi. unfold outcome, sent.
  destruct (report_cases lib ai f output_format)
    as [(err & Hi' & H) | (df & md & s & log & Hi' & _)];
    rewrite Hi in Hi'; [| discriminate].
  inversion Hi'; subst err. rewrite H. split; reflexivity.
Qed.

Lemma ingestion_failure_blocks_witness :
  outcome (generate_report_and_insights
             (Sample.library Sample.table) (Sample.answering "ok")
             (Some (mkUploadedFile "notes.txt" "bytes")) "markdown")
  = Ok (EmptyString, None, false,
        Some "Data Ingestion Error: Unsupported file type. Please upload a CSV, Excel (.xls, .xlsx), or JSON file.",
        None).
Proof.
  exact (proj1 (ingestion_failure_blocks
                  (Sample.library Sample.table) (Sample.answering "ok")
                  (mkUploadedFile "notes.txt" "bytes") "markdown"
                  unsupported_file_type eq_refl)).
Defined.

(** X17: when the digest text holds "No numerical data" (the sentinel of a
    table without numeric column), the service is not called; the run is a
    success whose summary is the fixed "No numerical KPIs" sentence, and the
    Markdown link decodes to that sentence. *)
Theorem no_numbers_no_call
    (lib : Library) (ai : GenAI) (f : UploadedFile) (output_format : string)
    (df : DataFrame) (digest : string) :
  ingest_and_summarize_kpis lib f = (Some df, Some digest, None) ->
  Py.contains "No numerical data" digest = true ->
  sent (generate_report_and_insights lib ai (Some f) output_format) = []
  /\ exists link,
       outcome (generate_report_and_insights lib ai (Some f) "markdown")
       = Ok (no_numerical_kpis, Some link, true, None, Some df)
       /\ DataUri.decoded link = Some no_numerical_kpis.
Proof.
  intros Hi Hc.
  assert (R : forall fmt,
             generate_report_and_insights lib ai (Some f) fmt []
             = (match fst (package lib f fmt no_numerical_kpis (Some df) [])
                with
                | Ok r => Ok r
                | Raised e =>
                    Ok (EmptyString, None, false, Some (unexpected_error e),
                        Some df)
                end, [])).
  { intros fmt.
    destruct (report_cases lib ai f fmt)
      as [(err & Hi' & _) | (df' & md & r & log & Hi' & _ & Hs & H)];
      rewrite Hi in Hi'; [discriminate |].
    inversion Hi'; subst df' md.
    cbn [lacks_numerical_data] in Hs. rewrite Hc in Hs.
    inversion Hs; subst r log. rewrite H. reflexivity. }
  unfold sent, outcome. split; [rewrite R; reflexivity |].
  rewrite R, package_markdown. cbn [fst].
  eexists. split; [reflexivity |].
  exact (proj2 (link_decodes "text/markdown" no_numerical_kpis eq_refl)).
Qed.

Lemma no_numbers_no_call_witness :
  sent (generate_report_and_insights
          (Sample.library Sample.text_table) (Sample.answering "ok")
          (Some Sample.report_csv) "html") = [].
Proof.
  exact (proj1 (no_numbers_no_call
                  (Sample.library Sample.text_table) (Sample.answering "ok")
                  Sample.report_csv "html" Sample.text_table
                  no_numerical_data eq_refl eq_refl)).
Defined.

(** X18: the output format is looked at only after the summary was
    obtained: for a format that is neither "markdown" nor "html" the calls
    to the service are those of the summarizer all the same, and the result
    is a failure that still carries the summary and the table, with the
    "Unsupported output format" error and no link. *)
Theorem unsupported_format_after_summary
    (lib : Library) (ai : GenAI) (f : UploadedFile) (output_format : string)
    (df : DataFrame) (digest summary : string) :
  ingest_and_summarize_kpis lib f = (Some df, Some digest, None) ->
  Py.contains "No numerical data" digest = false ->
  outcome (generate_kpi_summary ai digest) = Ok summary ->
  Py.truthy summary = true ->
  Py.startswith summary "ERROR:" = false ->
  output_format <> "markdown" -> output_format <> "html" ->
  outcome (generate_report_and_insights lib ai (Some f) output_format)
  = Ok (summary, None, false,
        Some "Unsupported output format for download.", Some df)
  /\ sent (generate_report_and_insights lib ai (Some f) output_format)
     = sent (generate_kpi_summary ai digest).
Proof.
  intros Hi Hc Hs Ht He N1 N2.
  destruct (report_after_summary lib ai f output_format df digest summary
              Hi Hc Hs) as (Hsent & Hout).
  split; [| exact Hsent].
  rewrite Hout, Ht, He. cbn [negb orb].
  destruct (package_cases lib f output_format summary (Some df))
    as [[E _] | [[E _] | (_ & _ & P)]]; try contradiction.
  rewrite P. reflexivity.
Qed.

Lemma unsupported_format_after_summary_witness :
  outcome (generate_report_and_insights
             (Sample.library Sample.table) (Sample.answering "Revenue grows.")
             (Some Sample.report_csv) "HTML")
  = Ok ("Revenue grows.", None, false,
        Some "Unsupported output format for download.", Some Sample.table).
Proof.
  refine (proj1 (unsupported_format_after_summary
            (Sample.library Sample.table) (Sample.answering "Revenue grows.")
            Sample.report_csv "HTML" Sample.table
            "|    | count | mean | std | min | 25% | 50% | 75% | max |"
            "Revenue grows." _ _ _ _ _ _ _));
    try reflexivity; discriminate.
Defined.

(** X19: when the Markdown renderer raises for the hypertext format, the
    exception is caught: the result is a failure with the "unexpected error"
    text and the message of the exception, no summary and no link, and the
    ingested table is still returned. *)
Theorem renderer_failure_is_caught
    (lib : Library) (ai : GenAI) (f : UploadedFile)
    (df : DataFrame) (digest summary : string) (e : exn) :
  ingest_and_summarize_kpis lib f = (Some df, Some digest, None) ->
  Py.contains "No numerical data" digest = false ->
  outcome (generate_kpi_summary ai digest) = Ok summary ->
  Py.truthy summary = true ->
  Py.startswith summary "ERROR:" = false ->
  markdown_markdown lib summary = Raised e ->
  outcome (generate_report_and_insights lib ai (Some f) "html")
  = Ok (EmptyString, None, false,
        Some ("An unexpected error occurred during report processing: "
              ++ exn_msg e),
        Some df).
Proof.
  intros Hi Hc Hs Ht He Hm.
  destruct (report_after_summary lib ai f "html" df digest summary
              Hi Hc Hs) as (_ & Hout).
  rewrite Hout, Ht, He. cbn [negb orb].
  unfold package. cbn [String.eqb Ascii.eqb Bool.eqb]. unfold_monad.
  rewrite Hm. reflexivity.
Qed.

Lemma renderer_failure_is_caught_witness :
  outcome (generate_report_and_insights
             MoreSamples.no_renderer (Sample.answering "Revenue grows.")
             (Some Sample.report_csv) "html")
  = Ok (EmptyString, None, false,
        Some "An unexpected error occurred during report processing: no extension tables",
        Some Sample.table).
Proof.
  refine (renderer_failure_is_caught
            MoreSamples.no_renderer (Sample.answering "Revenue grows.")
            Sample.report_csv Sample.table "digest" "Revenue grows."
            (Exn "ImportError" "no extension tables") _ _ _ _ _ _);
    reflexivity.
Defined.

(** X20: a generation that succeeds is reported as a failure when the text
    of the reply is empty or starts with "ERROR:": the result has no summary
    and no link, its error text is the reply itself (empty for an empty
    reply), and the table is returned. *)
Theorem reply_mistaken_for_error
    (lib : Library) (ai : GenAI) (f : UploadedFile) (output_format : string)
    (df : DataFrame) (digest model_name reply : string)
    (r : Response) (p : string) (ps : list string) :
  ingest_and_summarize_kpis lib f = (Some df, Some digest, None) ->
  Py.contains "No numerical data" digest = false ->
  outcome (initialize_model ai "KPI Summary") = Ok model_name ->
  generate_content ai model_name (kpi_prompt digest) temperature
  = Ok (Some r) ->
  resp_parts r = Ok (p :: ps) ->
  resp_text r = Ok reply ->
  reply = EmptyString \/ Py.startswith reply "ERROR:" = true ->
  outcome (generate_kpi_summary ai digest) = Ok reply
  /\ outcome (generate_report_and_insights lib ai (Some f) output_format)
     = Ok (EmptyString, None, false, Some reply, Some df).
Proof.
  intros Hi Hc Hinit Hg Hp Ht Hbad.
  assert (Hs : outcome (generate_kpi_summary ai digest) = Ok reply).
  { unfold outcome in *.
    destruct (initialize_model ai "KPI Summary" []) as [r0 l] eqn:Hrun.
    simpl in Hinit. subst r0.
    rewrite (summary_when_init_ok ai digest _ _ _ Hrun), Hg. cbn [fst].
    unfold extract_text. unfold_monad. rewrite Hp, Ht. reflexivity. }
  split; [exact Hs |].
  destruct (report_after_summary lib ai f output_format df digest reply
              Hi Hc Hs) as (_ & Hout).
  rewrite Hout.
  destruct Hbad as [E | E]; [subst reply; reflexivity |].
  rewrite E, orb_true_r. reflexivity.
Qed.

Lemma reply_mistaken_for_error_witness :
  outcome (generate_report_and_insights
             (Sample.library Sample.table)
             (Sample.answering "ERROR: margin of error is 2%")
             (Some Sample.report_csv) "markdown")
  = Ok (EmptyString, None, false, Some "ERROR: margin of error is 2%",
        Some Sample.table).
Proof.
  refine (proj2 (reply_mistaken_for_error
            (Sample.library Sample.table)
            (Sample.answering "ERROR: margin of error is 2%")
            Sample.report_csv "markdown" Sample.table
            "|    | count | mean | std | min | 25% | 50% | 75% | max |"
            "gemini-1.5-flash-latest" "ERROR: margin of error is 2%"
            (Sample.text_response "ERROR: margin of error is 2%")
            "ERROR: margin of error is 2%" [] _ _ _ _ _ _ _));
    try reflexivity.
  right. reflexivity.
Defined.

(** ** Names: the fields of a split *)

Module NameFacts.

Lemma concat_cons (x : string) (l : list string) :
  l <> [] ->
  String.concat "." (x :: l) = x ++ "." ++ String.concat "." l.
Proof. destruct l; [contradiction | reflexivity]. Qed.

(** joining the fields of a split with dots gives the string back *)
Lemma join_split (s : string) : String.concat "." (Py.split dot s) = s.
Proof.
  induction s as [|c s IH]; [reflexivity |].
  cbn [Py.split].
  destruct (Ascii.eqb_spec c dot) as [E|N].
  - subst c. rewrite concat_cons by apply PyFacts.split_not_nil.
    rewrite IH. reflexivity.
  - destruct (Py.split dot s) as [|h r] eqn:E.
    + exfalso. exact (PyFacts.split_not_nil s E).
    + destruct r as [|h' r'].
      * simpl in *. rewrite IH. reflexivity.
      * rewrite concat_cons in * by discriminate.
        rewrite <- IH. reflexivity.
Qed.

(** no field of a split holds the separator *)
Lemma fields_without_dot (s x : string) :
  In x (Py.split dot s) -> Py.contains "." x = false.
Proof.
  revert x. induction s as [|c s IH]; intros x H.
  - destruct H as [H | []]. subst x. reflexivity.
  - cbn [Py.split] in H.
    destruct (Ascii.eqb_spec c dot) as [E|N].
    + destruct H as [H | H]; [subst x; reflexivity | apply IH, H].
    + destruct (Py.split dot s) as [|h r] eqn:E.
      * destruct H as [H | []]. subst x.
        cbn [Py.contains]. rewrite PyFacts.prefix_dot.
        replace (Ascii.eqb "." c) with false; [reflexivity |].
        symmetry. apply Ascii.eqb_neq. intros C. apply N. subst c.
        reflexivity.
      * destruct H as [H | H].
        -- subst x. cbn [Py.contains]. rewrite PyFacts.prefix_dot.
           replace (Ascii.eqb "." c) with false.
           ++ apply IH. left. reflexivity.
           ++ symmetry. apply Ascii.eqb_neq. intros C. apply N. subst c.
              reflexivity.
        -- apply IH. right. exact H.
Qed.

Lemma last_in (l : list string) : l <> [] -> In (Py.last l) l.
Proof.
  unfold Py.last. induction l as [|x l IH]; [contradiction |].
  intros _. destruct l as [|y l']; [left; reflexivity |].
  right. apply IH. discriminate.
Qed.

(** lower-casing neither makes nor removes a dot *)
Lemma lower_keeps_dots (s : string) :
  Py.contains "." (Py.lower s) = Py.contains "." s.
Proof.
  induction s as [|c s IH]; [reflexivity |].
  cbn [Py.lower Py.contains]. rewrite !PyFacts.prefix_dot, IH.
  f_equal. destruct c as [[] [] [] [] [] [] [] []]; reflexivity.
Qed.

End NameFacts.

(** X21: the two parts taken from a file name.  The prefix used for the
    title (line 103) holds no dot and the name is this prefix, alone or
    followed by a dot and the rest; the extension (line 28) holds no dot and
    is the lower-cased last field of the name; and the fields of the name,
    joined with dots, give the name back. *)
Theorem name_parts (file_name : string) :
  let prefix := download_filename_prefix file_name in
  Py.contains "." prefix = false
  /\ (file_name = prefix \/ exists rest, file_name = prefix ++ "." ++ rest)
  /\ Py.contains "." (file_extension file_name) = false
  /\ String.concat "." (Py.split dot file_name) = file_name.
Proof.
  intros prefix. subst prefix. unfold download_filename_prefix, file_extension.
  pose proof (NameFacts.join_split file_name) as J.
  pose proof (NameFacts.fields_without_dot file_name) as F.
  pose proof (PyFacts.split_not_nil file_name) as N.
  destruct (Py.split dot file_name) as [|p r] eqn:E; [contradiction |].
  split; [apply F; left; reflexivity |].
  split.
  - cbn [Py.first hd]. destruct r as [|x r'].
    + left. symmetry. exact J.
    + right. exists (String.concat "." (x :: r')).
      rewrite NameFacts.concat_cons in J by discriminate.
      symmetry. exact J.
  - split; [| exact J].
    rewrite NameFacts.lower_keeps_dots. apply F.
    apply NameFacts.last_in. discriminate.
Qed.

(** ** The characters of a link *)

Module LinkFacts.

Import Base64.

Lemma char_of_is_b64 (i : N) : (i < 64)%N -> is_b64_char (char_of i) = true.
Proof.
  intros H. unfold is_b64_char.
  rewrite (Base64Facts.index_of_char_of i H). reflexivity.
Qed.

(** the encoding holds only characters of the alphabet and padding *)
Lemma b64encode_chars (s : string) :
  all_chars is_b64_char (b64encode s) = true.
Proof.
  induction s as [| a | a b | a b c t IH] using Base64Facts.string_ind3.
  - reflexivity.
  - pose proof (N_ascii_bounded a) as Ha.
    destruct (Base64Facts.sextets (N_of_ascii a) 0 0 Ha)
      as (S0 & S1 & _); try reflexivity.
    change (0 / 16)%N with 0%N in S1. rewrite N.add_0_r in S1.
    cbn [b64encode all_chars].
    rewrite !char_of_is_b64 by assumption. reflexivity.
  - pose proof (N_ascii_bounded a) as Ha.
    pose proof (N_ascii_bounded b) as Hb.
    destruct (Base64Facts.sextets (N_of_ascii a) (N_of_ascii b) 0 Ha Hb)
      as (S0 & S1 & S2 & _); try reflexivity.
    change (0 / 64)%N with 0%N in S2. rewrite N.add_0_r in S2.
    cbn [b64encode all_chars].
    rewrite !char_of_is_b64 by assumption. reflexivity.
  - pose proof (N_ascii_bounded a) as Ha.
    pose proof (N_ascii_bounded b) as Hb.
    pose proof (N_ascii_bounded c) as Hc.
    destruct (Base64Facts.sextets (N_of_ascii a) (N_of_ascii b)
                (N_of_ascii c) Ha Hb Hc) as (S0 & S1 & S2 & S3 & _).
    cbn [b64encode all_chars].
    rewrite !char_of_is_b64 by assumption. exact IH.
Qed.

(** four characters for every three bytes, the last group padded *)
Lemma b64encode_length (s : string) :
  String.length (b64encode s) = (4 * ((String.length s + 2) / 3))%nat.
Proof.
  induction s as [| a | a b | a b c t IH] using Base64Facts.string_ind3;
    try reflexivity.
  cbn [b64encode String.length]. rewrite IH.
  replace (S (S (S (String.length t))) + 2)%nat
    with (1 * 3 + (String.length t + 2))%nat by lia.
  rewrite Nat.div_add_l by discriminate. lia.
Qed.

End LinkFacts.

(** X22: every link a report carries is the text "data:text/", the output
    format, ";base64," and a payload made only of characters of the base64
    alphabet and of '=', whose length is a multiple of four. *)
Theorem report_link_well_formed
    (lib : Library) (ai : GenAI) (f : UploadedFile)
    (output_format summary link : string) (success : bool)
    (error : option string) (table : option DataFrame) :
  outcome (generate_report_and_insights lib ai (Some f) output_format)
  = Ok (summary, Some link, success, error, table) ->
  exists payload,
    link = "data:text/" ++ output_format ++ ";base64," ++ payload
    /\ all_chars is_b64_char payload = true
    /\ Nat.modulo (String.length payload) 4 = 0%nat.
Proof.
  intros H. apply report_link in H as [df0 H].
  assert (L : forall bytes,
             Nat.modulo (String.length (Base64.b64encode bytes)) 4 = 0%nat).
  { intros bytes. rewrite LinkFacts.b64encode_length.
    rewrite Nat.mul_comm. apply Nat.Div0.mod_mul. }
  destruct (package_cases lib f output_format summary df0)
    as [[E P] | [[E [(html & _ & P) | (e & _ & P)]] | (_ & _ & P)]];
    rewrite P in H; try discriminate H.
  - exists (Base64.b64encode summary).
    assert (El : link = "data:text/markdown;base64,"
                        ++ Base64.b64encode summary) by congruence.
    split; [rewrite El, E; reflexivity |].
    split; [apply LinkFacts.b64encode_chars | apply L].
  - exists (Base64.b64encode
              (html_content (download_filename_prefix (file_name f)) html)).
    assert (El : link = "data:text/html;base64,"
                        ++ Base64.b64encode
                             (html_content
                                (download_filename_prefix (file_name f))
                                html)) by congruence.
    split; [rewrite El, E; reflexivity |].
    split; [apply LinkFacts.b64encode_chars | apply L].
Qed.

Lemma report_link_well_formed_witness :
  exists payload,
    "data:text/markdown;base64,UmV2ZW51ZSBncm93cy4="
    = "data:text/" ++ "markdown" ++ ";base64," ++ payload
    /\ all_chars is_b64_char payload = true.
Proof.
  destruct (report_link_well_formed
              (Sample.library Sample.table)
              (Sample.answering "Revenue grows.") Sample.report_csv
              "markdown" "Revenue grows."
              "data:text/markdown;base64,UmV2ZW51ZSBncm93cy4="
              true None (Some Sample.table) eq_refl)
    as (payload & E & C & _).
  exists payload. split; assumption.
Defined.

(** ** main.py: the chat block *)

Section ChatBlockFacts.

Variable table_to_markdown : DataFrame -> result string.
Variable ai : GenAI.

Lemma context_after_prompt (s : Session) (m : Message) :
  context_for_chat table_to_markdown (with_message s m)
  = context_for_chat table_to_markdown s.
Proof. reflexivity. Qed.

(** the block on a prompt that is not empty, once the context is there *)
Lemma chat_block_run (s : Session) (p context : string) (log : list Event) :
  Py.truthy p = true ->
  context_for_chat table_to_markdown s = Ok context ->
  chat_block table_to_markdown ai s (Some p) log
  = let s1 := with_message s (mkMessage "user" p) in
    match chat_with_llm ai context p (messages s1) log with
    | (Ok reply, log') =>
        (with_message s1 (mkMessage "assistant" reply), Ok tt, log')
    | (Raised e, log') => (s1, Raised e, log')
    end.
Proof.
  intros Ht Hc. unfold chat_block. rewrite Ht, context_after_prompt, Hc.
  reflexivity.
Qed.

End ChatBlockFacts.

(** X23: the chat block appends the prompt to the session before it calls
    [chat_with_llm] with the session's messages and the prompt: the provider
    receives the prompt twice in a row, as the last turn of the history and
    as the new message. *)
Theorem chat_block_sends_prompt_twice
    (table_to_markdown : DataFrame -> result string) (ai : GenAI)
    (s : Session) (p context model_name : string) (turns : list Turn) :
  Py.truthy p = true ->
  context_for_chat table_to_markdown s = Ok context ->
  outcome (initialize_model ai "Chatbot") = Ok model_name ->
  formatted_history (messages s) = Ok turns ->
  (forall history, start_chat ai model_name history = Ok tt) ->
  provider_turns (snd (chat_block table_to_markdown ai s (Some p) []))
  = Some (initial_message context
          :: turns ++ [mkTurn "user" [p]; mkTurn "user" [p]])%list.
Proof.
  intros Ht Hc Hi Hf Hs.
  rewrite (chat_block_run table_to_markdown ai s p context [] Ht Hc).
  cbv zeta. cbn [messages with_message].
  pose proof (formatted_history_app (messages s) turns (mkMessage "user" p)
                (mkTurn "user" [p]) Hf eq_refl) as Hf'.
  destruct (chat_sent ai context p (messages s ++ [mkMessage "user" p])%list
              model_name _ Hi Hf' (Hs _)) as (key & _ & Hsent).
  unfold sent in Hsent.
  destruct (chat_with_llm ai context p
              (messages s ++ [mkMessage "user" p])%list [])
    as [[reply|e] log'] eqn:Hrun; cbn [snd] in *; subst log';
    cbn [provider_turns];
    rewrite <- app_comm_cons, <- app_assoc; reflexivity.
Qed.

Lemma chat_block_sends_prompt_twice_witness :
  provider_turns
    (snd (chat_block (fun _ => Ok "table") (Sample.answering "A2")
            MoreSamples.session (Some "Q2") []))
  = Some [initial_message "table"; mkTurn "user" ["Q1"];
          mkTurn "model" ["A1"]; mkTurn "user" ["Q2"]; mkTurn "user" ["Q2"]].
Proof.
  exact (chat_block_sends_prompt_twice
           (fun _ => Ok "table") (Sample.answering "A2") MoreSamples.session
           "Q2" "table" "gemini-1.5-flash-latest"
           [mkTurn "user" ["Q1"]; mkTurn "model" ["A1"]]
           eq_refl eq_refl eq_refl eq_refl (fun _ => eq_refl)).
Defined.

(** X24: what the chat block leaves in the session for a prompt that is not
    empty.  When it returns, the messages have grown by the prompt, as a
    user message, and by whatever [chat_with_llm] returned, as an assistant
    message: also its "ERROR:" text when the sending failed.  When it raises
    (the table cannot be rendered, or [chat_with_llm] raises), the prompt
    stays in the messages without any reply.  The table and the summary text
    of the session are never changed. *)
Theorem chat_block_session
    (table_to_markdown : DataFrame -> result string) (ai : GenAI)
    (s : Session) (p : string) :
  Py.truthy p = true ->
  let '(s', r, _) := chat_block table_to_markdown ai s (Some p) [] in
  df_kpis s' = df_kpis s
  /\ kpi_summary_text s' = kpi_summary_text s
  /\ match r with
     | Ok _ =>
         exists context reply,
           context_for_chat table_to_markdown s = Ok context
           /\ outcome (chat_with_llm ai context p
                         (messages s ++ [mkMessage "user" p])%list)
              = Ok reply
           /\ messages s'
              = (messages s ++ [mkMessage "user" p;
                                mkMessage "assistant" reply])%list
           /\ (forall model_name turns e,
                 outcome (initialize_model ai "Chatbot") = Ok model_name ->
                 formatted_history (messages s ++ [mkMessage "user" p])%list
                 = Ok turns ->
                 send_message ai model_name (initial_message context :: turns)
                              p
                 = Raised e ->
                 reply
                 = "ERROR: An error occurred while calling the Google Generative AI API for chatbot: "
                   ++ exn_msg e)
     | Raised _ => messages s' = (messages s ++ [mkMessage "user" p])%list
     end.
Proof.
  intros Ht.
  destruct (context_for_chat table_to_markdown s) as [context|e] eqn:Hc.
  - rewrite (chat_block_run table_to_markdown ai s p context [] Ht Hc).
    cbv zeta. cbn [messages with_message].
    destruct (chat_with_llm ai context p
                (messages s ++ [mkMessage "user" p])%list [])
      as [[reply|e] log'] eqn:Hrun.
    + split; [reflexivity |]. split; [reflexivity |].
      exists context, reply. split; [reflexivity |].
      split; [unfold outcome; rewrite Hrun; reflexivity |].
      split; [cbn [messages with_message]; rewrite <- app_assoc;
              reflexivity |].
      intros m turns e Hi Hf Hsend. unfold outcome in Hi.
      destruct (initialize_model ai "Chatbot" []) as [r0 l] eqn:Hinit.
      simpl in Hi. subst r0.
      rewrite (chat_when_init_ok ai context p _ _ _ _ turns Hinit Hf)
        in Hrun.
      rewrite Hsend, chat_call_handler_result in Hrun.
      destruct (start_chat ai m _) as [[]|e']; [| discriminate Hrun].
      destruct (print ai _) as [[]|e']; inversion Hrun. reflexivity.
    + split; [reflexivity |]. split; reflexivity.
  - unfold chat_block. rewrite Ht, context_after_prompt, Hc.
    split; [reflexivity |]. split; reflexivity.
Qed.

Lemma chat_block_session_witness :
  messages (fst (fst (chat_block (fun _ => Ok "table") MoreSamples.no_session
                        MoreSamples.session (Some "Q2") [])))
  = [mkMessage "user" "Q1"; mkMessage "assistant" "A1";
     mkMessage "user" "Q2"]
  /\ messages (fst (fst (chat_block (fun _ => Ok "table") Sample.failing
                           MoreSamples.session (Some "Q2") [])))
     = [mkMessage "user" "Q1"; mkMessage "assistant" "A1";
        mkMessage "user" "Q2";
        mkMessage "assistant"
          "ERROR: An error occurred while calling the Google Generative AI API for chatbot: 503 service unavailable"].
Proof.
  pose proof (chat_block_session (fun _ => Ok "table") MoreSamples.no_session
                MoreSamples.session "Q2" eq_refl) as H1.
  pose proof (chat_block_session (fun _ => Ok "table") Sample.failing
                MoreSamples.session "Q2" eq_refl) as H2.
  split.
  - destruct H1 as (_ & _ & H1). exact H1.
  - destruct H2 as (_ & _ & (context & reply & Hc & _ & H2 & Hr)).
    injection Hc as Hc. subst context.
    rewrite (Hr "gemini-1.5-flash-latest"
                [mkTurn "user" ["Q1"]; mkTurn "model" ["A1"];
                 mkTurn "user" ["Q2"]]
                (Exn "ServiceUnavailable" "503 service unavailable")
                eq_refl eq_refl eq_refl) in H2.
    exact H2.
Defined.

(** X25: the calls of one analysis.  When the file was ingested with a
    digest that goes to the summarizer and the model initialises, the run
    makes four calls: the configuration with the key, the listing, the
    model, and a single generation call whose prompt is the fixed prompt
    around the digest text, the serialization of the statistics of the
    numeric columns; nothing else of the table is sent. *)
Theorem analysis_calls
    (lib : Library) (ai : GenAI) (f : UploadedFile) (output_format : string)
    (df : DataFrame) (digest model_name : string) :
  ingest_and_summarize_kpis lib f = (Some df, Some digest, None) ->
  Py.contains "No numerical data" digest = false ->
  outcome (initialize_model ai "KPI Summary") = Ok model_name ->
  exists key,
    GOOGLE_API_KEY ai = Some key
    /\ sent (generate_report_and_insights lib ai (Some f) output_format)
       = [EvConfigure key; EvListModels; EvGenerativeModel model_name;
          EvGenerateContent model_name (kpi_prompt digest) (2 # 10)]
    /\ to_markdown lib (transpose (describe (select_dtypes_number df)))
       = Ok digest.
Proof.
  intros Hi Hc Hinit.
  pose proof (report_sent lib ai f output_format df digest Hi Hc) as Hsent.
  unfold outcome in Hinit.
  destruct (initialize_model ai "KPI Summary" []) as [r l] eqn:Hrun.
  simpl in Hinit. subst r.
  destruct (initialize_model_ok ai _ _ _ _ Hrun)
    as (key & Hk & _ & _ & _ & _ & Hl).
  exists key. split; [exact Hk |].
  split.
  - rewrite Hsent. unfold sent.
    rewrite (summary_when_init_ok ai digest _ _ _ Hrun). cbn [snd].
    subst l. reflexivity.
  - destruct (ingest_success lib f df digest Hi) as [_ [E | E]];
      [| exact E].
    subst digest. discriminate Hc.
Qed.

Lemma analysis_calls_witness :
  sent (generate_report_and_insights
          (Sample.library Sample.table) (Sample.answering "Revenue grows.")
          (Some Sample.report_csv) "markdown")
  = [EvConfigure "secret"; EvListModels;
     EvGenerativeModel "gemini-1.5-flash-latest";
     EvGenerateContent "gemini-1.5-flash-latest"
       (kpi_prompt "|    | count | mean | std | min | 25% | 50% | 75% | max |")
       (2 # 10)].
Proof.
  destruct (analysis_calls
              (Sample.library Sample.table) (Sample.answering "Revenue grows.")
              Sample.report_csv "markdown" Sample.table
              "|    | count | mean | std | min | 25% | 50% | 75% | max |"
              "gemini-1.5-flash-latest" eq_refl eq_refl eq_refl)
    as (key & Hk & Hs & _).
  injection Hk as Hk. subst key. exact Hs.
Defined.
